(** * mtga_follower: a shallow embedding of the log follower

    The development follows [src/mtga_follower.py].  Python values that
    come out of the JSON decoder are modelled by the inductive type
    [json]; the methods of class [Follower] become functions in a small
    state-and-exception monad over a record holding the attributes of
    [self].  Library code the program calls but does not contain
    (datetime, json, requests, the iteration order of a set) is collected
    in the class [PyLib]; [ref_lib] is an instance of it on which the
    examples run.

    Text is ASCII, numbers are integers, [assert] statements are enabled,
    and [time.sleep] and the calls of [logging] are recorded as events
    next to the requests that are posted. *)

From Stdlib Require Import ZArith List String Ascii Bool Lia Permutation DecimalString.
Import ListNotations.
Open Scope string_scope.
Open Scope Z_scope.
Open Scope list_scope.
Set Warnings "-register-all".

(** ** Python values *)

(** Values produced by [json.JSONDecoder]: [None], [bool], [int], [str],
    [list] and [dict].  A [dict] is kept as an association list in
    insertion order; its keys are pairwise distinct.  Numbers with a
    fraction or an exponent (Python floats) are outside the model. *)
Inductive json : Type :=
| JNull
| JBool (b : bool)
| JInt (n : Z)
| JStr (s : string)
| JArr (l : list json)
| JObj (kvs : list (string * json)).

(** The exceptions the program can meet.  All of them derive from
    [Exception]; [JSONDecodeError] is the only one caught by name apart
    from [ValueError]. *)
Inductive exn : Type :=
| KeyError
| TypeError
| AttributeError
| IndexError
| ValueError
| AssertionError
| UnboundLocalError
| JSONDecodeError
| OtherError (name : string).

Inductive result (A : Type) : Type :=
| Ok (a : A)
| Raise (e : exn).
Arguments Ok {A} a.
Arguments Raise {A} e.

Definition rbind {A B} (r : result A) (f : A -> result B) : result B :=
  match r with
  | Ok a => f a
  | Raise e => Raise e
  end.

(** Lookup and update in a [dict] with [str] keys. *)
Fixpoint dict_get {V} (k : string) (d : list (string * V)) : option V :=
  match d with
  | [] => None
  | (k', v) :: r => if String.eqb k' k then Some v else dict_get k r
  end.

Fixpoint dict_set {V} (k : string) (v : V) (d : list (string * V)) : list (string * V) :=
  match d with
  | [] => [(k, v)]
  | (k', v') :: r => if String.eqb k' k then (k', v) :: r else (k', v') :: dict_set k v r
  end.

Definition dict_has {V} (k : string) (d : list (string * V)) : bool :=
  match dict_get k d with Some _ => true | None => false end.

(** Python's [==] on decoded values.  [True == 1] and [False == 0] hold,
    lists compare element by element, dicts compare as finite maps. *)
Fixpoint py_eq (a b : json) {struct a} : bool :=
  match a, b with
  | JNull, JNull => true
  | JBool x, JBool y => Bool.eqb x y
  | JBool x, JInt n => Z.b2z x =? n
  | JInt n, JBool x => n =? Z.b2z x
  | JInt m, JInt n => m =? n
  | JStr s, JStr t => String.eqb s t
  | JArr l, JArr l' =>
      (fix go (l l' : list json) {struct l} : bool :=
         match l, l' with
         | [], [] => true
         | x :: xs, y :: ys => py_eq x y && go xs ys
         | _, _ => false
         end) l l'
  | JObj kvs, JObj kvs' =>
      Nat.eqb (List.length kvs) (List.length kvs') &&
      (fix go (kvs : list (string * json)) : bool :=
         match kvs with
         | [] => true
         | (k, v) :: r =>
             match dict_get k kvs' with
             | Some v' => py_eq v v'
             | None => false
             end && go r
         end) kvs
  | _, _ => false
  end.

(** Truth value of an object, as [if x] reads it. *)
Definition py_truthy (x : json) : bool :=
  match x with
  | JNull => false
  | JBool b => b
  | JInt n => negb (n =? 0)
  | JStr s => negb (String.eqb s "")
  | JArr l => match l with [] => false | _ => true end
  | JObj d => match d with [] => false | _ => true end
  end.

(** Lists and dicts cannot be hashed: using one as a dict key or as a
    member of a set raises [TypeError]. *)
Definition py_hashable (x : json) : bool :=
  match x with
  | JArr _ | JObj _ => false
  | _ => true
  end.

Definition chars (s : string) : list json :=
  map (fun c => JStr (String c EmptyString)) (list_ascii_of_string s).

Definition is_substring (needle hay : string) : bool :=
  match index 0 needle hay with Some _ => true | None => false end.

(** [k in c] for a [str] [k]. *)
Definition py_in (k : string) (c : json) : result bool :=
  match c with
  | JObj d => Ok (dict_has k d)
  | JArr l => Ok (existsb (py_eq (JStr k)) l)
  | JStr s => Ok (is_substring k s)
  | _ => Raise TypeError
  end.

(** [c[k]] for a [str] [k]. *)
Definition py_getitem (c : json) (k : string) : result json :=
  match c with
  | JObj d => match dict_get k d with Some v => Ok v | None => Raise KeyError end
  | _ => Raise TypeError
  end.

(** [c.get(k, dflt)]: only a dict has the method. *)
Definition py_get (c : json) (k : string) (dflt : json) : result json :=
  match c with
  | JObj d => Ok (match dict_get k d with Some v => v | None => dflt end)
  | _ => Raise AttributeError
  end.

(** [c[i]] for a non-negative [int] [i]. *)
Definition py_index (c : json) (i : nat) : result json :=
  match c with
  | JArr l => match nth_error l i with Some v => Ok v | None => Raise IndexError end
  | JStr s => match nth_error (chars s) i with Some v => Ok v | None => Raise IndexError end
  | JObj _ => Raise KeyError
  | _ => Raise TypeError
  end.

(** The elements [for x in c] visits. *)
Definition py_iter (c : json) : result (list json) :=
  match c with
  | JArr l => Ok l
  | JObj d => Ok (map (fun kv => JStr (fst kv)) d)
  | JStr s => Ok (chars s)
  | _ => Raise TypeError
  end.

(** [reversed(c)] (dicts are reversible from Python 3.8 on). *)
Definition py_reversed (c : json) : result (list json) :=
  rbind (py_iter c) (fun l => Ok (rev l)).

Definition py_len (c : json) : result nat :=
  match c with
  | JArr l => Ok (List.length l)
  | JObj d => Ok (List.length d)
  | JStr s => Ok (String.length s)
  | _ => Raise TypeError
  end.

(** The number of rounds of [for j in range(c)]. *)
Definition py_range (c : json) : result nat :=
  match c with
  | JInt n => Ok (Z.to_nat n)
  | JBool b => Ok (Z.to_nat (Z.b2z b))
  | _ => Raise TypeError
  end.

Definition is_dict (c : json) : bool :=
  match c with JObj _ => true | _ => false end.

Definition Z_to_string (n : Z) : string := NilZero.string_of_int (Z.to_int n).

(** ** Strings *)

Definition is_digit (c : ascii) : bool :=
  let n := nat_of_ascii c in ((48 <=? n) && (n <=? 57))%nat.

Definition digit_val (c : ascii) : Z := Z.of_nat (nat_of_ascii c) - 48.

(** ASCII characters that are white space for [str]: what [str.strip]
    removes and what [\s] matches. *)
Definition is_space (c : ascii) : bool :=
  let n := nat_of_ascii c in
  (((9 <=? n) && (n <=? 13)) || ((28 <=? n) && (n <=? 32)))%nat.

(** The white space [int] skips around the digits of an ASCII [str]:
    tab to carriage return, and the blank.  The separators 28 to 31 are
    not among them: [int] rejects a text that has one. *)
Definition is_int_space (c : ascii) : bool :=
  let n := nat_of_ascii c in
  (((9 <=? n) && (n <=? 13)) || (n =? 32))%nat.

Fixpoint drop_while {A} (p : A -> bool) (l : list A) : list A :=
  match l with
  | [] => []
  | x :: r => if p x then drop_while p r else l
  end.

Fixpoint take_while {A} (p : A -> bool) (l : list A) : list A :=
  match l with
  | [] => []
  | x :: r => if p x then x :: take_while p r else []
  end.

Definition strip (p : ascii -> bool) (l : list ascii) : list ascii :=
  rev (drop_while p (rev (drop_while p l))).

(** Decimal digits with single underscores between them, as [int] reads
    a string. *)
Fixpoint digits_val (acc : Z) (after_digit : bool) (l : list ascii) : option Z :=
  match l with
  | [] => if after_digit then Some acc else None
  | c :: r =>
      if is_digit c then digits_val (10 * acc + digit_val c) true r
      else if Ascii.eqb c "_" && after_digit then
        match r with
        | d :: _ => if is_digit d then digits_val acc false r else None
        | [] => None
        end
      else None
  end.

Definition int_of_str (s : string) : option Z :=
  match strip is_int_space (list_ascii_of_string s) with
  | "-"%char :: r => option_map Z.opp (digits_val 0 false r)
  | "+"%char :: r => digits_val 0 false r
  | l => digits_val 0 false l
  end.

(** [int(x)]. *)
Definition py_int (x : json) : result Z :=
  match x with
  | JInt n => Ok n
  | JBool b => Ok (Z.b2z b)
  | JStr s => match int_of_str s with Some n => Ok n | None => Raise ValueError end
  | _ => Raise TypeError
  end.

Fixpoint split_at_first (c : ascii) (l : list ascii) : option (list ascii * list ascii) :=
  match l with
  | [] => None
  | x :: r =>
      if Ascii.eqb x c then Some ([], r)
      else option_map (fun p => (x :: fst p, snd p)) (split_at_first c r)
  end.

(** [(a, b, c) = x.rsplit(':', 2)]: the method exists on [str] only, and
    the unpacking needs exactly three parts. *)
Definition py_rsplit3 (x : json) : result (string * string * string) :=
  match x with
  | JStr s =>
      match split_at_first ":" (rev (list_ascii_of_string s)) with
      | Some (c, r) =>
          match split_at_first ":" r with
          | Some (b, a) =>
              Ok (string_of_list_ascii (rev a), string_of_list_ascii (rev b),
                  string_of_list_ascii (rev c))
          | None => Raise ValueError
          end
      | None => Raise ValueError
      end
  | _ => Raise AttributeError
  end.

Fixpoint strip_prefix (p l : list ascii) : option (list ascii) :=
  match p, l with
  | [], _ => Some l
  | a :: p', b :: l' => if Ascii.eqb a b then strip_prefix p' l' else None
  | _ :: _, [] => None
  end.

(** The longest [before] with [s = before ++ lit ++ after] and [ok after]:
    what a greedy [.*] in front of the literal [lit] settles on. *)
Fixpoint last_split (lit : list ascii) (ok : list ascii -> bool) (s : list ascii)
  : option (list ascii * list ascii) :=
  let here :=
    match strip_prefix lit s with
    | Some a => if ok a then Some ([], a) else None
    | None => None
    end in
  match s with
  | [] => here
  | c :: r =>
      match last_split lit ok r with
      | Some (b, a) => Some (c :: b, a)
      | None => here
      end
  end.

Definition is_some {A} (o : option A) : bool :=
  match o with Some _ => true | None => false end.

(** ** The module's regular expressions

    Each pattern is anchored at the start of the line and is matched the
    way [re] does, greedy quantifiers first. *)

Definition str (s : string) : list ascii := list_ascii_of_string s.

(** [LOG_START_REGEX_UNTIMED]: the text after the marker, [line[match.end():]]. *)
Definition LOG_START_REGEX_UNTIMED (line : list ascii) : option (list ascii) :=
  match strip_prefix (str "[UnityCrossThreadLogger]") line with
  | Some r => Some r
  | None => strip_prefix (str "[Client GRE]") line
  end.

Definition in_chars (s : string) (c : ascii) : bool :=
  existsb (Ascii.eqb c) (str s).

(** [LOG_START_REGEX_TIMED]: [group(2)] and the text after the match. *)
Definition LOG_START_REGEX_TIMED (line : list ascii) : option (list ascii * list ascii) :=
  match LOG_START_REGEX_UNTIMED line with
  | None => None
  | Some r =>
      let cls c := is_digit c || in_chars ":/ -" c in
      let run := take_while cls r in
      let r' := drop_while cls r in
      match run with
      | [] => None
      | _ =>
          match strip_prefix (str "AM") r' with
          | Some r'' => Some (run ++ str "AM", r'')
          | None =>
              match strip_prefix (str "PM") r' with
              | Some r'' => Some (run ++ str "PM", r'')
              | None => Some (run, r')
              end
          end
      end
  end.

(** A non-empty run of characters of a class followed by one character
    of [stop]: the run, the stop character and the rest. *)
Definition run_then (cls : ascii -> bool) (stop : string) (l : list ascii)
  : option (list ascii * ascii * list ascii) :=
  match take_while cls l, drop_while cls l with
  | (_ :: _) as run, c :: r => if in_chars stop c then Some (run, c, r) else None
  | _, _ => None
  end.

(** [TIMESTAMP_REGEX]: [group(1)]. *)
Definition TIMESTAMP_REGEX (line : list ascii) : option (list ascii) :=
  match run_then (fun c => is_digit c || in_chars "/.-" c) " T" line with
  | None => None
  | Some (date, sep, r1) =>
      match run_then is_digit ":" r1 with
      | None => None
      | Some (hh, _, r2) =>
          match run_then is_digit ":" r2 with
          | None => None
          | Some (mm, _, r3) =>
              match take_while is_digit r3 with
              | [] => None
              | ss =>
                  let r4 := drop_while is_digit r3 in
                  let half :=
                    match strip_prefix (str " AM") r4 with
                    | Some _ => str " AM"
                    | None =>
                        match strip_prefix (str " PM") r4 with
                        | Some _ => str " PM"
                        | None => []
                        end
                    end in
                  Some (date ++ sep :: hh ++ ":"%char :: mm ++ ":"%char :: ss ++ half)
              end
          end
      end
  end.

Definition newline : ascii := ascii_of_nat 10.

(** [ACCOUNT_INFO_REGEX]: [group(1)] and [group(2)].  A dot does not match
    a newline, so the whole match lies before the first one. *)
Definition ACCOUNT_INFO_REGEX (line : list ascii) : option (list ascii * list ascii) :=
  let l := take_while (fun c => negb (Ascii.eqb c newline)) line in
  let token := last_split (str ", Token:") (fun _ => true) in
  let account := last_split (str ", AccountID:") (fun r => is_some (token r)) in
  match last_split (str "Updated account. DisplayName:") (fun r => is_some (account r)) l with
  | None => None
  | Some (_, r1) =>
      match account r1 with
      | None => None
      | Some (name, r2) =>
          match token r2 with
          | None => None
          | Some (id, _) => Some (name, id)
          end
      end
  end.

(** [JSON_START_REGEX.search(s)]: [match.start()]. *)
Fixpoint JSON_START_REGEX (l : list ascii) (i : nat) : option nat :=
  match l with
  | [] => None
  | c :: r => if in_chars "[{" c then Some i else JSON_START_REGEX r (S i)
  end.

Definition TIME_FORMATS : list string :=
  [ "%Y-%m-%d %I:%M:%S %p"; "%Y-%m-%d %H:%M:%S";
    "%m/%d/%Y %I:%M:%S %p"; "%m/%d/%Y %H:%M:%S";
    "%Y/%m/%d %I:%M:%S %p"; "%Y/%m/%d %H:%M:%S" ].

Definition CLIENT_VERSION : string := "0.1.8".
Definition ENDPOINT_USER : string := "api/account".
Definition ENDPOINT_DECK_SUBMISSION : string := "deck".
Definition ENDPOINT_EVENT_SUBMISSION : string := "event".
Definition ENDPOINT_GAME_RESULT : string := "game".
Definition ENDPOINT_DRAFT_PACK : string := "pack".
Definition ENDPOINT_DRAFT_PICK : string := "pick".
Definition ENDPOINT_HUMAN_DRAFT_PICK : string := "human_draft_pick".
Definition ENDPOINT_COLLECTION : string := "collection".

Definition RETRIES : Z := 2.
Definition IS_CODE_FOR_RETRY (code : Z) : bool := (500 <=? code) && (code <? 600).
Definition DEFAULT_RETRY_SLEEP_TIME : Z := 1.

(** ** Dicts keyed by decoded values

    The aggregator's [defaultdict]s are keyed by seat and instance ids
    taken from messages.  Keys are compared with [==]; an update keeps the
    key's place, a new key goes last. *)
Definition pydict (V : Type) : Type := list (json * V).

Fixpoint pd_get {V} (k : json) (d : pydict V) : option V :=
  match d with
  | [] => None
  | (k', v) :: r => if py_eq k' k then Some v else pd_get k r
  end.

Fixpoint pd_set {V} (k : json) (v : V) (d : pydict V) : pydict V :=
  match d with
  | [] => [(k, v)]
  | (k', v') :: r => if py_eq k' k then (k', v) :: r else (k', v') :: pd_set k v r
  end.

(** [d.get(k, dflt)]. *)
Definition lookup {V} (dflt : V) (k : json) (d : pydict V) : V :=
  match pd_get k d with Some v => v | None => dflt end.

(** A [defaultdict] after [d[k]] was read: a missing key is inserted
    with the default. *)
Definition touch {V} (dflt : V) (k : json) (d : pydict V) : pydict V :=
  match pd_get k d with Some _ => d | None => pd_set k dflt d end.

(** [d[k]] on a [defaultdict]: the value and the dict afterwards; an
    unhashable key raises. *)
Definition dd_getitem {V} (dflt : V) (k : json) (d : pydict V) : result (V * pydict V) :=
  if py_hashable k then Ok (lookup dflt k d, touch dflt k d) else Raise TypeError.

(** [d[k] = v]. *)
Definition dd_setitem {V} (k : json) (v : V) (d : pydict V) : result (pydict V) :=
  if py_hashable k then Ok (pd_set k v d) else Raise TypeError.

Definition tuple_eq (a b : json * json) : bool :=
  py_eq (fst a) (fst b) && py_eq (snd a) (snd b).

(** The members of the set built by adding the tuples of [l] in order:
    a tuple equal to an earlier one is not added again. *)
Definition tuple_dedup (l : list (json * json)) : list (json * json) :=
  fold_left (fun acc x => if existsb (tuple_eq x) acc then acc else acc ++ [x]) l [].

(** ** Library code *)

(** What [requests.post] returns, as far as the program reads it. *)
Record response : Type := { status_code : Z; text : string }.

(** The library functions the program calls.
    - [fromtimestamp0] is [datetime.datetime.fromtimestamp(0)];
    - [strptime s fmt] is [None] where [datetime.strptime] raises [ValueError];
    - [datetime_of_ticks n] is
      [datetime.fromordinal(1) + timedelta(seconds=n / 10000000)];
    - [raw_decode s i] is [json.JSONDecoder().raw_decode(s, i)];
    - [py_repr] is [str] of a list or dict;
    - [set_iter l] is the order in which a [for] loop visits the set built
      from the tuples [l];
    - [requests_post n url blob] is the outcome of the [n]-th call of
      [requests.post] made by the process, counted from zero. *)
Class PyLib : Type := {
  datetime : Type;
  fromtimestamp0 : datetime;
  strptime : string -> string -> option datetime;
  isoformat : datetime -> string;
  datetime_of_ticks : Z -> result datetime;
  isoparse : json -> result datetime;
  raw_decode : string -> nat -> result (json * nat);
  py_repr : json -> string;
  set_iter : list (json * json) -> list (json * json);
  set_iter_perm : forall l, Permutation (set_iter l) (tuple_dedup l);
  requests_post : nat -> string -> list (string * json) -> result response
}.

(** What the process does to the outside world. *)
Inductive level : Type := DEBUG | INFO | WARNING | ERROR.

Inductive event : Type :=
| Post (url : string) (blob : list (string * json))
| Sleep (seconds : Z)
| Log (lvl : level).

Definition is_post (e : event) : bool :=
  match e with Post _ _ => true | _ => false end.

(** ** Pure helpers *)

Notation "'let?' x ':=' m 'in' k" := (rbind m (fun x => k))
  (at level 10, x pattern, k at level 200).

Fixpoint map_result {A B} (f : A -> result B) (l : list A) : result (list B) :=
  match l with
  | [] => Ok []
  | x :: r =>
      let? y := f x in
      let? ys := map_result f r in
      Ok (y :: ys)
  end.

(** [json_value_matches(expectation, path, blob)]. *)
Fixpoint json_value_matches (expectation : json) (path : list string) (blob : json)
  : result bool :=
  match path with
  | [] => Ok (py_eq blob expectation)
  | p :: r =>
      let? there := py_in p blob in
      if there then
        let? inner := py_getitem blob p in
        json_value_matches expectation r inner
      else Ok false
  end.

(** [except ValueError] also catches its subclass [JSONDecodeError]. *)
Definition is_value_error (e : exn) : bool :=
  match e with
  | ValueError | JSONDecodeError => true
  | _ => false
  end.

(** The loop of [__get_card_ids_from_decklist_v3] over [i]; [acc] is the
    list [result]. *)
Fixpoint decklist_loop (decklist : json) (indices : list nat) (acc : list json)
  : result (list json) :=
  match indices with
  | [] => Ok acc
  | i :: r =>
      let? card_id := py_index decklist (2 * i) in
      let? count := py_index decklist (2 * i + 1) in
      let? n := py_range count in
      decklist_loop decklist r (acc ++ repeat card_id n)
  end.

(** [Follower.__get_card_ids_from_decklist_v3] (assertions enabled). *)
Definition __get_card_ids_from_decklist_v3 (decklist : json) : result (list json) :=
  let? n := py_len decklist in
  if Nat.even n then decklist_loop decklist (seq 0 (n / 2)) []
  else Raise AssertionError.

(** [[d['Id'] for d in cards for i in range(d['Quantity'])]], the
    comprehension of [__handle_deck_submission]. *)
Fixpoint card_ids_by_quantity (cards : list json) : result (list json) :=
  match cards with
  | [] => Ok []
  | d :: r =>
      let? q := py_getitem d "Quantity" in
      let? n := py_range q in
      let? ids :=
        match n with
        | O => Ok []
        | S _ => let? id := py_getitem d "Id" in Ok (repeat id n)
        end in
      let? rest := card_ids_by_quantity r in
      Ok (ids ++ rest)
  end.

(** [sum(p['turnNumber'] for p in players)]. *)
Fixpoint sum_turn_numbers (acc : Z) (players : list json) : result Z :=
  match players with
  | [] => Ok acc
  | p :: r =>
      let? x := py_getitem p "turnNumber" in
      match x with
      | JInt n => sum_turn_numbers (acc + n) r
      | JBool b => sum_turn_numbers (acc + Z.b2z b) r
      | _ => Raise TypeError
      end
  end.

(** The list comprehension that rebuilds a hand:
    [[player_objects.get(i) for i in hand_card_ids if i]]. *)
Fixpoint hand_of (player_objects : pydict json) (hand_card_ids : list json)
  : result (list json) :=
  match hand_card_ids with
  | [] => Ok []
  | i :: r =>
      if py_truthy i then
        if py_hashable i then
          let? rest := hand_of player_objects r in
          Ok (match pd_get i player_objects with Some c => c | None => JNull end :: rest)
        else Raise TypeError
      else hand_of player_objects r
  end.

(** The set comprehension [players_deciding_hand], as the tuples added
    to the set, in order. *)
Fixpoint players_deciding_hand (players : list json) : result (list (json * json)) :=
  match players with
  | [] => Ok []
  | p :: r =>
      let? pending := py_get p "pendingMessageType" JNull in
      if py_eq pending (JStr "ClientMessageType_MulliganResp") then
        let? seat := py_getitem p "systemSeatNumber" in
        let? count := py_get p "mulliganCount" (JInt 0) in
        if py_hashable seat && py_hashable count then
          let? rest := players_deciding_hand r in
          Ok ((seat, count) :: rest)
        else Raise TypeError
      else players_deciding_hand r
  end.

Section Follower.

Context {L : PyLib}.

(** ** The attributes of [self]

    Attributes that hold [None] or a decoded value are [json] ([JNull] is
    [None]); [cur_log_time] is written as an option because the program
    tests it against [None].  [events] is not an attribute: it lists, in
    order, what the process has done to the outside world. *)
Record Follower : Type := {
  host : string;
  token : string;
  buffer : list string;
  cur_log_time : option datetime;
  last_utc_time : datetime;
  last_raw_time : string;
  cur_user : json;
  cur_constructed_level : json;
  cur_limited_level : json;
  cur_opponent_level : json;
  cur_opponent_match_id : json;
  current_match_event_id : option (json * json);
  starting_team_id : json;
  objects_by_owner : pydict (pydict json);
  opening_hand_count_by_seat : pydict Z;
  opening_hand : pydict (list json);
  drawn_hands : pydict (list (list json));
  cards_in_hand : pydict (list json);
  events : list event
}.

Definition set_buffer (v : list string) (st : Follower) : Follower :=
  Build_Follower (host st) (token st) v (cur_log_time st) (last_utc_time st)
    (last_raw_time st) (cur_user st) (cur_constructed_level st) (cur_limited_level st)
    (cur_opponent_level st) (cur_opponent_match_id st) (current_match_event_id st)
    (starting_team_id st) (objects_by_owner st) (opening_hand_count_by_seat st)
    (opening_hand st) (drawn_hands st) (cards_in_hand st) (events st).

Definition set_cur_log_time (v : option datetime) (st : Follower) : Follower :=
  Build_Follower (host st) (token st) (buffer st) v (last_utc_time st)
    (last_raw_time st) (cur_user st) (cur_constructed_level st) (cur_limited_level st)
    (cur_opponent_level st) (cur_opponent_match_id st) (current_match_event_id st)
    (starting_team_id st) (objects_by_owner st) (opening_hand_count_by_seat st)
    (opening_hand st) (drawn_hands st) (cards_in_hand st) (events st).

Definition set_last_utc_time (v : datetime) (st : Follower) : Follower :=
  Build_Follower (host st) (token st) (buffer st) (cur_log_time st) v
    (last_raw_time st) (cur_user st) (cur_constructed_level st) (cur_limited_level st)
    (cur_opponent_level st) (cur_opponent_match_id st) (current_match_event_id st)
    (starting_team_id st) (objects_by_owner st) (opening_hand_count_by_seat st)
    (opening_hand st) (drawn_hands st) (cards_in_hand st) (events st).

Definition set_last_raw_time (v : string) (st : Follower) : Follower :=
  Build_Follower (host st) (token st) (buffer st) (cur_log_time st) (last_utc_time st)
    v (cur_user st) (cur_constructed_level st) (cur_limited_level st)
    (cur_opponent_level st) (cur_opponent_match_id st) (current_match_event_id st)
    (starting_team_id st) (objects_by_owner st) (opening_hand_count_by_seat st)
    (opening_hand st) (drawn_hands st) (cards_in_hand st) (events st).

Definition set_cur_user (v : json) (st : Follower) : Follower :=
  Build_Follower (host st) (token st) (buffer st) (cur_log_time st) (last_utc_time st)
    (last_raw_time st) v (cur_constructed_level st) (cur_limited_level st)
    (cur_opponent_level st) (cur_opponent_match_id st) (current_match_event_id st)
    (starting_team_id st) (objects_by_owner st) (opening_hand_count_by_seat st)
    (opening_hand st) (drawn_hands st) (cards_in_hand st) (events st).

Definition set_cur_constructed_level (v : json) (st : Follower) : Follower :=
  Build_Follower (host st) (token st) (buffer st) (cur_log_time st) (last_utc_time st)
    (last_raw_time st) (cur_user st) v (cur_limited_level st) (cur_opponent_level st)
    (cur_opponent_match_id st) (current_match_event_id st) (starting_team_id st)
    (objects_by_owner st) (opening_hand_count_by_seat st) (opening_hand st)
    (drawn_hands st) (cards_in_hand st) (events st).

Definition set_cur_limited_level (v : json) (st : Follower) : Follower :=
  Build_Follower (host st) (token st) (buffer st) (cur_log_time st) (last_utc_time st)
    (last_raw_time st) (cur_user st) (cur_constructed_level st) v
    (cur_opponent_level st) (cur_opponent_match_id st) (current_match_event_id st)
    (starting_team_id st) (objects_by_owner st) (opening_hand_count_by_seat st)
    (opening_hand st) (drawn_hands st) (cards_in_hand st) (events st).

Definition set_cur_opponent_level (v : json) (st : Follower) : Follower :=
  Build_Follower (host st) (token st) (buffer st) (cur_log_time st) (last_utc_time st)
    (last_raw_time st) (cur_user st) (cur_constructed_level st) (cur_limited_level st)
    v (cur_opponent_match_id st) (current_match_event_id st) (starting_team_id st)
    (objects_by_owner st) (opening_hand_count_by_seat st) (opening_hand st)
    (drawn_hands st) (cards_in_hand st) (events st).

Definition set_cur_opponent_match_id (v : json) (st : Follower) : Follower :=
  Build_Follower (host st) (token st) (buffer st) (cur_log_time st) (last_utc_time st)
    (last_raw_time st) (cur_user st) (cur_constructed_level st) (cur_limited_level st)
    (cur_opponent_level st) v (current_match_event_id st) (starting_team_id st)
    (objects_by_owner st) (opening_hand_count_by_seat st) (opening_hand st)
    (drawn_hands st) (cards_in_hand st) (events st).

Definition set_current_match_event_id (v : option (json * json)) (st : Follower) : Follower :=
  Build_Follower (host st) (token st) (buffer st) (cur_log_time st) (last_utc_time st)
    (last_raw_time st) (cur_user st) (cur_constructed_level st) (cur_limited_level st)
    (cur_opponent_level st) (cur_opponent_match_id st) v (starting_team_id st)
    (objects_by_owner st) (opening_hand_count_by_seat st) (opening_hand st)
    (drawn_hands st) (cards_in_hand st) (events st).

Definition set_starting_team_id (v : json) (st : Follower) : Follower :=
  Build_Follower (host st) (token st) (buffer st) (cur_log_time st) (last_utc_time st)
    (last_raw_time st) (cur_user st) (cur_constructed_level st) (cur_limited_level st)
    (cur_opponent_level st) (cur_opponent_match_id st) (current_match_event_id st) v
    (objects_by_owner st) (opening_hand_count_by_seat st) (opening_hand st)
    (drawn_hands st) (cards_in_hand st) (events st).

Definition set_objects_by_owner (v : pydict (pydict json)) (st : Follower) : Follower :=
  Build_Follower (host st) (token st) (buffer st) (cur_log_time st) (last_utc_time st)
    (last_raw_time st) (cur_user st) (cur_constructed_level st) (cur_limited_level st)
    (cur_opponent_level st) (cur_opponent_match_id st) (current_match_event_id st)
    (starting_team_id st) v (opening_hand_count_by_seat st) (opening_hand st)
    (drawn_hands st) (cards_in_hand st) (events st).

Definition set_opening_hand_count_by_seat (v : pydict Z) (st : Follower) : Follower :=
  Build_Follower (host st) (token st) (buffer st) (cur_log_time st) (last_utc_time st)
    (last_raw_time st) (cur_user st) (cur_constructed_level st) (cur_limited_level st)
    (cur_opponent_level st) (cur_opponent_match_id st) (current_match_event_id st)
    (starting_team_id st) (objects_by_owner st) v (opening_hand st) (drawn_hands st)
    (cards_in_hand st) (events st).

Definition set_opening_hand (v : pydict (list json)) (st : Follower) : Follower :=
  Build_Follower (host st) (token st) (buffer st) (cur_log_time st) (last_utc_time st)
    (last_raw_time st) (cur_user st) (cur_constructed_level st) (cur_limited_level st)
    (cur_opponent_level st) (cur_opponent_match_id st) (current_match_event_id st)
    (starting_team_id st) (objects_by_owner st) (opening_hand_count_by_seat st) v
    (drawn_hands st) (cards_in_hand st) (events st).

Definition set_drawn_hands (v : pydict (list (list json))) (st : Follower) : Follower :=
  Build_Follower (host st) (token st) (buffer st) (cur_log_time st) (last_utc_time st)
    (last_raw_time st) (cur_user st) (cur_constructed_level st) (cur_limited_level st)
    (cur_opponent_level st) (cur_opponent_match_id st) (current_match_event_id st)
    (starting_team_id st) (objects_by_owner st) (opening_hand_count_by_seat st)
    (opening_hand st) v (cards_in_hand st) (events st).

Definition set_cards_in_hand (v : pydict (list json)) (st : Follower) : Follower :=
  Build_Follower (host st) (token st) (buffer st) (cur_log_time st) (last_utc_time st)
    (last_raw_time st) (cur_user st) (cur_constructed_level st) (cur_limited_level st)
    (cur_opponent_level st) (cur_opponent_match_id st) (current_match_event_id st)
    (starting_team_id st) (objects_by_owner st) (opening_hand_count_by_seat st)
    (opening_hand st) (drawn_hands st) v (events st).

Definition set_events (v : list event) (st : Follower) : Follower :=
  Build_Follower (host st) (token st) (buffer st) (cur_log_time st) (last_utc_time st)
    (last_raw_time st) (cur_user st) (cur_constructed_level st) (cur_limited_level st)
    (cur_opponent_level st) (cur_opponent_match_id st) (current_match_event_id st)
    (starting_team_id st) (objects_by_owner st) (opening_hand_count_by_seat st)
    (opening_hand st) (drawn_hands st) (cards_in_hand st) v.

(** [Follower.__init__]. *)
Definition __init__ (token host : string) : Follower :=
  {| host := host;
     token := token;
     buffer := [];
     cur_log_time := Some fromtimestamp0;
     last_utc_time := fromtimestamp0;
     last_raw_time := "";
     cur_user := JNull;
     cur_constructed_level := JNull;
     cur_limited_level := JNull;
     cur_opponent_level := JNull;
     cur_opponent_match_id := JNull;
     current_match_event_id := None;
     starting_team_id := JNull;
     objects_by_owner := [];
     opening_hand_count_by_seat := [];
     opening_hand := [];
     drawn_hands := [];
     cards_in_hand := [];
     events := [] |}.

(** ** The monad of methods: state of [self], and a value or an exception *)

Definition M (A : Type) : Type := Follower -> result A * Follower.

Definition ret {A} (a : A) : M A := fun st => (Ok a, st).

Definition raise {A} (e : exn) : M A := fun st => (Raise e, st).

Definition bind {A B} (m : M A) (f : A -> M B) : M B :=
  fun st =>
    match m st with
    | (Ok a, st') => f a st'
    | (Raise e, st') => (Raise e, st')
    end.

Definition lift {A} (r : result A) : M A := fun st => (r, st).

Definition get : M Follower := fun st => (Ok st, st).

Definition modify (f : Follower -> Follower) : M unit := fun st => (Ok tt, f st).

Notation "x <- m ;; k" := (bind m (fun x => k))
  (at level 61, m at next level, right associativity).
Notation "' p <- m ;; k" := (bind m (fun x => match x with p => k end))
  (at level 61, p pattern, m at next level, right associativity).
Notation "m ;; k" := (bind m (fun _ => k))
  (at level 61, right associativity).

(** A [for] loop over a list already evaluated. *)
Fixpoint for_each {A} (l : list A) (body : A -> M unit) : M unit :=
  match l with
  | [] => ret tt
  | x :: r => body x ;; for_each r body
  end.

Definition emit (e : event) : M unit :=
  modify (fun st => set_events (events st ++ [e]) st).

Definition logging (lvl : level) : M unit := emit (Log lvl).

(** [requests.post(url, json=blob)]: the call is recorded, and answered
    by the library according to how many calls came before. *)
Definition post (url : string) (blob : list (string * json)) : M response :=
  st <- get ;;
  emit (Post url blob) ;;
  lift (requests_post (List.length (filter is_post (events st))) url blob).

(** [self.cur_log_time.isoformat()]. *)
Definition cur_log_time_isoformat : M json :=
  st <- get ;;
  match cur_log_time st with
  | Some t => ret (JStr (isoformat t))
  | None => raise AttributeError
  end.

Definition url_of (st : Follower) (endpoint : string) : string :=
  (host st ++ "/" ++ endpoint)%string.

(** The [while tries_left > 0] loop of [__retry_post]; [last] is the
    variable [response], unbound before the first round. *)
Fixpoint retry_loop (tries_left : nat) (url : string) (blob : list (string * json))
  (sleep_time : Z) (last : option response) : M (option response) :=
  match tries_left with
  | O => ret last
  | S n =>
      r <- post url blob ;;
      if negb (IS_CODE_FOR_RETRY (status_code r)) then ret (Some r)
      else
        logging WARNING ;;
        emit (Sleep sleep_time) ;;
        retry_loop n url blob sleep_time (Some r)
  end.

(** The three assignments to [blob] that open [__retry_post]. *)
Definition add_common_fields (st : Follower) (blob : list (string * json))
  : list (string * json) :=
  dict_set "utc_time" (JStr (isoformat (last_utc_time st)))
    (dict_set "token" (JStr (token st))
       (dict_set "client_version" (JStr CLIENT_VERSION) blob)).

(** [Follower.__retry_post]. *)
Definition __retry_post (url : string) (blob : list (string * json))
  (num_retries sleep_time : Z) : M response :=
  st <- get ;;
  let blob := add_common_fields st blob in
  last <- retry_loop (Z.to_nat (num_retries + 1)) url blob sleep_time None ;;
  match last with
  | None => raise UnboundLocalError
  | Some r => logging INFO ;; ret r
  end.

(** A call with the default [num_retries] and [sleep_time], its result dropped. *)
Definition send (endpoint : string) (blob : list (string * json)) : M unit :=
  st <- get ;;
  _ <- __retry_post (url_of st endpoint) blob RETRIES DEFAULT_RETRY_SLEEP_TIME ;;
  ret tt.

(** [Follower.__clear_game_data]. *)
Definition __clear_game_data : M unit :=
  modify (fun st =>
    set_starting_team_id JNull
      (set_drawn_hands []
         (set_opening_hand []
            (set_opening_hand_count_by_seat []
               (set_objects_by_owner [] st))))).


(** ** Helpers that use library code *)

(** [extract_time]: the first format [strptime] accepts. *)
Definition extract_time (time_str : string) : result datetime :=
  (fix try (formats : list string) : result datetime :=
     match formats with
     | [] => Raise ValueError
     | f :: r =>
         match strptime time_str f with
         | Some t => Ok t
         | None => try r
         end
     end) TIME_FORMATS.

(** [str(x)]. *)
Definition py_str (x : json) : string :=
  match x with
  | JNull => "None"
  | JBool true => "True"
  | JBool false => "False"
  | JInt n => Z_to_string n
  | JStr s => s
  | _ => py_repr x
  end.

(** [get_rank_string]. *)
Definition get_rank_string (rank_class lvl percentile place step : json) : json :=
  JStr (String.concat "-" (map py_str [rank_class; lvl; percentile; place; step])).

Definition is_json_ws (c : ascii) : bool :=
  let n := nat_of_ascii c in
  ((n =? 32) || (n =? 9) || (n =? 10) || (n =? 13))%nat.

(** [WHITESPACE.match(s, i).end()] of [json.decoder]. *)
Definition skip_ws (s : string) (i : nat) : nat :=
  let i := Nat.min i (String.length s) in
  (i + List.length (take_while is_json_ws (skipn i (str s))))%nat.

(** [decoder.raw_decode(x)]: the scanner wants a [str]. *)
Definition raw_decode_value (x : json) : result (json * nat) :=
  match x with
  | JStr s => raw_decode s 0
  | _ => Raise TypeError
  end.

(** [json.loads(x)]: one document with blanks around it, nothing else. *)
Definition json_loads (x : json) : result json :=
  match x with
  | JStr s =>
      let? r := raw_decode s (skip_ws s 0) in
      if (skip_ws s (snd r) =? String.length s)%nat then Ok (fst r)
      else Raise JSONDecodeError
  | _ => Raise TypeError
  end.

(** [Follower.__maybe_get_utc_timestamp]. *)
Definition __maybe_get_utc_timestamp (blob : json) : result (option datetime) :=
  let? timestamp :=
    let? here := py_in "timestamp" blob in
    if here then py_getitem blob "timestamp"
    else
      let? po := py_get blob "payloadObject" (JObj []) in
      let? there := py_in "timestamp" po in
      if there then py_getitem po "timestamp"
      else
        let? params := py_get blob "params" (JObj []) in
        let? ppo := py_get params "payloadObject" (JObj []) in
        let? deep := py_in "timestamp" ppo in
        if deep then py_getitem ppo "timestamp" else Ok JNull in
  match timestamp with
  | JNull => Ok None
  | _ =>
      match (let? n := py_int timestamp in datetime_of_ticks n) with
      | Ok t => Ok (Some t)
      | Raise e =>
          if is_value_error e then let? t := isoparse timestamp in Ok (Some t)
          else Raise e
      end
  end.

(** [Follower.__extract_payload]. *)
Definition __extract_payload (blob : json) : result json :=
  let? has_id := py_in "id" blob in
  if negb has_id then Ok blob
  else
    let? has_payload := py_in "payload" blob in
    if has_payload then py_getitem blob "payload"
    else
      let? has_request := py_in "request" blob in
      if has_request then
        match (let? req := py_getitem blob "request" in raw_decode_value req) with
        | Ok (json_obj, _) => Ok json_obj
        | Raise _ => Ok blob
        end
      else Ok blob.

(** ** Record builders *)

Definition getitem (c : json) (k : string) : M json := lift (py_getitem c k).

(** [Follower.__send_game_end]. *)
Definition __send_game_end (seat_id match_id mulliganed_hands event_name on_play won
  win_type game_end_reason turn_count duration : json) : M unit :=
  logging DEBUG ;;
  let opponent_id := if py_eq seat_id (JInt 1) then JInt 2 else JInt 1 in
  st <- get ;;
  let opponent_card_ids := map snd (lookup [] opponent_id (objects_by_owner st)) in
  (if negb (py_eq match_id (cur_opponent_match_id st))
   then modify (set_cur_opponent_level JNull) else ret tt) ;;
  time <- cur_log_time_isoformat ;;
  st <- get ;;
  ' (hand, d) <- lift (dd_getitem [] seat_id (opening_hand st)) ;;
  modify (set_opening_hand d) ;;
  st <- get ;;
  ' (n_self, d) <- lift (dd_getitem 0 seat_id (opening_hand_count_by_seat st)) ;;
  modify (set_opening_hand_count_by_seat d) ;;
  st <- get ;;
  ' (n_opp, d) <- lift (dd_getitem 0 opponent_id (opening_hand_count_by_seat st)) ;;
  modify (set_opening_hand_count_by_seat d) ;;
  st <- get ;;
  let game :=
    [ ("player_id", cur_user st);
      ("event_name", event_name);
      ("match_id", match_id);
      ("time", time);
      ("on_play", on_play);
      ("won", won);
      ("win_type", win_type);
      ("game_end_reason", game_end_reason);
      ("opening_hand", JArr hand);
      ("mulligans", mulliganed_hands);
      ("mulligan_count", JInt (n_self - 1));
      ("opponent_mulligan_count", JInt (n_opp - 1));
      ("turns", turn_count);
      ("duration", duration);
      ("opponent_card_ids", JArr opponent_card_ids);
      ("limited_rank", cur_limited_level st);
      ("constructed_rank", cur_constructed_level st);
      ("opponent_rank", cur_opponent_level st) ] in
  __clear_game_data ;;
  logging INFO ;;
  send ENDPOINT_GAME_RESULT game.

(** The turn count of a game-state message: [turnInfo.turnNumber] when
    present, else the sum of the players' turn numbers, else [-1]. *)
Definition turn_count_of (game_state_message : json) : result json :=
  let? turn_info := py_get game_state_message "turnInfo" (JObj []) in
  let? maybe_turn_number := py_get turn_info "turnNumber" JNull in
  match maybe_turn_number with
  | JNull =>
      let? players := py_get game_state_message "players" (JArr []) in
      let? n := py_len players in
      if (0 <? n)%nat then
        let? ps := py_iter players in
        let? total := sum_turn_numbers 0 ps in
        Ok (JInt total)
      else Ok (JInt (-1))
  | _ => Ok maybe_turn_number
  end.

(** The event name correlated with [match_id], or [None]. *)
Definition event_id_of (st : Follower) (match_id : json) : json :=
  match current_match_event_id st with
  | Some (m, e) => if py_eq m match_id then e else JNull
  | None => JNull
  end.

(** The body of the loop of [__maybe_handle_game_over_stage] once a
    result of scope [MatchScope_Game] is found and [seat_id] is read, up
    to the [return]. *)
Definition game_over_for (seat_id game_state_message game_info result : json) : M unit :=
  match_id <- getitem game_info "matchID" ;;
  st <- get ;;
  let event_id := event_id_of st match_id in
  turn_count <- lift (turn_count_of game_state_message) ;;
  ' (hands, d) <- lift (dd_getitem [] seat_id (drawn_hands st)) ;;
  modify (set_drawn_hands d) ;;
  let on_play := JBool (py_eq seat_id (starting_team_id st)) in
  winner <- getitem result "winningTeamId" ;;
  win_type <- getitem result "result" ;;
  reason <- getitem result "reason" ;;
  __send_game_end seat_id match_id (JArr (map JArr (removelast hands))) event_id
    on_play (JBool (py_eq seat_id winner)) win_type reason turn_count (JInt (-1)).

(** The same body from its first statement, [seat_id = system_seat_ids[0]]. *)
Definition game_over_result (system_seat_ids game_state_message game_info result : json)
  : M unit :=
  seat_id <- lift (py_index system_seat_ids 0) ;;
  game_over_for seat_id game_state_message game_info result.

(** The loop [for result in reversed(results)]. *)
Fixpoint scan_results (system_seat_ids game_state_message game_info : json)
  (reversed_results : list json) : M unit :=
  match reversed_results with
  | [] => ret tt
  | result :: rest =>
      scope <- lift (py_get result "scope" JNull) ;;
      if negb (py_eq scope (JStr "MatchScope_Game"))
      then scan_results system_seat_ids game_state_message game_info rest
      else game_over_result system_seat_ids game_state_message game_info result
  end.

(** [Follower.__maybe_handle_game_over_stage]. *)
Definition __maybe_handle_game_over_stage (system_seat_ids game_state_message : json)
  : M unit :=
  game_info <- lift (py_get game_state_message "gameInfo" (JObj [])) ;;
  stage <- lift (py_get game_info "stage" JNull) ;;
  if negb (py_eq stage (JStr "GameStage_GameOver")) then ret tt
  else
    results <- lift (py_get game_info "results" (JArr [])) ;;
    reversed_results <- lift (py_reversed results) ;;
    scan_results system_seat_ids game_state_message game_info reversed_results.

(** ** The aggregator: [__handle_gre_to_client_message] *)

(** Body of [for game_object in ...]. *)
Definition track_object (game_object : json) : M unit :=
  type <- getitem game_object "type" ;;
  if negb (py_eq type (JStr "GameObjectType_Card")) then ret tt
  else
    owner <- getitem game_object "ownerSeatId" ;;
    instance_id <- getitem game_object "instanceId" ;;
    card_id <- getitem game_object "overlayGrpId" ;;
    st <- get ;;
    ' (objects, d) <- lift (dd_getitem [] owner (objects_by_owner st)) ;;
    modify (set_objects_by_owner d) ;;
    objects <- lift (dd_setitem instance_id card_id objects) ;;
    modify (fun st => set_objects_by_owner (pd_set owner objects (objects_by_owner st)) st).

(** Body of [for zone in ...]. *)
Definition track_zone (zone : json) : M unit :=
  type <- getitem zone "type" ;;
  if py_eq type (JStr "ZoneType_Hand") then
    owner <- getitem zone "ownerSeatId" ;;
    st <- get ;;
    ' (player_objects, d) <- lift (dd_getitem [] owner (objects_by_owner st)) ;;
    modify (set_objects_by_owner d) ;;
    hand_card_ids <- lift (py_get zone "objectInstanceIds" (JArr [])) ;;
    ids <- lift (py_iter hand_card_ids) ;;
    hand <- lift (hand_of player_objects ids) ;;
    modify (fun st => set_cards_in_hand (pd_set owner hand (cards_in_hand st)) st)
  else ret tt.

(** Body of [for (player_id, mulligan_count) in players_deciding_hand]. *)
Definition track_mulligan (turn_info : json) (p : json * json) : M unit :=
  let (player_id, mulligan_count) := p in
  st <- get ;;
  match starting_team_id st with
  | JNull =>
      active <- lift (py_get turn_info "activePlayer" JNull) ;;
      modify (set_starting_team_id active)
  | _ => ret tt
  end ;;
  st <- get ;;
  ' (n, d) <- lift (dd_getitem 0 player_id (opening_hand_count_by_seat st)) ;;
  modify (set_opening_hand_count_by_seat (pd_set player_id (n + 1) d)) ;;
  st <- get ;;
  ' (hands, d) <- lift (dd_getitem [] player_id (drawn_hands st)) ;;
  modify (set_drawn_hands d) ;;
  if py_eq mulligan_count (JInt (Z.of_nat (List.length hands))) then
    st <- get ;;
    ' (hand, c) <- lift (dd_getitem [] player_id (cards_in_hand st)) ;;
    modify (set_cards_in_hand c) ;;
    modify (fun st => set_drawn_hands (pd_set player_id (hands ++ [hand]) (drawn_hands st)) st)
  else ret tt.

(** The last statement of the game-state branch: the opening hands. *)
Definition capture_opening_hand (turn_info : json) : M unit :=
  st <- get ;;
  match opening_hand st with
  | [] =>
      phase <- lift (py_get turn_info "phase" JNull) ;;
      step <- lift (py_get turn_info "step" JNull) ;;
      turn <- lift (py_get turn_info "turnNumber" JNull) ;;
      if py_eq (JStr "Phase_Beginning") phase && py_eq (JStr "Step_Upkeep") step
         && py_eq (JInt 1) turn
      then
        modify (fun st =>
          set_opening_hand
            (fold_left (fun acc oh => pd_set (fst oh) (snd oh) acc)
               (cards_in_hand st) (opening_hand st)) st)
      else ret tt
  | _ => ret tt
  end.

(** [Follower.__handle_gre_to_client_message]. *)
Definition __handle_gre_to_client_message (message_blob : json) : M unit :=
  type <- getitem message_blob "type" ;;
  if py_eq type (JStr "GREMessageType_SubmitDeckReq") then
    st <- get ;;
    time <- cur_log_time_isoformat ;;
    req <- getitem message_blob "submitDeckReq" ;;
    deck_blob <- getitem req "deck" ;;
    maindeck <- getitem deck_blob "deckCards" ;;
    sideboard <- lift (py_get deck_blob "sideboardCards" (JArr [])) ;;
    let deck :=
      [ ("player_id", cur_user st);
        ("time", time);
        ("maindeck_card_ids", maindeck);
        ("sideboard_card_ids", sideboard);
        ("is_during_match", JBool true) ] in
    logging INFO ;;
    send ENDPOINT_DECK_SUBMISSION deck
  else if py_eq type (JStr "GREMessageType_GameStateMessage") then
    game_state_message <- lift (py_get message_blob "gameStateMessage" (JObj [])) ;;
    system_seat_ids <- lift (py_get message_blob "systemSeatIds" (JArr [])) ;;
    __maybe_handle_game_over_stage system_seat_ids game_state_message ;;
    game_objects <- lift (py_get game_state_message "gameObjects" (JArr [])) ;;
    game_objects <- lift (py_iter game_objects) ;;
    for_each game_objects track_object ;;
    zones <- lift (py_get game_state_message "zones" (JArr [])) ;;
    zones <- lift (py_iter zones) ;;
    for_each zones track_zone ;;
    turn_info <- lift (py_get game_state_message "turnInfo" (JObj [])) ;;
    players <- lift (py_get game_state_message "players" (JArr [])) ;;
    players <- lift (py_iter players) ;;
    deciding <- lift (players_deciding_hand players) ;;
    for_each (set_iter deciding) (track_mulligan turn_info) ;;
    capture_opening_hand turn_info
  else ret tt.

(** ** The other handlers *)

(** [Follower.__handle_match_started]. *)
Definition __handle_match_started (blob : json) : M unit :=
  ev <- lift (py_get blob "matchGameRoomStateChangedEvent" (JObj [])) ;;
  info <- lift (py_get ev "gameRoomInfo" (JObj [])) ;;
  game_room_config <- lift (py_get info "gameRoomConfig" (JObj [])) ;;
  has_event <- lift (py_in "eventId" game_room_config) ;;
  has_match <- (if has_event then lift (py_in "matchId" game_room_config) else ret false) ;;
  if has_match then
    match_id <- getitem game_room_config "matchId" ;;
    event_id <- getitem game_room_config "eventId" ;;
    modify (set_current_match_event_id (Some (match_id, event_id)))
  else ret tt.

(** The user record posted by [__handle_login] and [__maybe_handle_account_info]. *)
Definition send_user_info (screen_name : json) : M unit :=
  st <- get ;;
  let user_info :=
    [ ("player_id", cur_user st);
      ("screen_name", screen_name);
      ("raw_time", JStr (last_raw_time st)) ] in
  logging INFO ;;
  send ENDPOINT_USER user_info.

(** [Follower.__maybe_handle_account_info]. *)
Definition __maybe_handle_account_info (line : string) : M unit :=
  match ACCOUNT_INFO_REGEX (str line) with
  | Some (screen_name, account_id) =>
      modify (set_cur_user (JStr (string_of_list_ascii account_id))) ;;
      send_user_info (JStr (string_of_list_ascii screen_name))
  | None => ret tt
  end.

(** [Follower.__handle_event_completion]. *)
Definition __handle_event_completion (json_obj : json) : M unit :=
  st <- get ;;
  event_name <- getitem json_obj "InternalEventName" ;;
  time <- cur_log_time_isoformat ;;
  data <- getitem json_obj "ModuleInstanceData" ;;
  entry_fee <- getitem data "HasPaidEntry" ;;
  gate <- getitem data "WinLossGate" ;;
  wins <- getitem gate "CurrentWins" ;;
  losses <- getitem gate "CurrentLosses" ;;
  let event :=
    [ ("player_id", cur_user st);
      ("event_name", event_name);
      ("time", time);
      ("entry_fee", entry_fee);
      ("wins", wins);
      ("losses", losses) ] in
  logging INFO ;;
  send ENDPOINT_EVENT_SUBMISSION event.

(** [Follower.__handle_game_end]. *)
Definition __handle_game_end (json_obj : json) : M unit :=
  params <- getitem json_obj "params" ;;
  blob <- getitem params "payloadObject" ;;
  seat_id <- getitem blob "seatId" ;;
  match_id <- getitem blob "matchId" ;;
  hands <- getitem blob "mulliganedHands" ;;
  hands <- lift (py_iter hands) ;;
  mulliganed_hands <-
    lift (map_result (fun hand =>
            let? cards := py_iter hand in
            let? ids := map_result (fun x => py_getitem x "grpId") cards in
            Ok (JArr ids)) hands) ;;
  event_name <- getitem blob "eventId" ;;
  team <- getitem blob "teamId" ;;
  starting <- getitem blob "startingTeamId" ;;
  team' <- getitem blob "teamId" ;;
  winning <- getitem blob "winningTeamId" ;;
  win_type <- getitem blob "winningType" ;;
  reason <- getitem blob "winningReason" ;;
  turn_count <- getitem blob "turnCount" ;;
  duration <- getitem blob "secondsCount" ;;
  __send_game_end seat_id match_id (JArr mulliganed_hands) event_name
    (JBool (py_eq team starting)) (JBool (py_eq team' winning)) win_type reason
    turn_count duration.

(** [Follower.__handle_login]. *)
Definition __handle_login (json_obj : json) : M unit :=
  __clear_game_data ;;
  params <- getitem json_obj "params" ;;
  payload <- getitem params "payloadObject" ;;
  player_id <- getitem payload "playerId" ;;
  modify (set_cur_user player_id) ;;
  screen_name <- getitem payload "screenName" ;;
  send_user_info screen_name.

(** [Follower.__handle_draft_log]. *)
Definition __handle_draft_log (json_obj : json) : M unit :=
  status <- getitem json_obj "DraftStatus" ;;
  if py_eq status (JStr "Draft.PickNext") then
    __clear_game_data ;;
    draft_id <- getitem json_obj "DraftId" ;;
    ' (_, event_name, _) <- lift (py_rsplit3 draft_id) ;;
    st <- get ;;
    time <- cur_log_time_isoformat ;;
    pack_number <- lift (let? x := py_getitem json_obj "PackNumber" in py_int x) ;;
    pick_number <- lift (let? x := py_getitem json_obj "PickNumber" in py_int x) ;;
    cards <- getitem json_obj "DraftPack" ;;
    cards <- lift (py_iter cards) ;;
    card_ids <- lift (map_result py_int cards) ;;
    let pack :=
      [ ("player_id", cur_user st);
        ("event_name", JStr event_name);
        ("time", time);
        ("pack_number", JInt pack_number);
        ("pick_number", JInt pick_number);
        ("card_ids", JArr (map JInt card_ids)) ] in
    logging INFO ;;
    send ENDPOINT_DRAFT_PACK pack
  else ret tt.

(** [Follower.__handle_draft_pick]. *)
Definition __handle_draft_pick (json_obj : json) : M unit :=
  __clear_game_data ;;
  inner_obj <- getitem json_obj "params" ;;
  draft_id <- getitem inner_obj "draftId" ;;
  ' (_, event_name, _) <- lift (py_rsplit3 draft_id) ;;
  st <- get ;;
  time <- cur_log_time_isoformat ;;
  pack_number <- lift (let? x := py_getitem inner_obj "packNumber" in py_int x) ;;
  pick_number <- lift (let? x := py_getitem inner_obj "pickNumber" in py_int x) ;;
  card_id <- lift (let? x := py_getitem inner_obj "cardId" in py_int x) ;;
  let pick :=
    [ ("player_id", cur_user st);
      ("event_name", JStr event_name);
      ("time", time);
      ("pack_number", JInt pack_number);
      ("pick_number", JInt pick_number);
      ("card_id", JInt card_id) ] in
  logging INFO ;;
  send ENDPOINT_DRAFT_PICK pick.

(** [Follower.__handle_human_draft_pick]. *)
Definition __handle_human_draft_pick (json_obj : json) : M unit :=
  __clear_game_data ;;
  inner_obj <- getitem json_obj "params" ;;
  st <- get ;;
  time <- cur_log_time_isoformat ;;
  draft_id <- getitem inner_obj "draftId" ;;
  pack_number <- lift (let? x := py_getitem inner_obj "packNumber" in py_int x) ;;
  pick_number <- lift (let? x := py_getitem inner_obj "pickNumber" in py_int x) ;;
  card_id <- lift (let? x := py_getitem inner_obj "cardId" in py_int x) ;;
  let pick :=
    [ ("player_id", cur_user st);
      ("time", time);
      ("draft_id", draft_id);
      ("pack_number", JInt pack_number);
      ("pick_number", JInt pick_number);
      ("card_id", JInt card_id) ] in
  logging INFO ;;
  send ENDPOINT_HUMAN_DRAFT_PICK pick.

(** [Follower.__handle_deck_submission]. *)
Definition __handle_deck_submission (json_obj : json) : M unit :=
  __clear_game_data ;;
  inner_obj <- getitem json_obj "params" ;;
  deck_text <- getitem inner_obj "deck" ;;
  deck_info <- lift (json_loads deck_text) ;;
  st <- get ;;
  event_name <- getitem inner_obj "eventName" ;;
  time <- cur_log_time_isoformat ;;
  maindeck <-
    lift (let? m := py_getitem deck_info "mainDeck" in
          let? cards := py_iter m in card_ids_by_quantity cards) ;;
  sideboard <-
    lift (let? m := py_getitem deck_info "sideboard" in
          let? cards := py_iter m in card_ids_by_quantity cards) ;;
  let deck :=
    [ ("player_id", cur_user st);
      ("event_name", event_name);
      ("time", time);
      ("maindeck_card_ids", JArr maindeck);
      ("sideboard_card_ids", JArr sideboard);
      ("is_during_match", JBool false) ] in
  logging INFO ;;
  send ENDPOINT_DECK_SUBMISSION deck.

(** [Follower.__handle_deck_submission_v3]. *)
Definition __handle_deck_submission_v3 (json_obj : json) : M unit :=
  __clear_game_data ;;
  inner_obj <- getitem json_obj "params" ;;
  deck_text <- getitem inner_obj "deck" ;;
  deck_info <- lift (json_loads deck_text) ;;
  st <- get ;;
  event_name <- getitem inner_obj "eventName" ;;
  time <- cur_log_time_isoformat ;;
  maindeck <-
    lift (let? m := py_getitem deck_info "mainDeck" in
          __get_card_ids_from_decklist_v3 m) ;;
  sideboard <-
    lift (let? m := py_getitem deck_info "sideboard" in
          __get_card_ids_from_decklist_v3 m) ;;
  companion <- lift (py_get deck_info "companionGRPId" JNull) ;;
  let deck :=
    [ ("player_id", cur_user st);
      ("event_name", event_name);
      ("time", time);
      ("maindeck_card_ids", JArr maindeck);
      ("sideboard_card_ids", JArr sideboard);
      ("is_during_match", JBool false);
      ("companion", companion) ] in
  logging INFO ;;
  send ENDPOINT_DECK_SUBMISSION deck.

(** The five [json_obj.get(...)] of a rank, joined by [get_rank_string];
    an absent [step] name stands for the literal [None]. *)
Definition rank_of (json_obj : json) (rank_class lvl percentile place : string)
  (step : option string) : result json :=
  let? c := py_get json_obj rank_class JNull in
  let? l := py_get json_obj lvl JNull in
  let? p := py_get json_obj percentile JNull in
  let? q := py_get json_obj place JNull in
  let? s := match step with
            | Some k => py_get json_obj k JNull
            | None => Ok JNull
            end in
  Ok (get_rank_string c l p q s).

(** [Follower.__handle_self_rank_info]. *)
Definition __handle_self_rank_info (json_obj : json) : M unit :=
  limited <- lift (rank_of json_obj "limitedClass" "limitedLevel" "limitedPercentile"
                     "limitedLeaderboardPlace" (Some "limitedStep")) ;;
  modify (set_cur_limited_level limited) ;;
  constructed <- lift (rank_of json_obj "constructedClass" "constructedLevel"
                         "constructedPercentile" "constructedLeaderboardPlace"
                         (Some "constructedStep")) ;;
  modify (set_cur_constructed_level constructed) ;;
  st <- get ;;
  player <- lift (py_get json_obj "playerId" (cur_user st)) ;;
  modify (set_cur_user player) ;;
  logging INFO.

(** [Follower.__handle_match_created]. *)
Definition __handle_match_created (json_obj : json) : M unit :=
  __clear_game_data ;;
  opponent <- lift (rank_of json_obj "opponentRankingClass" "opponentRankingTier"
                      "opponentMythicPercentile" "opponentMythicLeaderboardPlace" None) ;;
  modify (set_cur_opponent_level opponent) ;;
  match_id <- lift (py_get json_obj "matchId" JNull) ;;
  modify (set_cur_opponent_match_id match_id) ;;
  logging INFO.

(** [Follower.__handle_collection]. *)
Definition __handle_collection (json_obj : json) : M unit :=
  st <- get ;;
  time <- cur_log_time_isoformat ;;
  let collection :=
    [ ("player_id", cur_user st);
      ("time", time);
      ("card_counts", json_obj) ] in
  _ <- lift (py_len json_obj) ;;
  logging INFO ;;
  send ENDPOINT_COLLECTION collection.

(** ** Classifier and segmenter *)

(** The [if]/[elif] chain of [__handle_blob]: each test is evaluated only
    when the ones before it were false. *)
Definition dispatch (full_log : string) (json_obj : json) : M unit :=
  c <- lift (json_value_matches (JStr "Client.Connected") ["params"; "messageName"] json_obj) ;;
  if c then __handle_login json_obj else
  c <- lift (json_value_matches (JStr "DuelScene.GameStop") ["params"; "messageName"] json_obj) ;;
  if c then __handle_game_end json_obj else
  c <- lift (py_in "DraftStatus" json_obj) ;;
  if c then __handle_draft_log json_obj else
  c <- lift (json_value_matches (JStr "Draft.MakePick") ["method"] json_obj) ;;
  if c then __handle_draft_pick json_obj else
  c <- lift (json_value_matches (JStr "Draft.MakeHumanDraftPick") ["method"] json_obj) ;;
  if c then __handle_human_draft_pick json_obj else
  c <- lift (json_value_matches (JStr "Event.DeckSubmit") ["method"] json_obj) ;;
  if c then __handle_deck_submission json_obj else
  c <- lift (json_value_matches (JStr "Event.DeckSubmitV3") ["method"] json_obj) ;;
  if c then __handle_deck_submission_v3 json_obj else
  c <- lift (json_value_matches (JStr "DoneWithMatches") ["CurrentEventState"] json_obj) ;;
  if c then __handle_event_completion json_obj else
  c <- lift (py_in "matchGameRoomStateChangedEvent" json_obj) ;;
  if c then __handle_match_started json_obj else
  c <- lift (let? has := py_in "greToClientEvent" json_obj in
             if has then
               let? ev := py_getitem json_obj "greToClientEvent" in
               py_in "greToClientMessages" ev
             else Ok false) ;;
  if c then
    ev <- getitem json_obj "greToClientEvent" ;;
    messages <- getitem ev "greToClientMessages" ;;
    messages <- lift (py_iter messages) ;;
    for_each messages __handle_gre_to_client_message
  else
  c <- lift (py_in "limitedStep" json_obj) ;;
  if c then __handle_self_rank_info json_obj else
  c <- lift (py_in "opponentRankingClass" json_obj) ;;
  if c then __handle_match_created json_obj else
  c <- (if is_substring " PlayerInventory.GetPlayerCardsV3 " full_log
        then has <- lift (py_in "method" json_obj) ;; ret (negb has)
        else ret false) ;;
  if c then __handle_collection json_obj else ret tt.

(** [Follower.__handle_blob]. *)
Definition __handle_blob (full_log : string) : M unit :=
  match JSON_START_REGEX (str full_log) 0 with
  | None => ret tt
  | Some start =>
      match raw_decode full_log start with
      | Raise JSONDecodeError => logging DEBUG
      | Raise e => raise e
      | Ok (json_obj, _) =>
          json_obj <- lift (__extract_payload json_obj) ;;
          if negb (is_dict json_obj) then ret tt
          else
            match __maybe_get_utc_timestamp json_obj with
            | Ok (Some maybe_time) => modify (set_last_utc_time maybe_time)
            | _ => ret tt
            end ;;
            dispatch full_log json_obj
      end
  end.

(** [try: m  except Exception as e: handler]. *)
Definition try_except {A} (m : M A) (handler : exn -> M A) : M A :=
  fun st =>
    match m st with
    | (Ok a, st') => (Ok a, st')
    | (Raise e, st') => handler e st'
    end.

(** [Follower.__handle_complete_log_entry]. *)
Definition __handle_complete_log_entry : M unit :=
  st <- get ;;
  match buffer st with
  | [] => ret tt
  | _ =>
      match cur_log_time st with
      | None => modify (set_buffer [])
      | Some _ =>
          let full_log := String.concat "" (buffer st) in
          try_except (__handle_blob full_log)
            (fun _ => logging ERROR ;; logging ERROR) ;;
          modify (set_buffer [])
      end
  end.

Definition buffer_append (s : list ascii) : M unit :=
  modify (fun st => set_buffer (buffer st ++ [string_of_list_ascii s]) st).

(** The two assignments that follow a timestamp match. *)
Definition set_log_time (raw : list ascii) : M unit :=
  modify (set_last_raw_time (string_of_list_ascii raw)) ;;
  t <- lift (extract_time (string_of_list_ascii raw)) ;;
  modify (set_cur_log_time (Some t)).

(** [Follower.__append_line]. *)
Definition __append_line (line : string) : M unit :=
  __maybe_handle_account_info line ;;
  match TIMESTAMP_REGEX (str line) with
  | Some raw => set_log_time raw
  | None => ret tt
  end ;;
  match LOG_START_REGEX_UNTIMED (str line) with
  | Some rest =>
      __handle_complete_log_entry ;;
      match LOG_START_REGEX_TIMED (str line) with
      | Some (raw, rest') => set_log_time raw ;; buffer_append rest'
      | None => buffer_append rest
      end
  | None => buffer_append (str line)
  end.

(** What the inner loop of [parse_log] does with one [readline]: a line
    is appended; an empty result (no more data for now) closes the open
    entry. *)
Inductive read : Type :=
| Line (s : string)
| NoMoreData.

Definition step (r : read) : M unit :=
  match r with
  | Line s => __append_line s
  | NoMoreData => __handle_complete_log_entry
  end.

(** The effect on [self] of a run of [parse_log] that makes the given
    reads, in either mode. *)
Definition follow (reads : list read) : M unit := for_each reads step.

(** [Follower.parse_log] with [follow=False] on a file that exists and
    holds the lines [lines]: every line is appended, the entry open at the
    end of the file is closed, and the pass ends. *)
Definition parse_log (lines : list string) : M unit :=
  follow (map Line lines ++ [NoMoreData]) ;;
  logging INFO.

(** ** State predicates *)

(** The records sent so far, one entry per call of [requests.post]. *)
Definition posts (st : Follower) : list event := filter is_post (events st).

(** The game data is empty. *)
Definition game_data_cleared (st : Follower) : Prop :=
  objects_by_owner st = [] /\ opening_hand_count_by_seat st = [] /\
  opening_hand st = [] /\ drawn_hands st = [] /\ starting_team_id st = JNull.

(** [preserves P m]: if [P] holds of [self] before [m] runs, it holds
    after, whether [m] returns or raises. *)
Definition preserves {A} (P : Follower -> Prop) (m : M A) : Prop :=
  forall st, P st -> P (snd (m st)).

(** The part of [self] that [__clear_game_data] resets. *)
Definition game_data (st : Follower) :=
  (objects_by_owner st, opening_hand_count_by_seat st, opening_hand st,
   drawn_hands st, starting_team_id st).

(** The predicates carried through the methods below: the game data has a
    given value; the log time is not [None]. *)
Definition game_data_is g (st : Follower) : Prop := game_data st = g.

Definition has_log_time (st : Follower) : Prop := cur_log_time st <> None.

End Follower.

(** ** A reference library

    One implementation of [PyLib], used to run the program on concrete
    log text.  It covers part of what the libraries accept, and says so
    where it stops: the decoder reads JSON whose numbers are integers and
    whose strings use the short escapes, and raises [OtherError] with the
    name of the type at a value that is a [float]; dates are read with the
    directives of [TIME_FORMATS]; ticks are whole and not negative;
    [isoparse] reads the one format the client itself writes.  The
    theorems hold for every [PyLib]; this instance only runs the
    examples. *)

Definition dquote : ascii := ascii_of_nat 34.
Definition backslash : ascii := ascii_of_nat 92.

(** The body of a JSON string, after its opening quote. *)
Fixpoint scan_string (l acc : list ascii) : result (string * list ascii) :=
  match l with
  | [] => Raise JSONDecodeError
  | c :: r =>
      if Ascii.eqb c dquote then Ok (string_of_list_ascii (rev acc), r)
      else if Ascii.eqb c backslash then
        match r with
        | e :: r' =>
            let plain x := scan_string r' (x :: acc) in
            if Ascii.eqb e dquote then plain dquote
            else if Ascii.eqb e backslash then plain backslash
            else if Ascii.eqb e "/" then plain "/"%char
            else if Ascii.eqb e "b" then plain (ascii_of_nat 8)
            else if Ascii.eqb e "f" then plain (ascii_of_nat 12)
            else if Ascii.eqb e "n" then plain (ascii_of_nat 10)
            else if Ascii.eqb e "r" then plain (ascii_of_nat 13)
            else if Ascii.eqb e "t" then plain (ascii_of_nat 9)
            else if Ascii.eqb e "u" then Raise (OtherError "unicode escape")
            else Raise JSONDecodeError
        | [] => Raise JSONDecodeError
        end
      else if (nat_of_ascii c <? 32)%nat then Raise JSONDecodeError
      else scan_string r (c :: acc)
  end.

Definition value_of_digits (ds : list ascii) : Z :=
  fold_left (fun acc d => 10 * acc + digit_val d) ds 0.

(** What [NUMBER_RE] reads after the integer part: a fraction, a point
    and a digit, or else an exponent, [e] or [E], an optional sign and a
    digit. *)
Definition float_follows (r : list ascii) : bool :=
  match r with
  | "."%char :: d :: _ => is_digit d
  | c :: r' =>
      in_chars "eE" c &&
      match r' with
      | s :: d :: _ => if in_chars "-+" s then is_digit d else is_digit s
      | [d] => is_digit d
      | [] => false
      end
  | [] => false
  end.

(** A number: an optional minus sign, then a zero or a run of digits that
    does not start with zero.  With a fraction or an exponent after it the
    number is a [float], which the model does not have; otherwise it is the
    [int], and the text goes on after its digits. *)
Definition scan_number (l : list ascii) : result (json * list ascii) :=
  let (neg, l') :=
    match l with
    | "-"%char :: r => (true, r)
    | _ => (false, l)
    end in
  let (ds, r) :=
    match l' with
    | "0"%char :: r => (["0"%char], r)
    | _ => (take_while is_digit l', drop_while is_digit l')
    end in
  match ds with
  | [] => Raise JSONDecodeError
  | _ =>
      if float_follows r then Raise (OtherError "float")
      else Ok (JInt (if neg then - value_of_digits ds else value_of_digits ds), r)
  end.

(** The constants the scanner tries when no number matches; each is a
    [float]. *)
Definition float_constant (l : list ascii) : bool :=
  is_some (strip_prefix (str "NaN") l) ||
  is_some (strip_prefix (str "Infinity") l) ||
  is_some (strip_prefix (str "-Infinity") l).

Definition skip_blanks (l : list ascii) : list ascii := drop_while is_json_ws l.

(** The scanner: a value at the head of [l], and the text after it. *)
Fixpoint scan_value (fuel : nat) (l : list ascii) {struct fuel}
  : result (json * list ascii) :=
  match fuel with
  | O => Raise (OtherError "RecursionError")
  | S fuel =>
      match l with
      | [] => Raise JSONDecodeError
      | c :: r =>
          if Ascii.eqb c dquote then
            let? sr := scan_string r [] in Ok (JStr (fst sr), snd sr)
          else if Ascii.eqb c "{" then
            match skip_blanks r with
            | "}"%char :: r' => Ok (JObj [], r')
            | r' => scan_members fuel r' []
            end
          else if Ascii.eqb c "[" then
            match skip_blanks r with
            | "]"%char :: r' => Ok (JArr [], r')
            | r' => scan_elements fuel r' []
            end
          else
            match strip_prefix (str "null") l, strip_prefix (str "true") l,
                  strip_prefix (str "false") l with
            | Some r', _, _ => Ok (JNull, r')
            | _, Some r', _ => Ok (JBool true, r')
            | _, _, Some r' => Ok (JBool false, r')
            | _, _, _ =>
                match scan_number l with
                | Raise JSONDecodeError =>
                    if float_constant l then Raise (OtherError "float")
                    else Raise JSONDecodeError
                | number => number
                end
            end
      end
  end
with scan_members (fuel : nat) (l : list ascii) (acc : list (string * json)) {struct fuel}
  : result (json * list ascii) :=
  match fuel with
  | O => Raise (OtherError "RecursionError")
  | S fuel =>
      match l with
      | c :: r =>
          if Ascii.eqb c dquote then
            let? kr := scan_string r [] in
            match skip_blanks (snd kr) with
            | ":"%char :: r1 =>
                let? vr := scan_value fuel (skip_blanks r1) in
                let acc := dict_set (fst kr) (fst vr) acc in
                match skip_blanks (snd vr) with
                | "}"%char :: r2 => Ok (JObj acc, r2)
                | ","%char :: r2 => scan_members fuel (skip_blanks r2) acc
                | _ => Raise JSONDecodeError
                end
            | _ => Raise JSONDecodeError
            end
          else Raise JSONDecodeError
      | [] => Raise JSONDecodeError
      end
  end
with scan_elements (fuel : nat) (l : list ascii) (acc : list json) {struct fuel}
  : result (json * list ascii) :=
  match fuel with
  | O => Raise (OtherError "RecursionError")
  | S fuel =>
      let? vr := scan_value fuel l in
      match skip_blanks (snd vr) with
      | "]"%char :: r => Ok (JArr (acc ++ [fst vr]), r)
      | ","%char :: r => scan_elements fuel (skip_blanks r) (acc ++ [fst vr])
      | _ => Raise JSONDecodeError
      end
  end.

(** [raw_decode(s, idx)]: the value and the index where it ends. *)
Definition ref_raw_decode (s : string) (idx : nat) : result (json * nat) :=
  if (String.length s <? idx)%nat then Raise JSONDecodeError
  else
    let l := skipn idx (str s) in
    let? vr := scan_value (2 * List.length l + 2) l in
    Ok (fst vr, (String.length s - List.length (snd vr))%nat).

(** Dates to the microsecond, without a time zone. *)
Record ref_datetime : Type := {
  dt_year : Z; dt_month : Z; dt_day : Z;
  dt_hour : Z; dt_minute : Z; dt_second : Z; dt_micro : Z
}.

Definition is_leap (y : Z) : bool :=
  ((y mod 4 =? 0) && negb (y mod 100 =? 0)) || (y mod 400 =? 0).

Definition days_in_month (y m : Z) : Z :=
  if m =? 2 then (if is_leap y then 29 else 28)
  else if (m =? 4) || (m =? 6) || (m =? 9) || (m =? 11) then 30
  else 31.

(** The ways one directive or literal of a format can match the head of
    the input, best first, as the regular expression [strptime] builds
    from the format tries them. *)
Inductive directive : Type :=
| DYear | DMonth | DDay | DHour24 | DHour12 | DMinute | DSecond | DHalf
| DBlank | DLit (c : ascii).

Definition two_then_one (lo hi : Z) (one : ascii -> bool) (l : list ascii)
  : list (Z * list ascii) :=
  match l with
  | a :: b :: r =>
      (if is_digit a && is_digit b &&
          (lo <=? value_of_digits [a; b]) && (value_of_digits [a; b] <=? hi)
       then [(value_of_digits [a; b], r)] else []) ++
      (if one a then [(digit_val a, b :: r)] else [])
  | [a] => if one a then [(digit_val a, [])] else []
  | [] => []
  end.

Definition nonzero_digit (c : ascii) : bool := is_digit c && negb (Ascii.eqb c "0").

Definition upper (c : ascii) : ascii :=
  let n := nat_of_ascii c in
  if ((97 <=? n) && (n <=? 122))%nat then ascii_of_nat (n - 32) else c.

Fixpoint blank_runs (l : list ascii) : list (list ascii) :=
  match l with
  | c :: r => if is_space c then blank_runs r ++ [r] else []
  | [] => []
  end.

Definition ways (d : directive) (l : list ascii) : list (Z * list ascii) :=
  match d with
  | DYear =>
      match l with
      | a :: b :: c :: e :: r =>
          if forallb is_digit [a; b; c; e] then [(value_of_digits [a; b; c; e], r)] else []
      | _ => []
      end
  | DMonth | DHour12 => two_then_one 1 12 nonzero_digit l
  | DDay =>
      two_then_one 1 31 nonzero_digit l ++
      match l with
      | " "%char :: a :: r => if nonzero_digit a then [(digit_val a, r)] else []
      | _ => []
      end
  | DHour24 => two_then_one 0 23 is_digit l
  | DMinute => two_then_one 0 59 is_digit l
  | DSecond => two_then_one 0 61 is_digit l
  | DHalf =>
      match l with
      | a :: m :: r =>
          if Ascii.eqb (upper m) "M" then
            if Ascii.eqb (upper a) "A" then [(0, r)]
            else if Ascii.eqb (upper a) "P" then [(1, r)] else []
          else []
      | _ => []
      end
  | DBlank => map (fun r => (0, r)) (blank_runs l)
  | DLit c =>
      match l with
      | a :: r => if Ascii.eqb (upper a) (upper c) then [(0, r)] else []
      | [] => []
      end
  end.

Fixpoint directives (fmt : list ascii) : list directive :=
  match fmt with
  | "%"%char :: c :: r =>
      (if Ascii.eqb c "Y" then DYear else if Ascii.eqb c "m" then DMonth
       else if Ascii.eqb c "d" then DDay else if Ascii.eqb c "H" then DHour24
       else if Ascii.eqb c "I" then DHour12 else if Ascii.eqb c "M" then DMinute
       else if Ascii.eqb c "S" then DSecond else if Ascii.eqb c "p" then DHalf
       else DLit c) :: directives r
  | c :: r => (if is_space c then DBlank else DLit c) :: directives r
  | [] => []
  end.

(** The first way to match the whole input, with the values found. *)
Fixpoint match_format (ds : list directive) (l : list ascii) (found : list (directive * Z))
  : option (list (directive * Z)) :=
  match ds with
  | [] => match l with [] => Some found | _ => None end
  | d :: ds' =>
      (fix first (alts : list (Z * list ascii)) : option (list (directive * Z)) :=
         match alts with
         | [] => None
         | (v, r) :: more =>
             match match_format ds' r (found ++ [(d, v)]) with
             | Some f => Some f
             | None => first more
             end
         end) (ways d l)
  end.

Definition found_value (d : directive) (dflt : Z) (found : list (directive * Z)) : Z :=
  match find (fun p => match fst p, d with
                       | DYear, DYear | DMonth, DMonth | DDay, DDay | DHour24, DHour24
                       | DHour12, DHour12 | DMinute, DMinute | DSecond, DSecond
                       | DHalf, DHalf => true
                       | _, _ => false
                       end) found with
  | Some p => snd p
  | None => dflt
  end.

(** [datetime.strptime] for the directives of [TIME_FORMATS]. *)
Definition ref_strptime (s fmt : string) : option ref_datetime :=
  match match_format (directives (str fmt)) (str s) [] with
  | None => None
  | Some f =>
      let y := found_value DYear 1900 f in
      let m := found_value DMonth 1 f in
      let d := found_value DDay 1 f in
      let h12 := found_value DHour12 (-1) f in
      let h := if h12 <? 0 then found_value DHour24 0 f
               else if found_value DHalf 0 f =? 1
                    then (if h12 =? 12 then 12 else h12 + 12)
                    else (if h12 =? 12 then 0 else h12) in
      let sec := found_value DSecond 0 f in
      if (1 <=? y) && (d <=? days_in_month y m) && (sec <=? 59)
      then Some {| dt_year := y; dt_month := m; dt_day := d; dt_hour := h;
                   dt_minute := found_value DMinute 0 f; dt_second := sec;
                   dt_micro := 0 |}
      else None
  end.

Definition pad (width : nat) (n : Z) : string :=
  let s := Z_to_string n in
  string_of_list_ascii (repeat "0"%char (width - String.length s) ++ str s).

(** [datetime.isoformat]. *)
Definition ref_isoformat (t : ref_datetime) : string :=
  (pad 4 (dt_year t) ++ "-" ++ pad 2 (dt_month t) ++ "-" ++ pad 2 (dt_day t) ++ "T" ++
   pad 2 (dt_hour t) ++ ":" ++ pad 2 (dt_minute t) ++ ":" ++ pad 2 (dt_second t) ++
   (if (dt_micro t =? 0)%Z then "" else "." ++ pad 6 (dt_micro t)))%string.

(** The calendar date [days] days after 0001-01-01. *)
Definition date_of_days (days : Z) : Z * Z * Z :=
  let z := days + 306 in
  let era := z / 146097 in
  let doe := z - era * 146097 in
  let yoe := (doe - doe / 1460 + doe / 36524 - doe / 146096) / 365 in
  let doy := doe - (365 * yoe + yoe / 4 - yoe / 100) in
  let mp := (5 * doy + 2) / 153 in
  let d := doy - (153 * mp + 2) / 5 + 1 in
  let m := if mp <? 10 then mp + 3 else mp - 9 in
  (yoe + era * 400 + (if m <=? 2 then 1 else 0), m, d).

(** [datetime.fromordinal(1) + timedelta(seconds=n / 10000000)] for ticks
    that are not negative, with the division done exactly and its result
    cut to the microsecond.  Python divides in floating point and rounds to
    the nearest microsecond, so the two agree on ticks that make a whole
    number of seconds, and can differ in the last digits elsewhere.
    Negative ticks are refused with [OverflowError], as Python refuses a
    date before year 1; the few it rounds up to the first instant are
    refused too. *)
Definition ref_datetime_of_ticks (n : Z) : result ref_datetime :=
  let us := n / 10 in
  let '(y, m, d) := date_of_days (us / 86400000000) in
  let rest := us mod 86400000000 in
  if (n <? 0) || (9999 <? y) then Raise (OtherError "OverflowError")
  else Ok {| dt_year := y; dt_month := m; dt_day := d;
             dt_hour := rest / 3600000000;
             dt_minute := rest / 60000000 mod 60;
             dt_second := rest / 1000000 mod 60;
             dt_micro := rest mod 1000000 |}.

(** [dateutil.parser.isoparse] on the extended format with seconds,
    [YYYY-MM-DDTHH:MM:SS], which is what [isoformat] gives for a time
    without microseconds.  The other ISO 8601 forms the library reads
    (dates alone, basic format, fractions, offsets) are refused here with
    [ValueError]. *)
Definition ref_isoparse (x : json) : result ref_datetime :=
  match x with
  | JStr s =>
      match ref_strptime s "%Y-%m-%dT%H:%M:%S" with
      | Some t => Ok t
      | None => Raise ValueError
      end
  | _ => Raise TypeError
  end.

(** [repr] of a [str], for text without control characters. *)
Definition repr_str (s : string) : string :=
  let cs := str s in
  let quote :=
    if existsb (Ascii.eqb "'") cs && negb (existsb (Ascii.eqb dquote) cs)
    then dquote else "'"%char in
  string_of_list_ascii
    (quote ::
     flat_map (fun c => if Ascii.eqb c quote || Ascii.eqb c backslash
                        then [backslash; c] else [c]) cs ++ [quote]).

(** [repr] of a decoded value. *)
Fixpoint ref_repr (x : json) : string :=
  match x with
  | JNull => "None"
  | JBool true => "True"
  | JBool false => "False"
  | JInt n => Z_to_string n
  | JStr s => repr_str s
  | JArr l => ("[" ++ String.concat ", " (map ref_repr l) ++ "]")%string
  | JObj d =>
      ("{" ++ String.concat ", "
                (map (fun kv => (repr_str (fst kv) ++ ": " ++ ref_repr (snd kv))%string) d)
           ++ "}")%string
  end.

(** The library, given the status codes the server answers with, in
    order; once they are used up it answers 200. *)
Definition ref_lib (codes : list Z) : PyLib :=
  {| datetime := ref_datetime;
     fromtimestamp0 :=
       {| dt_year := 1970; dt_month := 1; dt_day := 1; dt_hour := 0;
          dt_minute := 0; dt_second := 0; dt_micro := 0 |};
     strptime := ref_strptime;
     isoformat := ref_isoformat;
     datetime_of_ticks := ref_datetime_of_ticks;
     isoparse := ref_isoparse;
     raw_decode := ref_raw_decode;
     py_repr := ref_repr;
     set_iter := tuple_dedup;
     set_iter_perm := fun l => Permutation_refl (tuple_dedup l);
     requests_post := fun n _ _ =>
       Ok {| status_code := nth n codes 200; text := "" |} |}.

(** ** Reading the aggregator *)

(** The card an instance id stands for, [None] if no card was recorded. *)
Definition resolve (player_objects : pydict json) (instance_id : json) : json :=
  lookup JNull instance_id player_objects.

Section Entry.

Context {L : PyLib}.

(** The hands captured for a seat at its mulligan decisions. *)
Definition history (seat_id : json) (st : Follower) : list (list json) :=
  lookup [] seat_id (drawn_hands st).

(** The mulligan decisions seen during a match, in order: each is a turn
    info with the seat and the mulligan count of a player pending a
    decision, as the loop over [players_deciding_hand] meets them. *)
Definition observe (decisions : list (json * (json * json))) : M unit :=
  for_each decisions (fun o => track_mulligan (fst o) (snd o)).

(** [climbs seat k decisions k']: the decisions of [seat] in the list visit
    the mulligan counts [k], [k + 1], ..., [k' - 1] in succession; a count
    already visited may come again at any time, and decisions of other
    seats may come in between. *)
Inductive climbs (seat : json) : nat -> list (json * (json * json)) -> nat -> Prop :=
| climbs_done k : climbs seat k [] k
| climbs_next k turn_info rest k' :
    climbs seat (S k) rest k' ->
    climbs seat k ((turn_info, (seat, JInt (Z.of_nat k))) :: rest) k'
| climbs_again k turn_info c rest k' :
    0 <= c < Z.of_nat k ->
    climbs seat k rest k' ->
    climbs seat k ((turn_info, (seat, JInt c)) :: rest) k'
| climbs_other k turn_info other c rest k' :
    py_hashable other = true ->
    py_eq other seat = false ->
    climbs seat k rest k' ->
    climbs seat k ((turn_info, (other, c)) :: rest) k'.

(** A result of per-game scope. *)
Definition is_game_scope (result : json) : bool :=
  match py_get result "scope" JNull with
  | Ok scope => py_eq scope (JStr "MatchScope_Game")
  | Raise _ => false
  end.

(** The game-result record, as the specification assembles it from the
    state of the aggregator at the moment of emission. *)
Definition game_record (st : Follower) (time seat_id match_id mulliganed_hands event_name
  on_play won win_type game_end_reason turn_count duration : json) : list (string * json) :=
  let opponent_id := if py_eq seat_id (JInt 1) then JInt 2 else JInt 1 in
  [ ("player_id", cur_user st);
    ("event_name", event_name);
    ("match_id", match_id);
    ("time", time);
    ("on_play", on_play);
    ("won", won);
    ("win_type", win_type);
    ("game_end_reason", game_end_reason);
    ("opening_hand", JArr (lookup [] seat_id (opening_hand st)));
    ("mulligans", mulliganed_hands);
    ("mulligan_count", JInt (lookup 0 seat_id (opening_hand_count_by_seat st) - 1));
    ("opponent_mulligan_count",
     JInt (lookup 0 opponent_id (opening_hand_count_by_seat st) - 1));
    ("turns", turn_count);
    ("duration", duration);
    ("opponent_card_ids", JArr (map snd (lookup [] opponent_id (objects_by_owner st))));
    ("limited_rank", cur_limited_level st);
    ("constructed_rank", cur_constructed_level st);
    ("opponent_rank",
     if py_eq match_id (cur_opponent_match_id st) then cur_opponent_level st else JNull) ].

(** The record of the game-over path for the local seat [seat_id]. *)
Definition game_over_record (st : Follower) (t : datetime)
  (seat_id match_id winner win_type reason turn_count : json) : list (string * json) :=
  game_record st (JStr (isoformat t)) seat_id match_id
    (JArr (map JArr (removelast (history seat_id st)))) (event_id_of st match_id)
    (JBool (py_eq seat_id (starting_team_id st))) (JBool (py_eq seat_id winner))
    win_type reason turn_count (JInt (-1)).

(** What [__handle_complete_log_entry] does with a non-empty buffer when
    the log time is set: the joined text goes to [__handle_blob], an
    exception is logged, the buffer is emptied. *)
Definition process_entry (st : Follower) : result unit * Follower :=
  match __handle_blob (String.concat "" (buffer st)) st with
  | (Ok _, st') => (Ok tt, set_buffer [] st')
  | (Raise _, st') =>
      (Ok tt, set_buffer [] (set_events (events st' ++ [Log ERROR; Log ERROR]) st'))
  end.

End Entry.

(** ** Reading the classifier *)

(** The tests of [__handle_blob] that come before the test for GRE
    messages, in the order of the [if]/[elif] chain. *)
Definition tests_before_gre (json_obj : json) : list (result bool) :=
  [ json_value_matches (JStr "Client.Connected") ["params"; "messageName"] json_obj;
    json_value_matches (JStr "DuelScene.GameStop") ["params"; "messageName"] json_obj;
    py_in "DraftStatus" json_obj;
    json_value_matches (JStr "Draft.MakePick") ["method"] json_obj;
    json_value_matches (JStr "Draft.MakeHumanDraftPick") ["method"] json_obj;
    json_value_matches (JStr "Event.DeckSubmit") ["method"] json_obj;
    json_value_matches (JStr "Event.DeckSubmitV3") ["method"] json_obj;
    json_value_matches (JStr "DoneWithMatches") ["CurrentEventState"] json_obj;
    py_in "matchGameRoomStateChangedEvent" json_obj ].

Definition is_false (r : result bool) : bool :=
  match r with
  | Ok false => true
  | _ => false
  end.

(** The GRE messages of an effective message that the classifier takes
    for a GRE event: every earlier test is false, and the message holds a
    list under [greToClientEvent.greToClientMessages]. *)
Definition gre_messages_of (json_obj : json) : option (list json) :=
  if forallb is_false (tests_before_gre json_obj) then
    match py_getitem json_obj "greToClientEvent" with
    | Ok ev =>
        match py_getitem ev "greToClientMessages" with
        | Ok (JArr messages) => Some messages
        | _ => None
        end
    | Raise _ => None
    end
  else None.

Section Classified.

Context {L : PyLib}.

(** [self] at the moment the classifier starts on an effective message:
    the last UTC time is the one of the message, when it has one that can
    be read. *)
Definition with_utc_time_of (json_obj : json) (st : Follower) : Follower :=
  match __maybe_get_utc_timestamp json_obj with
  | Ok (Some maybe_time) => set_last_utc_time maybe_time st
  | _ => st
  end.

End Classified.

(** ** Deck lists, as the specification describes them *)


(** Each card identifier repeated its count times. *)
Definition expansion (pairs : list (json * Z)) : list json :=
  flat_map (fun p => repeat (fst p) (Z.to_nat (snd p))) pairs.

(** How often [c] occurs in a list, and how many copies of [c] the pairs
    ask for. *)
Definition occurrences (c : json) (l : list json) : nat :=
  List.length (filter (py_eq c) l).

Definition copies (c : json) (pairs : list (json * Z)) : nat :=
  fold_right (fun p acc => if py_eq c (fst p) then (Z.to_nat (snd p) + acc)%nat else acc)
    0%nat pairs.

(** The effective message that carries a list of GRE messages. *)
Definition gre_event (messages : list json) : json :=
  JObj [("greToClientEvent", JObj [("greToClientMessages", JArr messages)])].

(** ** Log text and messages used in the examples *)

(** [json.dumps] for values whose strings hold no control character and
    whose keys hold no quote or backslash either. *)
Fixpoint dumps (x : json) : string :=
  match x with
  | JNull => "null"
  | JBool true => "true"
  | JBool false => "false"
  | JInt n => Z_to_string n
  | JStr s =>
      String dquote
        (string_of_list_ascii
           (flat_map (fun c => if Ascii.eqb c dquote || Ascii.eqb c backslash
                               then [backslash; c] else [c]) (str s))
         ++ String dquote "")
  | JArr l => ("[" ++ String.concat ", " (map dumps l) ++ "]")%string
  | JObj d =>
      ("{" ++ String.concat ", "
                (map (fun kv => (String dquote (fst kv ++ String dquote "") ++ ": "
                                 ++ dumps (snd kv))%string) d)
           ++ "}")%string
  end.

(** One line of the log file, with its newline. *)
Definition line (s : string) : string := (s ++ String newline "")%string.

(** A [Client.Connected] message. *)
Definition login_message : json :=
  JObj [("params", JObj [("messageName", JStr "Client.Connected");
                         ("payloadObject", JObj [("playerId", JStr "P1");
                                                 ("screenName", JStr "Ann")])])].

(** A fresh follower of the reference library whose server always
    answers 200. *)
Definition fresh : @Follower (ref_lib []) := @__init__ (ref_lib []) "token" "host".

(** A game-state message that creates three cards of seat 2. *)
Definition objects_message : json :=
  JObj [("type", JStr "GREMessageType_GameStateMessage");
        ("gameStateMessage",
         JObj [("gameObjects",
                JArr (map (fun p =>
                        JObj [("type", JStr "GameObjectType_Card");
                              ("ownerSeatId", JInt 2);
                              ("instanceId", JInt (fst p));
                              ("overlayGrpId", JInt (snd p))])
                      [(101, 70001); (102, 70002); (103, 70003)]))])].

(** The hand zone of seat 2. *)
Definition hand_zone (instance_ids : list Z) : json :=
  JObj [("type", JStr "ZoneType_Hand");
        ("ownerSeatId", JInt 2);
        ("objectInstanceIds", JArr (map JInt instance_ids))].

(** A game-state message whose only zone is the hand of seat 2. *)
Definition hand_message (instance_ids : list Z) : json :=
  JObj [("type", JStr "GREMessageType_GameStateMessage");
        ("gameStateMessage", JObj [("zones", JArr [hand_zone instance_ids])])].

(** The state of [self] after a list of GRE messages. *)
Definition after_messages (messages : list json) (st : @Follower (ref_lib []))
  : @Follower (ref_lib []) :=
  snd (for_each messages (@__handle_gre_to_client_message (ref_lib [])) st).

(** A log file of one line: an entry marker without a timestamp, then a
    login message. *)
Definition untimed_log : list string :=
  [line ("[UnityCrossThreadLogger]" ++ dumps login_message)%string].

(** A draft-pack notification. *)
Definition draft_pack_message : json :=
  JObj [("DraftStatus", JStr "Draft.PickNext");
        ("DraftId", JStr "P1:QuickDraft_M20:Draft");
        ("PackNumber", JInt 0);
        ("PickNumber", JInt 3);
        ("DraftPack", JArr [JStr "70001"; JStr "70002"])].

(** An envelope that has [id], [payload] and [request] at once. *)
Definition both_message : json :=
  JObj [("id", JInt 5); ("payload", JObj [("a", JInt 1)]); ("request", JStr "[7]")].

(** An envelope with [id] and [request] only. *)
Definition request_message : json :=
  JObj [("id", JInt 5); ("request", JStr "[7]")].

(** An [Event.DeckSubmitV3] message whose deck text holds the given main
    deck. *)
Definition deck_v3_message (main_deck : list json) : json :=
  JObj [("method", JStr "Event.DeckSubmitV3");
        ("params",
         JObj [("eventName", JStr "QuickDraft_M20");
               ("deck", JStr (dumps (JObj [("mainDeck", JArr main_deck);
                                           ("sideboard", JArr [])])))])].

(** A log of two timed entries: a deck submission whose main deck has
    three elements, then a login. *)
Definition odd_deck_log : list string :=
  [ line ("[UnityCrossThreadLogger]2/25/2020 10:03:15 PM" ++
          dumps (deck_v3_message [JInt 70001; JInt 2; JInt 70002]));
    line ("[UnityCrossThreadLogger]2/25/2020 10:03:16 PM" ++ dumps login_message) ]%string.

(** One entry of the results of a game: its scope and the winning team. *)
Definition game_result (scope : string) (winner : Z) : json :=
  JObj [("scope", JStr scope);
        ("winningTeamId", JInt winner);
        ("result", JStr "ResultType_WinLoss");
        ("reason", JStr "ResultReason_Game")].

(** The game info of match M1 at the game-over stage. *)
Definition game_over_info (results : list json) : json :=
  JObj [("matchID", JStr "M1");
        ("stage", JStr "GameStage_GameOver");
        ("results", JArr results)].

(** A game state at the game-over stage, in turn 9. *)
Definition game_over_state (results : list json) : json :=
  JObj [("gameInfo", game_over_info results);
        ("turnInfo", JObj [("turnNumber", JInt 9)])].

(** The GRE message that carries it. *)
Definition game_over_message (seats : list Z) (results : list json) : json :=
  JObj [("type", JStr "GREMessageType_GameStateMessage");
        ("systemSeatIds", JArr (map JInt seats));
        ("gameStateMessage", game_over_state results)].

(** Results of two games and of the match, oldest first. *)
Definition two_games : list json :=
  [ game_result "MatchScope_Game" 2;
    game_result "MatchScope_Game" 1;
    game_result "MatchScope_Match" 1 ].

(** A log of one timed entry: a game-over message without seat ids. *)
Definition seatless_log : list string :=
  [ line ("[UnityCrossThreadLogger]2/25/2020 10:03:15 PM" ++
          dumps (gre_event [game_over_message [] two_games])) ]%string.

(** A game-state message in which the player of a seat is pending a
    mulligan decision at a given mulligan count. *)
Definition mulligan_message (seat count : Z) : json :=
  JObj [("type", JStr "GREMessageType_GameStateMessage");
        ("gameStateMessage",
         JObj [("players",
                JArr [JObj [("systemSeatNumber", JInt seat);
                            ("mulliganCount", JInt count);
                            ("pendingMessageType",
                             JStr "ClientMessageType_MulliganResp")]])])].

(** A log of one timed entry with two GRE messages: a game-over message
    of seat 1, then a game-over message without seat ids. *)
Definition seat_then_seatless_log : list string :=
  [ line ("[UnityCrossThreadLogger]2/25/2020 10:03:15 PM" ++
          dumps (gre_event [game_over_message [1] two_games;
                            game_over_message [] two_games])) ]%string.

(** Decisions of seats 1 and 2: seat 1 is seen at the counts 0, 1, 1
    again and 2. *)
Definition three_hands : list (json * (json * json)) :=
  [ (JObj [], (JInt 1, JInt 0));
    (JObj [], (JInt 2, JInt 0));
    (JObj [], (JInt 1, JInt 1));
    (JObj [], (JInt 1, JInt 1));
    (JObj [], (JInt 1, JInt 2)) ].

(** ** Lines of the log *)

Section Lines.

Context {L : PyLib}.

(** [extract_time] accepts the text. *)
Definition time_parses (raw : list ascii) : bool :=
  match extract_time (string_of_list_ascii raw) with
  | Ok _ => true
  | Raise _ => false
  end.

(** Every time text that [__append_line] reads off the line is accepted
    by [extract_time]. *)
Definition timestamps_parse (line : string) : bool :=
  match TIMESTAMP_REGEX (str line) with
  | Some raw => time_parses raw
  | None => true
  end &&
  match LOG_START_REGEX_TIMED (str line) with
  | Some (raw, _) => time_parses raw
  | None => true
  end.

(** [requests.post] answers every call: it never raises. *)
Definition server_answers : Prop :=
  forall n url blob, exists r, requests_post n url blob = Ok r.

End Lines.

(** A line that only continues the open entry: it holds no account
    information, starts with no timestamp and with no entry marker. *)
Definition is_continuation (line : string) : bool :=
  match ACCOUNT_INFO_REGEX (str line), TIMESTAMP_REGEX (str line),
        LOG_START_REGEX_UNTIMED (str line) with
  | None, None, None => true
  | _, _, _ => false
  end.

(** The keys and paths the tests of [__handle_blob] look at first. *)
Definition classifier_keys : list string :=
  [ "params"; "DraftStatus"; "method"; "CurrentEventState";
    "matchGameRoomStateChangedEvent"; "greToClientEvent"; "limitedStep";
    "opponentRankingClass" ].

(** The keys of a dict are hashable and pairwise different. *)
Fixpoint keys_distinct {V} (d : pydict V) : bool :=
  match d with
  | [] => true
  | (k, _) :: r =>
      py_hashable k && negb (existsb (fun kv => py_eq k (fst kv)) r) && keys_distinct r
  end.

(** A card of a deck list of [Event.DeckSubmit]. *)
Definition card_entry (p : json * Z) : json :=
  JObj [("Id", fst p); ("Quantity", JInt (snd p))].

(** ** Start-up: the version check *)

Definition ENDPOINT_CLIENT_VERSION : string := "min_client_version".

(** [s.split(c)], on the characters of [s]. *)
Fixpoint split_on (c : ascii) (l : list ascii) : list (list ascii) :=
  match l with
  | [] => [[]]
  | x :: r =>
      if Ascii.eqb x c then [] :: split_on c r
      else
        match split_on c r with
        | p :: ps => (x :: p) :: ps
        | [] => [[x]]
        end
  end.

Definition py_split (c : ascii) (s : string) : list string :=
  map string_of_list_ascii (split_on c (str s)).

(** [a >= b] on lists of [int]s: the first place where they differ
    decides; a list is greater than its proper prefixes. *)
Fixpoint list_ge (a b : list Z) : bool :=
  match a, b with
  | _, [] => true
  | [], _ :: _ => false
  | x :: a', y :: b' => if x =? y then list_ge a' b' else y <? x
  end.

(** [[int(i) for i in x.split('.')]]: only a [str] has the method. *)
Definition version_of (x : json) : result (list Z) :=
  match x with
  | JStr s => map_result (fun part => py_int (JStr part)) (py_split "." s)
  | _ => Raise AttributeError
  end.

(** What the version check does to the outside world. *)
Inductive startup_event : Type :=
| Get (url : string)
| Logged (lvl : level)
| Slept (seconds : Z)
| ErrorBox.

Section Startup.

Context {L : PyLib}.

(** [requests_get n url] is the outcome of the [n]-th call of
    [requests.get] made by the process, counted from zero. *)
Variable requests_get : nat -> string -> result response.

(** The loop [for i in range(3)] of [verify_valid_version]: [Some] of the
    response it breaks with, or [None] when it runs to its [else]. *)
Fixpoint version_request (rounds calls : nat) (url : string)
  : list startup_event * result (option response) :=
  match rounds with
  | O => ([], Ok None)
  | S rounds' =>
      match requests_get calls url with
      | Raise e => ([Get url], Raise e)
      | Ok response =>
          if negb (IS_CODE_FOR_RETRY (status_code response))
          then ([Get url], Ok (Some response))
          else
            let (evs, out) := version_request rounds' (S calls) url in
            (Get url :: Logged WARNING :: Slept DEFAULT_RETRY_SLEEP_TIME :: evs, out)
      end
  end.

(** [verify_valid_version]: it returns, raises, or shows the error box
    and leaves with [exit(1)], which raises [SystemExit]. *)
Definition verify_valid_version (host : string) : list startup_event * result unit :=
  match version_request 3 0 (host ++ "/" ++ ENDPOINT_CLIENT_VERSION)%string with
  | (evs, Raise e) => (evs, Raise e)
  | (evs, Ok None) => (evs ++ [Logged WARNING], Ok tt)
  | (evs, Ok (Some response)) =>
      match (let? blob := json_loads (JStr (text response)) in
             let? this_version := version_of (JStr CLIENT_VERSION) in
             let? min_version := py_getitem blob "min_version" in
             let? min_supported_version := version_of min_version in
             Ok (this_version, min_supported_version)) with
      | Raise e => (evs ++ [Logged INFO], Raise e)
      | Ok (this_version, min_supported_version) =>
          if list_ge this_version min_supported_version
          then (evs ++ [Logged INFO; Logged INFO], Ok tt)
          else (evs ++ [Logged INFO; Logged INFO; ErrorBox], Raise (OtherError "SystemExit"))
      end
  end.

End Startup.

(** How many of the decisions are decisions of [seat]. *)
Definition presentations (seat : json) (decisions : list (json * (json * json))) : nat :=
  List.length (filter (fun o => py_eq (fst (snd o)) seat) decisions).

(** A hand of [DuelScene.GameStop]: cards that carry their [grpId]. *)
Definition hand_of_cards (grp_ids : list json) : json :=
  JArr (map (fun g => JObj [("grpId", g)]) grp_ids).

(** The text holds no colon. *)
Definition no_colon (s : string) : bool :=
  forallb (fun c => negb (Ascii.eqb c ":")) (str s).


(** ** Counting the records a method sends *)

Section Counting.

Context {L : PyLib}.

(** The calls of [requests.post] made so far are [p]. *)
Definition posts_are (p : list event) (st : Follower) : Prop := posts st = p.

(** All the calls of [requests.post] that [m] makes carry one and the
    same record to one and the same url, and there are at most three of
    them: [m] hands at most one record to the publisher. *)
Definition sends_at_most_one_record {A} (m : M A) : Prop :=
  forall st, exists url blob k,
    (k <= 3)%nat /\ posts (snd (m st)) = posts st ++ repeat (Post url blob) k.

End Counting.

(** ** More scenarios for the examples *)

(** The reference library with a server that cannot be reached:
    [requests.post] raises. *)
Definition offline_lib : PyLib :=
  {| datetime := ref_datetime;
     fromtimestamp0 := @fromtimestamp0 (ref_lib []);
     strptime := ref_strptime;
     isoformat := ref_isoformat;
     datetime_of_ticks := ref_datetime_of_ticks;
     isoparse := ref_isoparse;
     raw_decode := ref_raw_decode;
     py_repr := ref_repr;
     set_iter := tuple_dedup;
     set_iter_perm := fun l => Permutation_refl (tuple_dedup l);
     requests_post := fun _ _ _ => Raise (OtherError "ConnectionError") |}.

(** An entry marker followed by a blank and free text. *)
Definition blank_after_marker : string :=
  line "[UnityCrossThreadLogger] Connecting to the server".

(** A line that starts with a date written with dots. *)
Definition dotted_date_line : string := line "2020.02.25 10:03:15 starting".

(** An array printed over three lines. *)
Definition array_lines : list string := [line "["; line "1, 2"; line "]"].

(** A line with a timestamp and account information. *)
Definition account_line : string :=
  line "2020-02-25 10:03:15 Updated account. DisplayName:Ann, AccountID:P1, Token:xyz".

(** A card object of seat 2. *)
Definition card_object (instance_id card_id : Z) : json :=
  JObj [("type", JStr "GameObjectType_Card");
        ("ownerSeatId", JInt 2);
        ("instanceId", JInt instance_id);
        ("overlayGrpId", JInt card_id)].

(** A [matchGameRoomStateChangedEvent] message for match M1 of an event. *)
Definition match_started_message : json :=
  JObj [("matchGameRoomStateChangedEvent",
         JObj [("gameRoomInfo",
                JObj [("gameRoomConfig",
                       JObj [("matchId", JStr "M1");
                             ("eventId", JStr "QuickDraft_M20")])])])].

(** The turn info of the upkeep of turn 1. *)
Definition first_upkeep : list (string * json) :=
  [("phase", JStr "Phase_Beginning"); ("step", JStr "Step_Upkeep"); ("turnNumber", JInt 1)].

(** The payload of a [DuelScene.GameStop] message: seat 1 kept after one
    mulligan of a hand of two cards, and won in turn 9. *)
Definition game_stop_payload : json :=
  JObj [("seatId", JInt 1);
        ("matchId", JStr "M1");
        ("mulliganedHands", JArr [hand_of_cards [JInt 70001; JInt 70002]]);
        ("eventId", JStr "QuickDraft_M20");
        ("teamId", JInt 1);
        ("startingTeamId", JInt 2);
        ("winningTeamId", JInt 1);
        ("winningType", JStr "WinLoss");
        ("winningReason", JStr "Game");
        ("turnCount", JInt 9);
        ("secondsCount", JInt 300)].

Definition game_stop_message : json :=
  JObj [("params", JObj [("messageName", JStr "DuelScene.GameStop");
                         ("payloadObject", game_stop_payload)])].

(** A deck submitted during a match. *)
Definition submit_deck_message : json :=
  JObj [("type", JStr "GREMessageType_SubmitDeckReq");
        ("submitDeckReq", JObj [("deck", JObj [("deckCards", JArr [JInt 70001])])])].

(** A [Draft.MakePick] message whose draft id has a colon in its user part. *)
Definition draft_pick_message : json :=
  JObj [("method", JStr "Draft.MakePick");
        ("params", JObj [("draftId", JStr "P:1:QuickDraft_M20:Draft");
                         ("packNumber", JStr "0");
                         ("pickNumber", JInt 3);
                         ("cardId", JStr "70001")])].

(** A server that answers every request for the minimum version with
    the given status code and text. *)
Definition version_server (code : Z) (body : string) (n : nat) (url : string)
  : result response :=
  Ok {| status_code := code; text := body |}.


(** * Properties *)

Section Properties.

Context {L : PyLib}.

(** ** State predicates kept by a method *)

Lemma preserves_ret {A} P (a : A) : preserves P (ret a).
Proof. intros st H; exact H. Qed.

Lemma preserves_raise {A} P e : preserves P (raise (A := A) e).
Proof. intros st H; exact H. Qed.

Lemma preserves_lift {A} P (r : result A) : preserves P (lift r).
Proof. intros st H; exact H. Qed.

Lemma preserves_get P : preserves P get.
Proof. intros st H; exact H. Qed.

Lemma preserves_modify P f :
  (forall st, P st -> P (f st)) -> preserves P (modify f).
Proof. intros Hf st H; apply Hf, H. Qed.

Lemma preserves_bind {A B} P (m : M A) (f : A -> M B) :
  preserves P m -> (forall a, preserves P (f a)) -> preserves P (bind m f).
Proof.
  intros Hm Hf st H. unfold bind.
  specialize (Hm st H). destruct (m st) as [[a | e] st']; simpl in *.
  - apply Hf, Hm.
  - exact Hm.
Qed.

Lemma preserves_for_each {A} P (l : list A) body :
  (forall x, preserves P (body x)) -> preserves P (for_each l body).
Proof.
  intros Hb. induction l as [| x r IH]; simpl.
  - apply preserves_ret.
  - apply preserves_bind; [apply Hb | intros _; exact IH].
Qed.

Lemma preserves_try_except {A} P (m : M A) handler :
  preserves P m -> (forall e, preserves P (handler e)) ->
  preserves P (try_except m handler).
Proof.
  intros Hm Hh st H. unfold try_except.
  specialize (Hm st H). destruct (m st) as [[a | e] st']; simpl in *.
  - exact Hm.
  - apply Hh, Hm.
Qed.

Create HintDb pres.

Ltac pres_step :=
  match goal with
  | |- preserves _ (bind _ _) => apply preserves_bind; [ | intros ]
  | |- preserves _ (ret _) => apply preserves_ret
  | |- preserves _ (raise _) => apply preserves_raise
  | |- preserves _ (lift _) => apply preserves_lift
  | |- preserves _ (getitem _ _) => apply preserves_lift
  | |- preserves _ get => apply preserves_get
  | |- preserves _ (modify _) =>
      apply preserves_modify;
      let H := fresh in
      intros ? H; first [ exact H | unfold has_log_time; cbn; congruence ]
  | |- preserves _ (for_each _ _) => apply preserves_for_each; intros
  | |- preserves _ (try_except _ _) => apply preserves_try_except; [ | intros ]
  | |- preserves _ (if ?c then _ else _) => destruct c
  | |- preserves _ (match ?x with _ => _ end) => destruct x
  | |- preserves _ (let (_, _) := ?x in _) => destruct x
  end.

Ltac pres := repeat first [ solve [auto with pres] | pres_step ].

Section Kept.

Variable P : Follower -> Prop.
Hypothesis P_events : forall st v, P st -> P (set_events v st).

Lemma preserves_emit e : preserves P (emit e).
Proof. apply preserves_modify. intros; apply P_events; assumption. Qed.

Lemma preserves_logging lvl : preserves P (logging lvl).
Proof. apply preserves_emit. Qed.

Lemma preserves_post url blob : preserves P (post url blob).
Proof.
  unfold post. apply preserves_bind; [apply preserves_get | intros].
  apply preserves_bind; [apply preserves_emit | intros; apply preserves_lift].
Qed.

Lemma preserves_retry_loop n url blob sleep_time last :
  preserves P (retry_loop n url blob sleep_time last).
Proof.
  revert last. induction n as [| n IH]; intros last; simpl.
  - apply preserves_ret.
  - apply preserves_bind; [apply preserves_post | intros r].
    destruct (negb (IS_CODE_FOR_RETRY (status_code r))).
    + apply preserves_ret.
    + apply preserves_bind; [apply preserves_logging | intros].
      apply preserves_bind; [apply preserves_emit | intros; apply IH].
Qed.

Lemma preserves_retry_post url blob n s : preserves P (__retry_post url blob n s).
Proof.
  unfold __retry_post. apply preserves_bind; [apply preserves_get | intros].
  apply preserves_bind; [apply preserves_retry_loop | intros [r |]].
  - apply preserves_bind; [apply preserves_logging | intros; apply preserves_ret].
  - apply preserves_raise.
Qed.

Lemma preserves_send endpoint blob : preserves P (send endpoint blob).
Proof.
  unfold send. apply preserves_bind; [apply preserves_get | intros].
  apply preserves_bind; [apply preserves_retry_post | intros; apply preserves_ret].
Qed.

Lemma preserves_cur_log_time_isoformat : preserves P cur_log_time_isoformat.
Proof.
  unfold cur_log_time_isoformat. apply preserves_bind; [apply preserves_get | intros st].
  destruct (cur_log_time st); [apply preserves_ret | apply preserves_raise].
Qed.

End Kept.

Lemma game_data_events g st v : game_data_is g st -> game_data_is g (set_events v st).
Proof. intros H; exact H. Qed.

Lemma log_time_events st v : has_log_time st -> has_log_time (set_events v st).
Proof. intros H; exact H. Qed.

#[local] Hint Resolve game_data_events log_time_events : pres.
#[local] Hint Resolve preserves_emit preserves_logging preserves_post preserves_retry_post
  preserves_send preserves_cur_log_time_isoformat : pres.

Lemma send_user_info_kept P screen_name :
  (forall st v, P st -> P (set_events v st)) -> preserves P (send_user_info screen_name).
Proof. intros HP. unfold send_user_info. pres. Qed.

#[local] Hint Resolve send_user_info_kept : pres.

(** What follows [__clear_game_data] in each of the handlers that call
    it leaves the game data alone. *)
Lemma after_clear {A} (rest : M A) st :
  (forall g, preserves (game_data_is g) rest) ->
  game_data (snd (bind __clear_game_data (fun _ => rest) st)) = ([], [], [], [], JNull).
Proof.
  intros H. unfold bind, __clear_game_data, modify.
  apply (H ([], [], [], [], JNull)). reflexivity.
Qed.

Lemma __handle_login_clears json_obj st :
  game_data (snd (__handle_login json_obj st)) = ([], [], [], [], JNull).
Proof. unfold __handle_login. apply after_clear. intros g. pres. Qed.

Lemma __handle_draft_pick_clears json_obj st :
  game_data (snd (__handle_draft_pick json_obj st)) = ([], [], [], [], JNull).
Proof. unfold __handle_draft_pick. apply after_clear. intros g. pres. Qed.

Lemma __handle_human_draft_pick_clears json_obj st :
  game_data (snd (__handle_human_draft_pick json_obj st)) = ([], [], [], [], JNull).
Proof. unfold __handle_human_draft_pick. apply after_clear. intros g. pres. Qed.

Lemma __handle_deck_submission_clears json_obj st :
  game_data (snd (__handle_deck_submission json_obj st)) = ([], [], [], [], JNull).
Proof. unfold __handle_deck_submission. apply after_clear. intros g. pres. Qed.

Lemma __handle_deck_submission_v3_clears json_obj st :
  game_data (snd (__handle_deck_submission_v3 json_obj st)) = ([], [], [], [], JNull).
Proof. unfold __handle_deck_submission_v3. apply after_clear. intros g. pres. Qed.

Lemma __handle_match_created_clears json_obj st :
  game_data (snd (__handle_match_created json_obj st)) = ([], [], [], [], JNull).
Proof. unfold __handle_match_created. apply after_clear. intros g. pres. Qed.

Lemma __handle_draft_log_clears json_obj st :
  py_getitem json_obj "DraftStatus" = Ok (JStr "Draft.PickNext") ->
  game_data (snd (__handle_draft_log json_obj st)) = ([], [], [], [], JNull).
Proof.
  intros H. unfold __handle_draft_log, getitem.
  unfold bind at 1. unfold lift at 1. rewrite H. cbn [py_eq String.eqb].
  change (String.eqb "Draft.PickNext" "Draft.PickNext") with true. cbv iota.
  apply after_clear. intros g. pres.
Qed.

(** ** The log time is never [None] *)

Lemma __clear_game_data_log_time : preserves has_log_time __clear_game_data.
Proof. unfold __clear_game_data. pres. Qed.

#[local] Hint Resolve __clear_game_data_log_time : pres.

Lemma __send_game_end_log_time a b c d e f g h i j :
  preserves has_log_time (__send_game_end a b c d e f g h i j).
Proof. unfold __send_game_end. pres. Qed.

#[local] Hint Resolve __send_game_end_log_time : pres.

Lemma game_over_result_log_time a b c d :
  preserves has_log_time (game_over_result a b c d).
Proof. unfold game_over_result, game_over_for. pres. Qed.

#[local] Hint Resolve game_over_result_log_time : pres.

Lemma scan_results_log_time a b c l :
  preserves has_log_time (scan_results a b c l).
Proof. induction l as [| r l IH]; simpl; pres. Qed.

#[local] Hint Resolve scan_results_log_time : pres.

Lemma __maybe_handle_game_over_stage_log_time a b :
  preserves has_log_time (__maybe_handle_game_over_stage a b).
Proof. unfold __maybe_handle_game_over_stage. pres. Qed.

Lemma track_object_log_time o : preserves has_log_time (track_object o).
Proof. unfold track_object. pres. Qed.

Lemma track_zone_log_time z : preserves has_log_time (track_zone z).
Proof. unfold track_zone. pres. Qed.

Lemma track_mulligan_log_time t p : preserves has_log_time (track_mulligan t p).
Proof. unfold track_mulligan. pres. Qed.

Lemma capture_opening_hand_log_time t : preserves has_log_time (capture_opening_hand t).
Proof. unfold capture_opening_hand. pres. Qed.

#[local] Hint Resolve __maybe_handle_game_over_stage_log_time track_object_log_time
  track_zone_log_time track_mulligan_log_time capture_opening_hand_log_time : pres.

Lemma __handle_gre_to_client_message_log_time m :
  preserves has_log_time (__handle_gre_to_client_message m).
Proof. unfold __handle_gre_to_client_message. pres. Qed.

Lemma __handle_match_started_log_time m : preserves has_log_time (__handle_match_started m).
Proof. unfold __handle_match_started. pres. Qed.

Lemma __handle_event_completion_log_time m :
  preserves has_log_time (__handle_event_completion m).
Proof. unfold __handle_event_completion. pres. Qed.

Lemma __handle_game_end_log_time m : preserves has_log_time (__handle_game_end m).
Proof. unfold __handle_game_end. pres. Qed.

Lemma __handle_login_log_time m : preserves has_log_time (__handle_login m).
Proof. unfold __handle_login. pres. Qed.

Lemma __handle_draft_log_log_time m : preserves has_log_time (__handle_draft_log m).
Proof. unfold __handle_draft_log. pres. Qed.

Lemma __handle_draft_pick_log_time m : preserves has_log_time (__handle_draft_pick m).
Proof. unfold __handle_draft_pick. pres. Qed.

Lemma __handle_human_draft_pick_log_time m :
  preserves has_log_time (__handle_human_draft_pick m).
Proof. unfold __handle_human_draft_pick. pres. Qed.

Lemma __handle_deck_submission_log_time m :
  preserves has_log_time (__handle_deck_submission m).
Proof. unfold __handle_deck_submission. pres. Qed.

Lemma __handle_deck_submission_v3_log_time m :
  preserves has_log_time (__handle_deck_submission_v3 m).
Proof. unfold __handle_deck_submission_v3. pres. Qed.

Lemma __handle_self_rank_info_log_time m :
  preserves has_log_time (__handle_self_rank_info m).
Proof. unfold __handle_self_rank_info. pres. Qed.

Lemma __handle_match_created_log_time m :
  preserves has_log_time (__handle_match_created m).
Proof. unfold __handle_match_created. pres. Qed.

Lemma __handle_collection_log_time m : preserves has_log_time (__handle_collection m).
Proof. unfold __handle_collection. pres. Qed.

#[local] Hint Resolve __handle_gre_to_client_message_log_time
  __handle_match_started_log_time __handle_event_completion_log_time
  __handle_game_end_log_time __handle_login_log_time __handle_draft_log_log_time
  __handle_draft_pick_log_time __handle_human_draft_pick_log_time
  __handle_deck_submission_log_time __handle_deck_submission_v3_log_time
  __handle_self_rank_info_log_time __handle_match_created_log_time
  __handle_collection_log_time : pres.

Lemma dispatch_log_time full_log m : preserves has_log_time (dispatch full_log m).
Proof. unfold dispatch. pres. Qed.

#[local] Hint Resolve dispatch_log_time : pres.

Lemma __handle_blob_log_time full_log : preserves has_log_time (__handle_blob full_log).
Proof. unfold __handle_blob. pres. Qed.

#[local] Hint Resolve __handle_blob_log_time : pres.

Lemma __handle_complete_log_entry_log_time :
  preserves has_log_time __handle_complete_log_entry.
Proof.
  unfold __handle_complete_log_entry.
  apply preserves_bind; [apply preserves_get | intros st].
  destruct (buffer st); [apply preserves_ret |].
  destruct (cur_log_time st); pres.
Qed.

Lemma set_log_time_log_time raw : preserves has_log_time (set_log_time raw).
Proof. unfold set_log_time. pres. Qed.

#[local] Hint Resolve __handle_complete_log_entry_log_time set_log_time_log_time : pres.

Lemma __append_line_log_time l : preserves has_log_time (__append_line l).
Proof. unfold __append_line, __maybe_handle_account_info, buffer_append. pres. Qed.

(** ** Stepping through a method *)

Lemma bind_lift_ok {A B} (r : result A) (a : A) (f : A -> M B) st :
  r = Ok a -> bind (lift r) f st = f a st.
Proof. intros ->. reflexivity. Qed.

Lemma bind_lift_raise {A B} (r : result A) e (f : A -> M B) st :
  r = Raise e -> bind (lift r) f st = (Raise e, st).
Proof. intros ->. reflexivity. Qed.

Lemma bind_get {B} (f : Follower -> M B) st : bind get f st = f st st.
Proof. reflexivity. Qed.

Lemma bind_modify {B} g (f : unit -> M B) st : bind (modify g) f st = f tt (g st).
Proof. reflexivity. Qed.

Lemma bind_ret {A B} (a : A) (f : A -> M B) st : bind (ret a) f st = f a st.
Proof. reflexivity. Qed.

Lemma bind_assoc {A B C} (m : M A) (f : A -> M B) (g : B -> M C) st :
  bind (bind m f) g st = bind m (fun a => bind (f a) g) st.
Proof. unfold bind. destruct (m st) as [[a | e] st']; reflexivity. Qed.

Lemma bind_cur_log_time_isoformat {B} (f : json -> M B) st t :
  cur_log_time st = Some t -> bind cur_log_time_isoformat f st = f (JStr (isoformat t)) st.
Proof.
  intros H. unfold cur_log_time_isoformat, bind at 1 2, get. rewrite H. reflexivity.
Qed.

(** Attributes of an updated [self] are read off the update. *)
Ltac simpl_state :=
  cbn [
    host token buffer cur_log_time last_utc_time last_raw_time cur_user
    cur_constructed_level cur_limited_level cur_opponent_level cur_opponent_match_id
    current_match_event_id starting_team_id objects_by_owner opening_hand_count_by_seat
    opening_hand drawn_hands cards_in_hand events set_buffer set_cur_log_time
    set_last_utc_time set_last_raw_time set_cur_user set_cur_constructed_level
    set_cur_limited_level set_cur_opponent_level set_cur_opponent_match_id
    set_current_match_event_id set_starting_team_id set_objects_by_owner
    set_opening_hand_count_by_seat set_opening_hand set_drawn_hands set_cards_in_hand
    set_events ].

(** One step of a method: read [self], update it, or take the value
    of an expression known not to raise. *)
Ltac run1 :=
  first
    [ rewrite bind_get; cbv beta
    | rewrite bind_modify; cbv beta; simpl_state
    | rewrite bind_ret; cbv beta
    | rewrite bind_assoc
    | erewrite bind_lift_ok by (first [eassumption | reflexivity]); cbv beta iota ].

(** Lookups in a message that is given in full are carried out. *)
Ltac eval_json :=
  cbn [ py_get py_getitem py_in py_iter py_eq py_hashable py_truthy py_len py_index
        players_deciding_hand dict_get dict_has is_dict rbind
        String.eqb Ascii.eqb Bool.eqb negb andb nth_error for_each ].

Ltac run := repeat first [ run1 | progress eval_json ].

(** ** The aggregator reset *)

(** C9.  [__clear_game_data] returns normally and leaves the user
    identity, the match-to-event correlation, the opponent match id, the
    three cached rank strings and the last known UTC time unchanged; so
    are all other attributes apart from the five it resets (object
    ownership, opening-hand counters, opening hands, captured mulligan
    hands, on-the-play marker). *)
Theorem clear_game_data_frame (st : Follower) :
  fst (__clear_game_data st) = Ok tt /\
  cur_user (snd (__clear_game_data st)) = cur_user st /\
  current_match_event_id (snd (__clear_game_data st)) = current_match_event_id st /\
  cur_opponent_match_id (snd (__clear_game_data st)) = cur_opponent_match_id st /\
  cur_limited_level (snd (__clear_game_data st)) = cur_limited_level st /\
  cur_constructed_level (snd (__clear_game_data st)) = cur_constructed_level st /\
  cur_opponent_level (snd (__clear_game_data st)) = cur_opponent_level st /\
  last_utc_time (snd (__clear_game_data st)) = last_utc_time st /\
  host (snd (__clear_game_data st)) = host st /\
  token (snd (__clear_game_data st)) = token st /\
  buffer (snd (__clear_game_data st)) = buffer st /\
  cur_log_time (snd (__clear_game_data st)) = cur_log_time st /\
  last_raw_time (snd (__clear_game_data st)) = last_raw_time st /\
  cards_in_hand (snd (__clear_game_data st)) = cards_in_hand st /\
  events (snd (__clear_game_data st)) = events st.
Proof. unfold __clear_game_data, modify. cbn. repeat split. Qed.

Lemma game_data_cleared_iff st :
  game_data st = ([], [], [], [], JNull) -> game_data_cleared st.
Proof.
  unfold game_data, game_data_cleared. intros H.
  injection H as -> -> -> -> ->. repeat split.
Qed.

(** C2 (amended).  After the login handler runs - and after the
    draft-pick, human-draft-pick, deck-submission (both versions) and
    match-created handlers, and after the draft-pack handler when the
    status is [Draft.PickNext] - object ownership, the opening-hand
    counters, the opening hands, the mulligan history and the on-the-play
    marker are empty or unset, whether the handler returns or raises. *)
Theorem reset_handlers_clear_game_data (json_obj : json) (st : Follower) :
  game_data_cleared (snd (__handle_login json_obj st)) /\
  game_data_cleared (snd (__handle_draft_pick json_obj st)) /\
  game_data_cleared (snd (__handle_human_draft_pick json_obj st)) /\
  game_data_cleared (snd (__handle_deck_submission json_obj st)) /\
  game_data_cleared (snd (__handle_deck_submission_v3 json_obj st)) /\
  game_data_cleared (snd (__handle_match_created json_obj st)) /\
  (py_getitem json_obj "DraftStatus" = Ok (JStr "Draft.PickNext") ->
   game_data_cleared (snd (__handle_draft_log json_obj st))).
Proof.
  refine (conj _ (conj _ (conj _ (conj _ (conj _ (conj _ _))))));
    try intros H; apply game_data_cleared_iff.
  - apply __handle_login_clears.
  - apply __handle_draft_pick_clears.
  - apply __handle_human_draft_pick_clears.
  - apply __handle_deck_submission_clears.
  - apply __handle_deck_submission_v3_clears.
  - apply __handle_match_created_clears.
  - apply __handle_draft_log_clears, H.
Qed.

(** ** Closing a log entry *)

Lemma complete_log_entry_processes st :
  buffer st <> [] -> has_log_time st -> __handle_complete_log_entry st = process_entry st.
Proof.
  intros Hb Ht. unfold __handle_complete_log_entry, process_entry.
  rewrite bind_get. destruct (buffer st) as [| b bs] eqn:Eb; [contradiction |].
  destruct (cur_log_time st) as [t |] eqn:Et; [| contradiction Ht; exact Et].
  unfold bind, try_except. rewrite <- Eb.
  destruct (__handle_blob (String.concat "" (buffer st)) st) as [[[] | e] st']; cbn.
  - reflexivity.
  - rewrite <- app_assoc. reflexivity.
Qed.

Lemma follow_log_time reads st :
  has_log_time st -> has_log_time (snd (follow reads st)).
Proof.
  apply preserves_for_each. intros [l |].
  - apply __append_line_log_time.
  - apply __handle_complete_log_entry_log_time.
Qed.

(** C1 (amended).  A non-empty buffer is discarded without processing
    only when the log time is [None].  The constructor sets the log time
    to [datetime.fromtimestamp(0)] and nothing [parse_log] does makes it
    [None]; so, after any reads since construction and whether or not a
    line carried a timestamp, a non-empty buffer that is closed is joined
    and handed to [__handle_blob], where payload extraction and
    classification take place. *)
Theorem complete_log_entry_after_construction :
  (forall st, buffer st <> [] -> cur_log_time st = None ->
     __handle_complete_log_entry st = (Ok tt, set_buffer [] st)) /\
  (forall token host reads,
     has_log_time (snd (follow reads (__init__ token host)))) /\
  (forall token host reads,
     buffer (snd (follow reads (__init__ token host))) <> [] ->
     __handle_complete_log_entry (snd (follow reads (__init__ token host))) =
       process_entry (snd (follow reads (__init__ token host)))).
Proof.
  split; [| split].
  - intros st Hb Ht. unfold __handle_complete_log_entry. rewrite bind_get.
    destruct (buffer st); [contradiction |]. rewrite Ht. reflexivity.
  - intros. apply follow_log_time. discriminate.
  - intros token host reads Hb. apply complete_log_entry_processes; [exact Hb |].
    apply follow_log_time. discriminate.
Qed.

(** ** Envelope unwrapping *)

Lemma dict_has_get {V} k (d : list (string * V)) v : dict_get k d = Some v -> dict_has k d = true.
Proof. unfold dict_has. intros ->. reflexivity. Qed.

(** C8.  Envelope unwrapping goes through its cases in order, each one
    applying when those before it do not.  For a decoded object (a dict)
    it yields: the object itself when it has no [id]; the value of
    [payload] when it has [id] and [payload]; otherwise, when it has [id]
    and [request], the decoded document of [request] if the nested decode
    succeeds and the outer object if it fails.  [__handle_blob] passes the
    result on to the classifier when it is a dict and drops the entry
    otherwise. *)
Theorem extract_payload_cases (d : list (string * json)) :
  (dict_has "id" d = false -> __extract_payload (JObj d) = Ok (JObj d)) /\
  (forall p, dict_has "id" d = true -> dict_get "payload" d = Some p ->
     __extract_payload (JObj d) = Ok p) /\
  (forall r v e, dict_has "id" d = true -> dict_has "payload" d = false ->
     dict_get "request" d = Some r -> raw_decode_value r = Ok (v, e) ->
     __extract_payload (JObj d) = Ok v) /\
  (forall r x, dict_has "id" d = true -> dict_has "payload" d = false ->
     dict_get "request" d = Some r -> raw_decode_value r = Raise x ->
     __extract_payload (JObj d) = Ok (JObj d)) /\
  (forall full_log start e w st,
     JSON_START_REGEX (str full_log) 0 = Some start ->
     raw_decode full_log start = Ok (JObj d, e) ->
     __extract_payload (JObj d) = Ok w ->
     __handle_blob full_log st =
       if is_dict w then
         dispatch full_log w
           match __maybe_get_utc_timestamp w with
           | Ok (Some t) => set_last_utc_time t st
           | _ => st
           end
       else (Ok tt, st)).
Proof.
  refine (conj _ (conj _ (conj _ (conj _ _))));
    [unfold __extract_payload, py_in, py_getitem .. |].
  - intros ->. reflexivity.
  - intros p -> Hp. cbn. rewrite (dict_has_get _ _ _ Hp), Hp. reflexivity.
  - intros r v e -> -> Hr Hv. cbn. rewrite (dict_has_get _ _ _ Hr), Hr. cbn.
    rewrite Hv. reflexivity.
  - intros r x -> -> Hr Hx. cbn. rewrite (dict_has_get _ _ _ Hr), Hr. cbn.
    rewrite Hx. reflexivity.
  - intros full_log start e w st Hs Hd Hw. unfold __handle_blob.
    rewrite Hs, Hd. unfold bind at 1, lift at 1. rewrite Hw.
    destruct (is_dict w); cbn; [| reflexivity].
    unfold bind.
    destruct (__maybe_get_utc_timestamp w) as [[t |] | x]; reflexivity.
Qed.

(** ** The publisher *)

Lemma posts_app st l :
  List.length (filter is_post (events st ++ l)) =
  (List.length (posts st) + List.length (filter is_post l))%nat.
Proof. unfold posts. rewrite filter_app, length_app. reflexivity. Qed.

Lemma is_code_for_retry_range c : IS_CODE_FOR_RETRY c = true <-> 500 <= c <= 599.
Proof. unfold IS_CODE_FOR_RETRY. rewrite andb_true_iff, Z.leb_le, Z.ltb_lt. lia. Qed.

(** C6.  With the retry budget of 2 extra attempts, and the server
    answering the next three calls with [r0], [r1] and [r2], the publisher
    posts again exactly while the status code of the answer is in 500-599
    and attempts are left: it returns the first answer outside that range,
    or the third answer whatever it is, after one, two or three calls of
    [requests.post], and raises nothing.  Each answer in the range is
    followed by a warning and a sleep, the last answer by an info line. *)
Theorem retry_post_policy (st : Follower) url blob r0 r1 r2 :
  requests_post (List.length (posts st)) url (add_common_fields st blob) = Ok r0 ->
  requests_post (S (List.length (posts st))) url (add_common_fields st blob) = Ok r1 ->
  requests_post (S (S (List.length (posts st)))) url (add_common_fields st blob) = Ok r2 ->
  let attempt := [Post url (add_common_fields st blob)] in
  let again := [Log WARNING; Sleep DEFAULT_RETRY_SLEEP_TIME] in
  let outcome :=
    if negb (IS_CODE_FOR_RETRY (status_code r0)) then (r0, attempt)
    else if negb (IS_CODE_FOR_RETRY (status_code r1))
         then (r1, attempt ++ again ++ attempt)
         else (r2, attempt ++ again ++ attempt ++ again ++ attempt ++
                   if IS_CODE_FOR_RETRY (status_code r2) then again else []) in
  __retry_post url blob RETRIES DEFAULT_RETRY_SLEEP_TIME st =
    (Ok (fst outcome), set_events (events st ++ snd outcome ++ [Log INFO]) st) /\
  (forall c, IS_CODE_FOR_RETRY c = true <-> 500 <= c <= 599).
Proof.
  intros H0 H1 H2 attempt again outcome. split; [| apply is_code_for_retry_range].
  subst outcome attempt again.
  unfold __retry_post. rewrite bind_get.
  change (Z.to_nat (RETRIES + 1)) with 3%nat.
  unfold bind, retry_loop, post, get, emit, logging, emit, modify, lift, bind, ret. cbn.
  fold (posts st). rewrite H0.
  destruct (IS_CODE_FOR_RETRY (status_code r0)); cbn.
  2: { rewrite <- app_assoc. reflexivity. }
  rewrite <- !app_assoc. cbn. rewrite posts_app. cbn. rewrite Nat.add_1_r, H1.
  destruct (IS_CODE_FOR_RETRY (status_code r1)); cbn.
  2: { rewrite <- !app_assoc. reflexivity. }
  rewrite <- !app_assoc. cbn. rewrite posts_app. cbn.
  replace (List.length (posts st) + 2)%nat with (S (S (List.length (posts st)))) by lia.
  rewrite H2.
  destruct (IS_CODE_FOR_RETRY (status_code r2)); cbn; rewrite <- !app_assoc; reflexivity.
Qed.

(** ** Deck lists *)




Lemma occurrences_repeat c x n :
  occurrences c (repeat x n) = if py_eq c x then n else 0%nat.
Proof.
  unfold occurrences. induction n as [| n IH]; cbn.
  - destruct (py_eq c x); reflexivity.
  - destruct (py_eq c x); cbn; [f_equal |]; exact IH.
Qed.

Lemma occurrences_expansion c ps : occurrences c (expansion ps) = copies c ps.
Proof.
  induction ps as [| p ps IH]; [reflexivity |].
  cbn [expansion flat_map copies fold_right]. fold (expansion ps). fold (copies c ps).
  unfold occurrences in *. rewrite filter_app, length_app, IH.
  fold (occurrences c (repeat (fst p) (Z.to_nat (snd p)))). rewrite occurrences_repeat.
  destruct (py_eq c (fst p)); reflexivity.
Qed.

Lemma complete_log_entry_returns st :
  fst (__handle_complete_log_entry st) = Ok tt /\
  buffer (snd (__handle_complete_log_entry st)) = [].
Proof.
  unfold __handle_complete_log_entry. rewrite bind_get.
  destruct (buffer st) as [| b bs] eqn:Eb; [split; [reflexivity | exact Eb] |].
  destruct (cur_log_time st); [| split; reflexivity].
  unfold bind, try_except.
  destruct (__handle_blob _ st) as [[[] | e] st']; cbn; split; reflexivity.
Qed.


(** ** Hands *)

Lemma py_eq_refl k : py_hashable k = true -> py_eq k k = true.
Proof.
  destruct k as [| b | n | t | l | d]; cbn; try discriminate; intros _.
  - reflexivity.
  - destruct b; reflexivity.
  - apply Z.eqb_refl.
  - apply String.eqb_refl.
Qed.

Lemma pd_get_set_same {V} k (v : V) d :
  py_hashable k = true -> pd_get k (pd_set k v d) = Some v.
Proof.
  intros Hk. induction d as [| [k' v'] d IH]; cbn.
  - rewrite (py_eq_refl k Hk). reflexivity.
  - destruct (py_eq k' k) eqn:E; cbn; rewrite E; [reflexivity | exact IH].
Qed.

Lemma hand_of_resolves objs ids :
  forallb py_hashable ids = true ->
  hand_of objs ids = Ok (map (resolve objs) (filter py_truthy ids)).
Proof.
  induction ids as [| i ids IH]; cbn; [reflexivity |].
  rewrite andb_true_iff. intros [Hi Hids].
  destruct (py_truthy i); [| exact (IH Hids)].
  rewrite Hi, (IH Hids). reflexivity.
Qed.

Lemma filter_all {A} (f : A -> bool) l : forallb f l = true -> filter f l = l.
Proof.
  induction l as [| x l IH]; cbn; [reflexivity |].
  rewrite andb_true_iff. intros [-> H]. f_equal. exact (IH H).
Qed.

(** C3 (amended).  A hand zone of a game-state message rebuilds the hand
    of its seat: every listed instance id that is truthy (not zero) is
    looked up in the object ownership recorded for the seat, in the listed
    order; an id with no recorded card contributes [None], it is not
    skipped.  When all listed ids are truthy the hand has one entry per
    listed id. *)
Theorem hand_zone_rebuilds_hand zone owner ids (st : Follower) :
  py_getitem zone "type" = Ok (JStr "ZoneType_Hand") ->
  py_getitem zone "ownerSeatId" = Ok owner ->
  py_hashable owner = true ->
  py_get zone "objectInstanceIds" (JArr []) = Ok (JArr ids) ->
  forallb py_hashable ids = true ->
  fst (track_zone zone st) = Ok tt /\
  pd_get owner (cards_in_hand (snd (track_zone zone st))) =
    Some (map (resolve (lookup [] owner (objects_by_owner st))) (filter py_truthy ids)) /\
  (forallb py_truthy ids = true ->
   pd_get owner (cards_in_hand (snd (track_zone zone st))) =
     Some (map (resolve (lookup [] owner (objects_by_owner st))) ids)).
Proof.
  intros Ht Ho Hh Hi Hids.
  assert (E : track_zone zone st =
              (Ok tt,
               set_cards_in_hand
                 (pd_set owner
                    (map (resolve (lookup [] owner (objects_by_owner st)))
                       (filter py_truthy ids)) (cards_in_hand st))
                 (set_objects_by_owner (touch [] owner (objects_by_owner st)) st))).
  { unfold track_zone, getitem.
    run1. cbn [py_eq String.eqb Ascii.eqb Bool.eqb].
    do 2 run1. unfold dd_getitem. rewrite Hh. do 4 run1.
    rewrite (bind_lift_ok _ _ _ _ (hand_of_resolves _ _ Hids)).
    reflexivity. }
  rewrite E. cbn [fst snd cards_in_hand set_cards_in_hand].
  split; [reflexivity |]. split.
  - apply pd_get_set_same, Hh.
  - intros Hall. rewrite (filter_all _ _ Hall). apply pd_get_set_same, Hh.
Qed.

(** ** Game results *)

Lemma posts_set_events st l :
  posts (set_events (events st ++ l) st) = posts st ++ filter is_post l.
Proof. unfold posts. cbn. apply filter_app. Qed.

Lemma set_events_same (st : Follower) : set_events (events st ++ []) st = st.
Proof. rewrite app_nil_r. destruct st; reflexivity. Qed.

(** The loop of [__retry_post] touches nothing but the outside world, and
    posts the same record at least once and at most [n] times. *)
Lemma retry_loop_events url blob sleep_time n : forall last st,
  exists evs k,
    snd (retry_loop n url blob sleep_time last st) = set_events (events st ++ evs) st /\
    filter is_post evs = repeat (Post url blob) k /\
    (k <= n)%nat /\ (n = 0%nat \/ 1 <= k)%nat.
Proof.
  induction n as [| n IH]; intros last st.
  - exists [], 0%nat. cbn. rewrite set_events_same. repeat split; auto.
  - cbn [retry_loop]. unfold post, bind at 1 2 3, get, emit, modify, lift.
    destruct (requests_post _ url blob) as [r | e].
    + destruct (negb (IS_CODE_FOR_RETRY (status_code r))).
      * exists [Post url blob], 1%nat. cbn. repeat split; lia.
      * unfold bind at 1 2, logging, emit, modify.
        match goal with
        | |- context [retry_loop n url blob sleep_time (Some r) ?s] =>
            destruct (IH (Some r) s) as [evs [k [Hs [Hp [Hk _]]]]]; rewrite Hs
        end.
        exists ([Post url blob; Log WARNING; Sleep sleep_time] ++ evs), (S k).
        cbn. rewrite <- !app_assoc. cbn. rewrite Hp.
        repeat split; try lia.
    + exists [Post url blob], 1%nat. cbn. repeat split; lia.
Qed.

Lemma retry_post_events url blob st :
  exists evs k,
    snd (__retry_post url blob RETRIES DEFAULT_RETRY_SLEEP_TIME st) =
      set_events (events st ++ evs) st /\
    filter is_post evs = repeat (Post url (add_common_fields st blob)) k /\
    (1 <= k <= 3)%nat.
Proof.
  unfold __retry_post. rewrite bind_get. cbv beta zeta.
  change (Z.to_nat (RETRIES + 1)) with 3%nat. unfold bind.
  destruct (retry_loop_events url (add_common_fields st blob) DEFAULT_RETRY_SLEEP_TIME
              3 None st) as [evs [k [Hs [Hp [Hk [Hz | Hk']]]]]]; [discriminate |].
  destruct (retry_loop 3 url (add_common_fields st blob) DEFAULT_RETRY_SLEEP_TIME None st)
    as [[[r |] | e] st'] eqn:E; cbn [snd] in Hs; subst st'.
  - exists (evs ++ [Log INFO]), k. unfold logging, emit, modify. cbn.
    rewrite <- app_assoc, filter_app, Hp. cbn. rewrite app_nil_r. repeat split; lia.
  - exists evs, k. cbn. repeat split; try lia; assumption.
  - exists evs, k. cbn. repeat split; try lia; assumption.
Qed.

Lemma send_events endpoint blob st :
  exists evs k,
    snd (send endpoint blob st) = set_events (events st ++ evs) st /\
    filter is_post evs = repeat (Post (url_of st endpoint) (add_common_fields st blob)) k /\
    (1 <= k <= 3)%nat.
Proof.
  unfold send. rewrite bind_get. cbv beta. unfold bind.
  destruct (retry_post_events (url_of st endpoint) blob st) as [evs [k [Hs [Hp Hk]]]].
  destruct (__retry_post (url_of st endpoint) blob RETRIES DEFAULT_RETRY_SLEEP_TIME st)
    as [[r | e] st']; cbn [snd] in *; exists evs, k; auto.
Qed.

Lemma py_eq_apart a k k' :
  py_hashable k = true -> py_hashable k' = true ->
  py_eq k' k = false -> py_eq a k' = true -> py_eq a k = false.
Proof.
  intros Hk Hk' Hne He.
  destruct a as [| x | x | x | x | x], k as [| y | y | y | y | y],
    k' as [| z | z | z | z | z];
    cbn [py_eq py_hashable] in *; try discriminate; try reflexivity;
    repeat match goal with b : bool |- _ => destruct b end;
    cbn [Bool.eqb Z.b2z] in *; try discriminate; try reflexivity;
    rewrite ?Z.eqb_eq, ?Z.eqb_neq, ?String.eqb_eq, ?String.eqb_neq in *;
    subst; try congruence; try lia.
Qed.

Lemma pd_get_set_other {V} k k' (v : V) d :
  py_hashable k = true -> py_hashable k' = true -> py_eq k' k = false ->
  pd_get k (pd_set k' v d) = pd_get k d.
Proof.
  intros Hk Hk' Hne. induction d as [| [a w] d IH]; cbn.
  - rewrite Hne. reflexivity.
  - destruct (py_eq a k') eqn:E; cbn.
    + rewrite (py_eq_apart a k k' Hk Hk' Hne E). reflexivity.
    + destruct (py_eq a k); [reflexivity | exact IH].
Qed.

Lemma lookup_set_same {V} (dflt v : V) k d :
  py_hashable k = true -> lookup dflt k (pd_set k v d) = v.
Proof. intros H. unfold lookup. rewrite (pd_get_set_same k v d H). reflexivity. Qed.

Lemma lookup_set_other {V} (dflt v : V) k k' d :
  py_hashable k = true -> py_hashable k' = true -> py_eq k' k = false ->
  lookup dflt k (pd_set k' v d) = lookup dflt k d.
Proof. intros. unfold lookup. rewrite pd_get_set_other by assumption. reflexivity. Qed.

Lemma lookup_touch {V} (dflt : V) k d :
  py_hashable k = true -> lookup dflt k (touch dflt k d) = lookup dflt k d.
Proof.
  intros H. unfold touch, lookup at 2. destruct (pd_get k d) as [v |] eqn:E.
  - unfold lookup. rewrite E. reflexivity.
  - apply lookup_set_same, H.
Qed.

Lemma lookup_touch_other {V} (dflt : V) k k' d :
  py_hashable k = true -> py_hashable k' = true -> py_eq k' k = false ->
  lookup dflt k (touch dflt k' d) = lookup dflt k d.
Proof.
  intros. unfold touch. destruct (pd_get k' d); [reflexivity |].
  apply lookup_set_other; assumption.
Qed.

(** The opponent's seat is never the player's own. *)
Lemma opponent_apart seat_id :
  py_hashable seat_id = true ->
  py_eq seat_id (if py_eq seat_id (JInt 1) then JInt 2 else JInt 1) = false.
Proof.
  intros Hh. destruct (py_eq seat_id (JInt 1)) eqn:E; [| exact E].
  apply (py_eq_apart seat_id (JInt 2) (JInt 1)); auto.
Qed.

(** [__send_game_end] logs, assembles [game_record] from the state it is
    called in, resets the game data and hands the record to the publisher. *)
Lemma send_game_end_sends st t seat_id match_id hands event_name on_play won win_type
  reason turn_count duration :
  py_hashable seat_id = true ->
  cur_log_time st = Some t ->
  __send_game_end seat_id match_id hands event_name on_play won win_type reason
    turn_count duration st =
  send ENDPOINT_GAME_RESULT
    (game_record st (JStr (isoformat t)) seat_id match_id hands event_name on_play won
       win_type reason turn_count duration)
    (set_events (events st ++ [Log DEBUG; Log INFO])
       (snd (__clear_game_data
               (set_cur_opponent_level
                  (if py_eq match_id (cur_opponent_match_id st)
                   then cur_opponent_level st else JNull) st)))).
Proof.
  intros Hh Ht. unfold __send_game_end, logging, emit.
  do 2 run1. cbn [objects_by_owner cur_opponent_match_id set_events].
  assert (Hop : py_hashable (if py_eq seat_id (JInt 1) then JInt 2 else JInt 1) = true)
    by (destruct (py_eq seat_id (JInt 1)); reflexivity).
  destruct (py_eq match_id (cur_opponent_match_id st)) eqn:Em; cbn [negb];
    run1; rewrite (bind_cur_log_time_isoformat _ _ t) by exact Ht; run1;
    unfold dd_getitem; simpl_state; rewrite Hh; do 4 run1; rewrite Hop; do 3 run1;
    unfold __clear_game_data; do 4 run1; unfold game_record, modify;
    simpl_state; cbn [snd];
    rewrite (lookup_touch_other 0 _ seat_id _ Hop Hh (opponent_apart seat_id Hh));
    rewrite ?Em, <- ?app_assoc; reflexivity.
Qed.

Lemma game_over_for_sends st t seat_id gsm game_info result match_id turn_count winner
  win_type reason :
  py_hashable seat_id = true ->
  cur_log_time st = Some t ->
  py_getitem game_info "matchID" = Ok match_id ->
  turn_count_of gsm = Ok turn_count ->
  py_getitem result "winningTeamId" = Ok winner ->
  py_getitem result "result" = Ok win_type ->
  py_getitem result "reason" = Ok reason ->
  game_over_for seat_id gsm game_info result st =
  send ENDPOINT_GAME_RESULT
    (game_over_record st t seat_id match_id winner win_type reason turn_count)
    (set_events (events st ++ [Log DEBUG; Log INFO])
       (snd (__clear_game_data
               (set_cur_opponent_level
                  (if py_eq match_id (cur_opponent_match_id st)
                   then cur_opponent_level st else JNull) st)))).
Proof.
  intros Hh Ht Hm Hc Hw Hwt Hr. unfold game_over_for, getitem.
  do 3 run1. unfold dd_getitem. rewrite Hh. do 5 run1.
  rewrite (send_game_end_sends _ t) by (simpl_state; assumption).
  unfold game_over_record, game_record, history, __clear_game_data, modify.
  simpl_state. cbn [snd]. simpl_state. reflexivity.
Qed.

(** The game-over path emits one record: the publisher is called once,
    with the record of the local seat, and posts it one to three times. *)
Lemma game_over_for_emits st t seat_id gsm game_info result match_id turn_count winner
  win_type reason :
  py_hashable seat_id = true ->
  cur_log_time st = Some t ->
  py_getitem game_info "matchID" = Ok match_id ->
  turn_count_of gsm = Ok turn_count ->
  py_getitem result "winningTeamId" = Ok winner ->
  py_getitem result "result" = Ok win_type ->
  py_getitem result "reason" = Ok reason ->
  exists k, (1 <= k <= 3)%nat /\
    posts (snd (game_over_for seat_id gsm game_info result st)) =
      posts st ++
      repeat (Post (url_of st ENDPOINT_GAME_RESULT)
                (add_common_fields st
                   (game_over_record st t seat_id match_id winner win_type reason
                      turn_count))) k.
Proof.
  intros Hh Ht Hm Hc Hw Hwt Hr.
  rewrite (game_over_for_sends st t seat_id gsm game_info result match_id turn_count
             winner win_type reason) by assumption.
  match goal with
  | |- context [send ?e ?b ?s] => destruct (send_events e b s) as [evs [k [Hs [Hp Hk]]]]
  end.
  exists k. split; [exact Hk |]. rewrite Hs.
  unfold posts, __clear_game_data, modify. cbn [snd]. simpl_state.
  rewrite !filter_app, Hp. cbn [filter is_post]. rewrite app_nil_r. reflexivity.
Qed.

Lemma scan_results_finds seats gsm game_info rs st :
  forallb is_dict rs = true ->
  scan_results seats gsm game_info rs st =
    match find is_game_scope rs with
    | Some r => game_over_result seats gsm game_info r st
    | None => (Ok tt, st)
    end.
Proof.
  induction rs as [| r rs IH]; cbn [forallb find scan_results]; [reflexivity |].
  rewrite andb_true_iff. intros [Hr Hrs].
  destruct r as [| | | | | d]; try discriminate.
  unfold is_game_scope. cbn [py_get]. run1.
  destruct (py_eq _ (JStr "MatchScope_Game")); cbn [negb]; [reflexivity | exact (IH Hrs)].
Qed.

Lemma forallb_rev {A} (f : A -> bool) l : forallb f l = true -> forallb f (rev l) = true.
Proof.
  rewrite !forallb_forall. intros H x Hx. apply H, in_rev, Hx.
Qed.

Lemma game_over_stage_scans seats gsm game_info rs st :
  py_get gsm "gameInfo" (JObj []) = Ok game_info ->
  py_get game_info "stage" JNull = Ok (JStr "GameStage_GameOver") ->
  py_get game_info "results" (JArr []) = Ok (JArr rs) ->
  forallb is_dict rs = true ->
  __maybe_handle_game_over_stage seats gsm st =
    match find is_game_scope (rev rs) with
    | Some r => game_over_result seats gsm game_info r st
    | None => (Ok tt, st)
    end.
Proof.
  intros Hg Hs Hr Hd. unfold __maybe_handle_game_over_stage.
  do 2 run1. cbn [py_eq String.eqb Ascii.eqb Bool.eqb negb]. do 2 run1.
  apply scan_results_finds, forallb_rev, Hd.
Qed.

(** C5.  When the stage of a game-state message is the game-over value,
    the handler goes through the results from the last to the first and
    acts on the first one of per-game scope it meets, leaving the others
    unread; with no such result it returns and emits nothing.  On that
    result it reads the first system seat id and emits one game-result
    record for that seat: the publisher is called once, and the record is
    the one assembled for the local seat [seat_id]. *)
Theorem game_over_emits_one_record seats gsm game_info rs (st : Follower) :
  py_get gsm "gameInfo" (JObj []) = Ok game_info ->
  py_get game_info "stage" JNull = Ok (JStr "GameStage_GameOver") ->
  py_get game_info "results" (JArr []) = Ok (JArr rs) ->
  forallb is_dict rs = true ->
  (find is_game_scope (rev rs) = None ->
   __maybe_handle_game_over_stage seats gsm st = (Ok tt, st)) /\
  (forall r,
     find is_game_scope (rev rs) = Some r ->
     __maybe_handle_game_over_stage seats gsm st =
       game_over_result seats gsm game_info r st) /\
  (forall r seat_id others t match_id turn_count winner win_type reason,
     find is_game_scope (rev rs) = Some r ->
     seats = JArr (seat_id :: others) ->
     py_hashable seat_id = true ->
     cur_log_time st = Some t ->
     py_getitem game_info "matchID" = Ok match_id ->
     turn_count_of gsm = Ok turn_count ->
     py_getitem r "winningTeamId" = Ok winner ->
     py_getitem r "result" = Ok win_type ->
     py_getitem r "reason" = Ok reason ->
     exists k, (1 <= k <= 3)%nat /\
       posts (snd (__maybe_handle_game_over_stage seats gsm st)) =
         posts st ++
         repeat (Post (url_of st ENDPOINT_GAME_RESULT)
                   (add_common_fields st
                      (game_over_record st t seat_id match_id winner win_type reason
                         turn_count))) k).
Proof.
  intros Hg Hs Hr Hd.
  pose proof (game_over_stage_scans seats gsm game_info rs st Hg Hs Hr Hd) as E.
  refine (conj _ (conj _ _)).
  - intros Hn. rewrite E, Hn. reflexivity.
  - intros r Hf. rewrite E, Hf. reflexivity.
  - intros r seat_id others t match_id turn_count winner win_type reason
      Hf -> Hh Ht Hm Hc Hw Hwt Hre.
    rewrite E, Hf. unfold game_over_result. cbn [py_index nth_error]. run1.
    apply game_over_for_emits; assumption.
Qed.

Lemma for_each_app {A} (before rest : list A) (body : A -> M unit) st st1 :
  for_each before body st = (Ok tt, st1) ->
  for_each (before ++ rest) body st = for_each rest body st1.
Proof.
  revert st. induction before as [| x before IH]; intros st H.
  - cbn in H. unfold ret in H. injection H as <-. reflexivity.
  - cbn [for_each app] in *. unfold bind in *.
    destruct (body x st) as [[[] | e] st']; [apply IH, H | discriminate].
Qed.

Lemma is_false_ok r : is_false r = true -> r = Ok false.
Proof. destruct r as [[|] | e]; try discriminate. reflexivity. Qed.

Lemma getitem_dict c k v :
  py_getitem c k = Ok v -> exists d, c = JObj d /\ dict_get k d = Some v.
Proof.
  destruct c as [| | | | | d]; try discriminate. cbn [py_getitem].
  destruct (dict_get k d) as [x |] eqn:E; [| discriminate].
  intros [= ->]. exists d. split; [reflexivity | exact E].
Qed.

(** An effective message taken for a GRE event is handled message by
    message. *)
Lemma dispatch_gre full_log w messages st :
  gre_messages_of w = Some messages ->
  dispatch full_log w st = for_each messages __handle_gre_to_client_message st.
Proof.
  unfold gre_messages_of.
  destruct (forallb is_false (tests_before_gre w)) eqn:Ht; [| discriminate].
  destruct (py_getitem w "greToClientEvent") as [ev |] eqn:Hev; [| discriminate].
  destruct (py_getitem ev "greToClientMessages") as [[| | | | l |] |] eqn:Hm;
    try discriminate.
  intros [= <-].
  cbn [forallb tests_before_gre] in Ht.
  repeat (apply andb_true_iff in Ht as [?H Ht]).
  repeat match goal with
         | E : is_false _ = true |- _ => apply is_false_ok in E
         end.
  destruct (getitem_dict _ _ _ Hev) as [d [-> Hd]].
  destruct (getitem_dict _ _ _ Hm) as [d' [-> Hd']].
  assert (Hc : (let? has := py_in "greToClientEvent" (JObj d) in
                if has then
                  let? ev := py_getitem (JObj d) "greToClientEvent" in
                  py_in "greToClientMessages" ev
                else Ok false) = Ok true).
  { cbn [py_in py_getitem rbind]. rewrite (dict_has_get _ _ _ Hd), Hd. cbn [rbind py_in].
    rewrite (dict_has_get _ _ _ Hd'). reflexivity. }
  unfold dispatch, getitem. do 10 run1. do 3 run1. reflexivity.
Qed.

(** Closing an entry whose effective message is taken for a GRE event. *)
Lemma gre_entry_runs_messages st start obj stop w messages :
  buffer st <> [] -> has_log_time st ->
  JSON_START_REGEX (str (String.concat "" (buffer st))) 0 = Some start ->
  raw_decode (String.concat "" (buffer st)) start = Ok (obj, stop) ->
  __extract_payload obj = Ok w ->
  is_dict w = true ->
  gre_messages_of w = Some messages ->
  __handle_complete_log_entry st =
    match for_each messages __handle_gre_to_client_message (with_utc_time_of w st) with
    | (Ok _, st') => (Ok tt, set_buffer [] st')
    | (Raise _, st') =>
        (Ok tt, set_buffer [] (set_events (events st' ++ [Log ERROR; Log ERROR]) st'))
    end.
Proof.
  intros Hb Hlt Hstart Hdec Hw Hd Hg.
  rewrite (complete_log_entry_processes st Hb Hlt).
  unfold process_entry, __handle_blob. rewrite Hstart, Hdec. run1. rewrite Hd. cbn [negb].
  assert (E : forall (k : M unit),
            bind match __maybe_get_utc_timestamp w with
                 | Ok (Some maybe_time) => modify (set_last_utc_time maybe_time)
                 | _ => ret tt
                 end (fun _ => k) st = k (with_utc_time_of w st)).
  { intros k. unfold with_utc_time_of.
    destruct (__maybe_get_utc_timestamp w) as [[t |] | e]; reflexivity. }
  rewrite E, (dispatch_gre _ _ _ _ Hg). reflexivity.
Qed.

Lemma posts_with_utc_time_of w st : posts (with_utc_time_of w st) = posts st.
Proof.
  unfold with_utc_time_of.
  destruct (__maybe_get_utc_timestamp w) as [[t |] | e]; reflexivity.
Qed.

(** C10 (amended).  On a game-over message with a per-game result the
    handler reads [system_seat_ids[0]].  With an empty list (also the
    default when the message has no [systemSeatIds]) this raises
    [IndexError] with nothing emitted and [self] unchanged.  The exception
    leaves the message handler and the loop over the messages of the
    entry: in any entry that the classifier takes for a GRE event, closing
    the entry logs the error and returns, no record is emitted for the
    failing message and the messages after it are not handled, while what
    the messages before it did, the records they sent included, stands;
    when the failing message is the first of its entry, no record is
    emitted for the entry.  With a non-empty list the read yields its
    first element and the handler goes on with it. *)
Theorem game_over_reads_first_seat gsm game_info rs r :
  py_get gsm "gameInfo" (JObj []) = Ok game_info ->
  py_get game_info "stage" JNull = Ok (JStr "GameStage_GameOver") ->
  py_get game_info "results" (JArr []) = Ok (JArr rs) ->
  forallb is_dict rs = true ->
  find is_game_scope (rev rs) = Some r ->
  (forall st : Follower,
     __maybe_handle_game_over_stage (JArr []) gsm st = (Raise IndexError, st)) /\
  (forall message_blob,
     py_getitem message_blob "type" = Ok (JStr "GREMessageType_GameStateMessage") ->
     py_get message_blob "gameStateMessage" (JObj []) = Ok gsm ->
     py_get message_blob "systemSeatIds" (JArr []) = Ok (JArr []) ->
     (forall st, __handle_gre_to_client_message message_blob st = (Raise IndexError, st)) /\
     (forall before rest st st1,
        for_each before __handle_gre_to_client_message st = (Ok tt, st1) ->
        for_each (before ++ message_blob :: rest) __handle_gre_to_client_message st =
          (Raise IndexError, st1)) /\
     (forall before rest start obj stop w st st1,
        buffer st <> [] -> has_log_time st ->
        JSON_START_REGEX (str (String.concat "" (buffer st))) 0 = Some start ->
        raw_decode (String.concat "" (buffer st)) start = Ok (obj, stop) ->
        __extract_payload obj = Ok w ->
        is_dict w = true ->
        gre_messages_of w = Some (before ++ message_blob :: rest) ->
        for_each before __handle_gre_to_client_message (with_utc_time_of w st) =
          (Ok tt, st1) ->
        __handle_complete_log_entry st =
          (Ok tt, set_buffer [] (set_events (events st1 ++ [Log ERROR; Log ERROR]) st1)) /\
        posts (snd (__handle_complete_log_entry st)) = posts st1) /\
     (forall rest start obj stop w st,
        buffer st <> [] -> has_log_time st ->
        JSON_START_REGEX (str (String.concat "" (buffer st))) 0 = Some start ->
        raw_decode (String.concat "" (buffer st)) start = Ok (obj, stop) ->
        __extract_payload obj = Ok w ->
        is_dict w = true ->
        gre_messages_of w = Some (message_blob :: rest) ->
        fst (__handle_complete_log_entry st) = Ok tt /\
        posts (snd (__handle_complete_log_entry st)) = posts st)) /\
  (forall seat_id others st,
     py_index (JArr (seat_id :: others)) 0 = Ok seat_id /\
     __maybe_handle_game_over_stage (JArr (seat_id :: others)) gsm st =
       game_over_for seat_id gsm game_info r st).
Proof.
  intros Hg Hs Hr Hd Hf.
  assert (E : forall seats st, __maybe_handle_game_over_stage seats gsm st =
                               game_over_result seats gsm game_info r st).
  { intros seats st.
    rewrite (game_over_stage_scans seats gsm game_info rs st Hg Hs Hr Hd), Hf.
    reflexivity. }
  refine (conj _ (conj _ _)).
  - intros st. rewrite E. reflexivity.
  - intros message_blob Ht Hgsm Hseats.
    assert (Hm : forall st,
               __handle_gre_to_client_message message_blob st = (Raise IndexError, st)).
    { intros st. unfold __handle_gre_to_client_message, getitem.
      run1. cbn [py_eq String.eqb Ascii.eqb Bool.eqb]. do 2 run1.
      unfold bind at 1. rewrite E. reflexivity. }
    assert (Hl : forall before rest st st1,
               for_each before __handle_gre_to_client_message st = (Ok tt, st1) ->
               for_each (before ++ message_blob :: rest) __handle_gre_to_client_message st =
                 (Raise IndexError, st1)).
    { intros before rest st st1 Hb. rewrite (for_each_app _ _ _ _ _ Hb).
      cbn [for_each]. unfold bind. rewrite Hm. reflexivity. }
    assert (He : forall before rest start obj stop w st st1,
               buffer st <> [] -> has_log_time st ->
               JSON_START_REGEX (str (String.concat "" (buffer st))) 0 = Some start ->
               raw_decode (String.concat "" (buffer st)) start = Ok (obj, stop) ->
               __extract_payload obj = Ok w ->
               is_dict w = true ->
               gre_messages_of w = Some (before ++ message_blob :: rest) ->
               for_each before __handle_gre_to_client_message (with_utc_time_of w st) =
                 (Ok tt, st1) ->
               __handle_complete_log_entry st =
                 (Ok tt,
                  set_buffer [] (set_events (events st1 ++ [Log ERROR; Log ERROR]) st1)) /\
               posts (snd (__handle_complete_log_entry st)) = posts st1).
    { intros before rest start obj stop w st st1 Hb Hlt Hstart Hdec Hw Hdw Hgre Hbefore.
      assert (Hc : __handle_complete_log_entry st =
                   (Ok tt,
                    set_buffer []
                      (set_events (events st1 ++ [Log ERROR; Log ERROR]) st1))).
      { rewrite (gre_entry_runs_messages st start obj stop w _ Hb Hlt Hstart Hdec Hw Hdw
                   Hgre).
        rewrite (Hl _ _ _ _ Hbefore). reflexivity. }
      split; [exact Hc |]. rewrite Hc. cbn [snd]. unfold posts. simpl_state.
      rewrite filter_app. cbn [filter is_post]. apply app_nil_r. }
    refine (conj Hm (conj Hl (conj He _))).
    intros rest start obj stop w st Hb Hlt Hstart Hdec Hw Hdw Hgre.
    destruct (He [] rest start obj stop w st (with_utc_time_of w st) Hb Hlt Hstart Hdec Hw
                Hdw Hgre eq_refl) as [Hc Hp].
    split; [rewrite Hc; reflexivity |]. rewrite Hp. apply posts_with_utc_time_of.
  - intros seat_id others st. split; [reflexivity |]. rewrite E. reflexivity.
Qed.

(** ** Mulligans *)

(** One decision: the count of presentations goes up, and the current
    hand is captured when the mulligan count equals the number of hands
    captured so far. *)
Lemma track_mulligan_drawn_hands turn_info seat count st :
  py_hashable seat = true -> is_dict turn_info = true ->
  fst (track_mulligan turn_info (seat, count) st) = Ok tt /\
  drawn_hands (snd (track_mulligan turn_info (seat, count) st)) =
    if py_eq count (JInt (Z.of_nat (List.length (history seat st))))
    then pd_set seat (history seat st ++ [lookup [] seat (cards_in_hand st)])
           (touch [] seat (drawn_hands st))
    else touch [] seat (drawn_hands st).
Proof.
  intros Hs Hd. destruct turn_info as [| | | | | ti]; try discriminate.
  unfold track_mulligan, history, dd_getitem. rewrite Hs. run1.
  destruct (starting_team_id st); cbn [py_get]; repeat run1;
    (destruct (py_eq count _); repeat run1; split; reflexivity).
Qed.

Lemma track_mulligan_own turn_info seat count st :
  py_hashable seat = true -> is_dict turn_info = true ->
  history seat (snd (track_mulligan turn_info (seat, count) st)) =
    if py_eq count (JInt (Z.of_nat (List.length (history seat st))))
    then history seat st ++ [lookup [] seat (cards_in_hand st)]
    else history seat st.
Proof.
  intros Hs Hd. unfold history at 1.
  rewrite (proj2 (track_mulligan_drawn_hands turn_info seat count st Hs Hd)).
  destruct (py_eq count _).
  - apply lookup_set_same, Hs.
  - apply lookup_touch, Hs.
Qed.

Lemma track_mulligan_other turn_info seat other count st :
  py_hashable seat = true -> py_hashable other = true -> py_eq other seat = false ->
  is_dict turn_info = true ->
  history seat (snd (track_mulligan turn_info (other, count) st)) = history seat st.
Proof.
  intros Hs Ho Hne Hd. unfold history at 1.
  rewrite (proj2 (track_mulligan_drawn_hands turn_info other count st Ho Hd)).
  destruct (py_eq count _).
  - rewrite lookup_set_other by assumption. apply lookup_touch_other; assumption.
  - apply lookup_touch_other; assumption.
Qed.

Lemma observe_cons o rest st :
  is_dict (fst o) = true -> py_hashable (fst (snd o)) = true ->
  observe (o :: rest) st = observe rest (snd (track_mulligan (fst o) (snd o) st)).
Proof.
  intros Hd Hh. unfold observe. cbn [for_each]. unfold bind.
  destruct o as [ti [seat count]]. cbn [fst snd] in *.
  pose proof (proj1 (track_mulligan_drawn_hands ti seat count st Hh Hd)) as H.
  destruct (track_mulligan ti (seat, count) st) as [[[] | e] st']; [reflexivity |].
  discriminate H.
Qed.

Lemma observe_climbs seat k decisions k' :
  py_hashable seat = true ->
  climbs seat k decisions k' ->
  forall st,
    forallb (fun o => is_dict (fst o)) decisions = true ->
    List.length (history seat st) = k ->
    fst (observe decisions st) = Ok tt /\
    List.length (history seat (snd (observe decisions st))) = k'.
Proof.
  intros Hs Hc. induction Hc as [k | k ti rest k' Hc IH | k ti c rest k' Hlt Hc IH
                                 | k ti other c rest k' Ho Hne Hc IH];
    intros st Hd Hk.
  - split; [reflexivity | exact Hk].
  - cbn [forallb fst] in Hd. apply andb_true_iff in Hd as [Hti Hd].
    rewrite observe_cons by assumption. cbn [fst snd]. apply IH; [exact Hd |].
    rewrite track_mulligan_own by assumption. rewrite Hk. cbn [py_eq].
    rewrite Z.eqb_refl, length_app. cbn. lia.
  - cbn [forallb fst] in Hd. apply andb_true_iff in Hd as [Hti Hd].
    rewrite observe_cons by assumption. cbn [fst snd]. apply IH; [exact Hd |].
    rewrite track_mulligan_own by assumption. rewrite Hk. cbn [py_eq].
    replace (c =? Z.of_nat k) with false by (symmetry; apply Z.eqb_neq; lia).
    exact Hk.
  - cbn [forallb fst] in Hd. apply andb_true_iff in Hd as [Hti Hd].
    rewrite observe_cons by assumption. cbn [fst snd]. apply IH; [exact Hd |].
    rewrite track_mulligan_other by assumption. exact Hk.
Qed.

Lemma set_iter_one x : set_iter [x] = [x].
Proof.
  apply Permutation_length_1_inv, Permutation_sym. exact (set_iter_perm [x]).
Qed.

(** A message that reports one player pending a mulligan decision is one
    decision for the loop, and nothing else. *)
Lemma mulligan_message_observed seat count st :
  __handle_gre_to_client_message (mulligan_message seat count) st =
  track_mulligan (JObj []) (JInt seat, JInt count) st.
Proof.
  unfold __handle_gre_to_client_message, mulligan_message, getitem.
  unfold __maybe_handle_game_over_stage. run.
  rewrite set_iter_one. cbn [for_each].
  pose proof (proj1 (track_mulligan_drawn_hands (JObj []) (JInt seat) (JInt count) st
                       eq_refl eq_refl)) as Hok.
  rewrite bind_assoc. unfold bind at 1.
  destruct (track_mulligan (JObj []) (JInt seat, JInt count) st) as [[[] | e] st'];
    [| discriminate Hok].
  run1. unfold capture_opening_hand. run1.
  destruct (opening_hand st'); [| reflexivity].
  run. reflexivity.
Qed.

Lemma mulligan_messages_observed (ds : list (Z * Z)) : forall st,
  for_each (map (fun d => mulligan_message (fst d) (snd d)) ds)
    __handle_gre_to_client_message st =
  observe (map (fun d => (JObj [], (JInt (fst d), JInt (snd d)))) ds) st.
Proof.
  unfold observe. induction ds as [| d ds IH]; intros st; [reflexivity |].
  cbn [map for_each fst snd]. unfold bind.
  rewrite mulligan_message_observed.
  destruct (track_mulligan (JObj []) (JInt (fst d), JInt (snd d)) st) as [[[] | e] st'];
    [apply IH | reflexivity].
Qed.

Lemma length_removelast {A} (l : list A) :
  List.length (removelast l) = Nat.pred (List.length l).
Proof.
  induction l as [| x [| y l] IH]; [reflexivity | reflexivity |].
  change (removelast (x :: y :: l)) with (x :: removelast (y :: l)).
  cbn [List.length Nat.pred] in *. rewrite IH. reflexivity.
Qed.

(** C4.  A seat with no captured hand that is then seen pending a
    mulligan decision at the counts 0 through [n] in succession has
    [n + 1] captured hands, whatever decisions of other seats and repeats
    of counts already seen come in between; a decision at a count already
    seen adds no hand.  Game-state messages that each report one player
    pending a decision are such decisions, one per message.  The
    game-result record of the game-over path for that seat then carries a
    [mulligans] list of [n] hands: the captured hands without the last
    one. *)
Theorem mulligan_history_and_report seat decisions (n : nat) (st : Follower) :
  py_hashable seat = true ->
  forallb (fun o => is_dict (fst o)) decisions = true ->
  history seat st = [] ->
  climbs seat 0 decisions (S n) ->
  fst (observe decisions st) = Ok tt /\
  List.length (history seat (snd (observe decisions st))) = S n /\
  (forall turn_info c st',
     is_dict turn_info = true -> 0 <= c < Z.of_nat (List.length (history seat st')) ->
     history seat (snd (track_mulligan turn_info (seat, JInt c) st')) = history seat st') /\
  (forall (ds : list (Z * Z)) st',
     for_each (map (fun d => mulligan_message (fst d) (snd d)) ds)
       __handle_gre_to_client_message st' =
     observe (map (fun d => (JObj [], (JInt (fst d), JInt (snd d)))) ds) st') /\
  (forall others gsm game_info result t match_id turn_count winner win_type reason,
     cur_log_time (snd (observe decisions st)) = Some t ->
     py_getitem game_info "matchID" = Ok match_id ->
     turn_count_of gsm = Ok turn_count ->
     py_getitem result "winningTeamId" = Ok winner ->
     py_getitem result "result" = Ok win_type ->
     py_getitem result "reason" = Ok reason ->
     List.length (removelast (history seat (snd (observe decisions st)))) = n /\
     dict_get "mulligans"
       (game_over_record (snd (observe decisions st)) t seat match_id winner win_type
          reason turn_count) =
       Some (JArr (map JArr (removelast (history seat (snd (observe decisions st)))))) /\
     exists j,
       (1 <= j <= 3)%nat /\
       posts (snd (game_over_result (JArr (seat :: others)) gsm game_info result
                     (snd (observe decisions st)))) =
         posts (snd (observe decisions st)) ++
         repeat (Post (url_of (snd (observe decisions st)) ENDPOINT_GAME_RESULT)
                   (add_common_fields (snd (observe decisions st))
                      (game_over_record (snd (observe decisions st)) t seat match_id
                         winner win_type reason turn_count))) j).
Proof.
  intros Hs Hd Hh Hc.
  assert (Hk : List.length (history seat st) = 0%nat) by (rewrite Hh; reflexivity).
  destruct (observe_climbs seat 0 decisions (S n) Hs Hc st Hd Hk) as [Hok Hlen].
  refine (conj Hok (conj Hlen (conj _ (conj mulligan_messages_observed _)))).
  - intros turn_info c st' Hti Hlt. rewrite track_mulligan_own by assumption.
    cbn [py_eq]. replace (c =? _) with false by (symmetry; apply Z.eqb_neq; lia).
    reflexivity.
  - intros others gsm game_info result t match_id turn_count winner win_type reason
      Ht Hm Htc Hw Hwt Hr.
    destruct (game_over_for_emits (snd (observe decisions st)) t seat gsm game_info result
                match_id turn_count winner win_type reason Hs Ht Hm Htc Hw Hwt Hr)
      as [j [Hj Hp]].
    refine (conj _ (conj eq_refl _)).
    + rewrite length_removelast, Hlen. reflexivity.
    + exists j. split; [exact Hj |].
      unfold game_over_result. cbn [py_index nth_error]. run1. exact Hp.
Qed.

(** * Further properties *)

(** ** The publisher, for any retry budget *)

Lemma dict_get_set_same {V} k (v : V) d : dict_get k (dict_set k v d) = Some v.
Proof.
  induction d as [| [k' v'] d IH]; cbn.
  - rewrite String.eqb_refl. reflexivity.
  - destruct (String.eqb k' k) eqn:E; cbn; rewrite E; [reflexivity | exact IH].
Qed.

Lemma dict_get_set_other {V} k k' (v : V) d :
  k' <> k -> dict_get k (dict_set k' v d) = dict_get k d.
Proof.
  intros Hne. apply String.eqb_neq in Hne.
  induction d as [| [a w] d IH]; cbn.
  - rewrite Hne. reflexivity.
  - destruct (String.eqb a k') eqn:E1; cbn.
    + apply String.eqb_eq in E1. subst a. rewrite Hne. reflexivity.
    + destruct (String.eqb a k); [reflexivity | exact IH].
Qed.

(** One round of the loop. *)
Lemma retry_loop_round url blob sleep_time n last st :
  retry_loop (S n) url blob sleep_time last st =
    match requests_post (List.length (posts st)) url blob with
    | Raise e => (Raise e, set_events (events st ++ [Post url blob]) st)
    | Ok r =>
        if IS_CODE_FOR_RETRY (status_code r)
        then retry_loop n url blob sleep_time (Some r)
               (set_events (events st ++ [Post url blob; Log WARNING; Sleep sleep_time]) st)
        else (Ok (Some r), set_events (events st ++ [Post url blob]) st)
    end.
Proof.
  cbn [retry_loop]. unfold post, bind, get, logging, emit, modify, lift, posts.
  destruct (requests_post _ url blob) as [r | e]; [| reflexivity].
  destruct (IS_CODE_FOR_RETRY (status_code r)); cbn [negb]; [| reflexivity].
  simpl_state. rewrite <- !app_assoc. reflexivity.
Qed.

(** The loop posts the same record at least once and at most [n] times
    and touches nothing but the outside world; when the server answers
    every call, it ends with an answer, which is outside 500-599 unless
    all [n] attempts were used. *)
Lemma retry_loop_answers url blob sleep_time n : forall last st,
  exists evs k,
    snd (retry_loop n url blob sleep_time last st) = set_events (events st ++ evs) st /\
    filter is_post evs = repeat (Post url blob) k /\
    (k <= n)%nat /\ (n = 0%nat \/ 1 <= k)%nat /\
    (server_answers ->
     exists out,
       fst (retry_loop n url blob sleep_time last st) = Ok out /\
       (n = 0%nat -> out = last) /\
       ((0 < n)%nat ->
        exists r, out = Some r /\
                  (IS_CODE_FOR_RETRY (status_code r) = false \/ k = n))).
Proof.
  induction n as [| n IH]; intros last st.
  - exists [], 0%nat. cbn. rewrite set_events_same.
    refine (conj eq_refl (conj eq_refl (conj _ (conj _ _)))); auto.
    intros _. exists last. repeat split; auto. intros H; inversion H.
  - rewrite retry_loop_round.
    destruct (requests_post _ url blob) as [r | e] eqn:Er.
    + destruct (IS_CODE_FOR_RETRY (status_code r)) eqn:Ec.
      * match goal with
        | |- context [retry_loop n url blob sleep_time (Some r) ?s] =>
            destruct (IH (Some r) s) as [evs [k [Hs [Hp [Hk [Hn Ha]]]]]]
        end.
        exists ([Post url blob; Log WARNING; Sleep sleep_time] ++ evs), (S k).
        refine (conj _ (conj _ (conj _ (conj _ _)))).
        -- rewrite Hs. simpl_state. rewrite <- !app_assoc. reflexivity.
        -- cbn. rewrite Hp. reflexivity.
        -- lia.
        -- right. lia.
        -- intros Hsrv. destruct (Ha Hsrv) as [out [Ho [H0 Hpos]]].
           exists out. split; [exact Ho |]. split; [discriminate |]. intros _.
           destruct n as [| n'].
           ++ exists r. rewrite (H0 eq_refl). split; [reflexivity |].
              right. assert (k = 0)%nat by lia. subst k. reflexivity.
           ++ destruct (Hpos ltac:(lia)) as [r' [Hr' Hc]].
              exists r'. split; [exact Hr' |]. destruct Hc as [Hc | Hc]; [left; exact Hc |].
              right. lia.
      * exists [Post url blob], 1%nat. cbn [fst snd filter is_post repeat].
        refine (conj eq_refl (conj eq_refl (conj _ (conj _ _)))); try lia.
        intros _. exists (Some r). split; [reflexivity |]. split; [discriminate |].
        intros _. exists r. split; [reflexivity |]. left. exact Ec.
    + exists [Post url blob], 1%nat. cbn [fst snd filter is_post repeat].
      refine (conj eq_refl (conj eq_refl (conj _ (conj _ _)))); try lia.
      intros Hsrv. destruct (Hsrv (List.length (posts st)) url blob) as [r Hr].
      rewrite Hr in Er. discriminate.
Qed.

(** The calls made by [__retry_post], for any budget. *)
Lemma retry_post_shape url blob (num_retries sleep_time : Z) (st : Follower) :
  0 <= num_retries ->
  exists evs k,
    snd (__retry_post url blob num_retries sleep_time st) =
      set_events (events st ++ evs) st /\
    filter is_post evs = repeat (Post url (add_common_fields st blob)) k /\
    (1 <= k <= Z.to_nat num_retries + 1)%nat /\
    (server_answers ->
     exists r,
       fst (__retry_post url blob num_retries sleep_time st) = Ok r /\
       (IS_CODE_FOR_RETRY (status_code r) = false \/
        k = (Z.to_nat num_retries + 1)%nat)).
Proof.
  intros Hn. unfold __retry_post. rewrite bind_get. cbv beta zeta.
  replace (Z.to_nat (num_retries + 1)) with (S (Z.to_nat num_retries)) by lia.
  destruct (retry_loop_answers url (add_common_fields st blob) sleep_time
              (S (Z.to_nat num_retries)) None st) as [evs [k [Hs [Hp [Hk [Hz Ha]]]]]].
  destruct Hz as [Hz | Hz]; [discriminate |].
  unfold bind.
  destruct (retry_loop (S (Z.to_nat num_retries)) url (add_common_fields st blob)
              sleep_time None st) as [[[r |] | e] st'] eqn:E; cbn [fst snd] in *; subst st'.
  - exists (evs ++ [Log INFO]), k. unfold logging, emit, modify. cbn [fst snd].
    simpl_state. rewrite <- app_assoc, filter_app, Hp. cbn [filter is_post].
    rewrite app_nil_r. refine (conj eq_refl (conj eq_refl (conj _ _))); [lia |].
    intros Hsrv. destruct (Ha Hsrv) as [out [Ho [_ Hpos]]].
    destruct (Hpos ltac:(lia)) as [r' [Hr' Hc]].
    injection Ho as <-. injection Hr' as <-.
    exists r. split; [reflexivity |]. destruct Hc; [left; assumption | right; lia].
  - exists evs, k. refine (conj eq_refl (conj Hp (conj _ _))); [lia |].
    intros Hsrv. destruct (Ha Hsrv) as [out [Ho [_ Hpos]]].
    destruct (Hpos ltac:(lia)) as [r' [Hr' _]]. injection Ho as <-. discriminate.
  - exists evs, k. refine (conj eq_refl (conj Hp (conj _ _))); [lia |].
    intros Hsrv. destruct (Ha Hsrv) as [out [Ho _]]. discriminate.
Qed.

(** When the server answers, a call of the publisher with the default
    budget returns, after one to three posts of the same record. *)
Lemma send_returns endpoint blob st :
  server_answers ->
  exists evs k,
    send endpoint blob st = (Ok tt, set_events (events st ++ evs) st) /\
    filter is_post evs = repeat (Post (url_of st endpoint) (add_common_fields st blob)) k /\
    (1 <= k <= 3)%nat.
Proof.
  intros Hsrv. unfold send. rewrite bind_get. cbv beta. unfold bind.
  destruct (retry_post_shape (url_of st endpoint) blob RETRIES DEFAULT_RETRY_SLEEP_TIME st)
    as [evs [k [Hs [Hp [Hk Ha]]]]]; [unfold RETRIES; lia |].
  destruct (Ha Hsrv) as [r [Hr _]].
  destruct (__retry_post (url_of st endpoint) blob RETRIES DEFAULT_RETRY_SLEEP_TIME st)
    as [[r' | e] st']; cbn [fst snd] in *; [| discriminate].
  subst st'. exists evs, k. refine (conj eq_refl (conj Hp _)).
  change (Z.to_nat RETRIES) with 2%nat in Hk. lia.
Qed.

(** X1.  Whatever the retry budget [num_retries >= 0] and whatever the
    server does, [__retry_post] calls [requests.post] at least once and at
    most [num_retries + 1] times, always with the same url and the same
    record, and changes no attribute of [self].  The record posted is the
    caller's with [client_version], [token] and [utc_time] set (a key of
    that name in the caller's record is overwritten, every other key is
    kept).  When the server answers every call, the method returns an
    answer, whose status code is outside 500-599 unless all attempts were
    used. *)
Theorem retry_post_contract url blob (num_retries sleep_time : Z) (st : Follower) :
  0 <= num_retries ->
  (exists evs k,
     snd (__retry_post url blob num_retries sleep_time st) =
       set_events (events st ++ evs) st /\
     filter is_post evs = repeat (Post url (add_common_fields st blob)) k /\
     (1 <= k <= Z.to_nat num_retries + 1)%nat /\
     (server_answers ->
      exists r,
        fst (__retry_post url blob num_retries sleep_time st) = Ok r /\
        (IS_CODE_FOR_RETRY (status_code r) = false \/
         k = (Z.to_nat num_retries + 1)%nat))) /\
  dict_get "client_version" (add_common_fields st blob) = Some (JStr CLIENT_VERSION) /\
  dict_get "token" (add_common_fields st blob) = Some (JStr (token st)) /\
  dict_get "utc_time" (add_common_fields st blob) =
    Some (JStr (isoformat (last_utc_time st))) /\
  (forall key,
     key <> "client_version" -> key <> "token" -> key <> "utc_time" ->
     dict_get key (add_common_fields st blob) = dict_get key blob).
Proof.
  intros Hn. split; [apply retry_post_shape, Hn |].
  unfold add_common_fields. refine (conj _ (conj _ (conj _ _))).
  - rewrite !dict_get_set_other by discriminate. apply dict_get_set_same.
  - rewrite dict_get_set_other by discriminate. apply dict_get_set_same.
  - apply dict_get_set_same.
  - intros key H1 H2 H3. rewrite !dict_get_set_other by congruence. reflexivity.
Qed.

(** X2.  The retry applies to answers only.  When [requests.post] itself
    raises, the exception leaves [__retry_post] at once: one call was
    made, no warning, no sleep, no further attempt.  With a negative
    budget the loop is not entered: no call is made and the method fails
    on its unbound [response]. *)
Theorem retry_post_lets_errors_out url blob (num_retries sleep_time : Z) (st : Follower) :
  (forall e,
     0 <= num_retries ->
     requests_post (List.length (posts st)) url (add_common_fields st blob) = Raise e ->
     __retry_post url blob num_retries sleep_time st =
       (Raise e, set_events (events st ++ [Post url (add_common_fields st blob)]) st)) /\
  (num_retries < 0 ->
   __retry_post url blob num_retries sleep_time st = (Raise UnboundLocalError, st)).
Proof.
  split.
  - intros e Hn He. unfold __retry_post. rewrite bind_get. cbv beta zeta.
    replace (Z.to_nat (num_retries + 1)) with (S (Z.to_nat num_retries)) by lia.
    unfold bind at 1. rewrite retry_loop_round, He. reflexivity.
  - intros Hn. unfold __retry_post. rewrite bind_get. cbv beta zeta.
    replace (Z.to_nat (num_retries + 1)) with 0%nat by lia.
    reflexivity.
Qed.

(** ** The segmenter *)

Lemma for_each_returns {A} (l : list A) (body : A -> M unit) :
  (forall x st, In x l -> fst (body x st) = Ok tt) ->
  forall st, fst (for_each l body st) = Ok tt.
Proof.
  induction l as [| x l IH]; intros H st; [reflexivity |].
  cbn [for_each]. unfold bind.
  pose proof (H x st (or_introl eq_refl)) as Hx.
  destruct (body x st) as [[[] | e] st']; [| discriminate Hx].
  apply IH. intros y s Hy. apply H. right. exact Hy.
Qed.

Lemma account_info_returns line st :
  server_answers -> fst (__maybe_handle_account_info line st) = Ok tt.
Proof.
  intros Hsrv. unfold __maybe_handle_account_info.
  destruct (ACCOUNT_INFO_REGEX (str line)) as [[name id] |]; [| reflexivity].
  run1. unfold send_user_info. run1. unfold logging, emit. run1.
  match goal with
  | |- context [send ?e ?b ?s] => destruct (send_returns e b s Hsrv) as [evs [k [Hs _]]]
  end.
  rewrite Hs. reflexivity.
Qed.

Lemma set_log_time_returns raw st :
  time_parses raw = true ->
  exists t,
    extract_time (string_of_list_ascii raw) = Ok t /\
    set_log_time raw st =
      (Ok tt, set_cur_log_time (Some t) (set_last_raw_time (string_of_list_ascii raw) st)).
Proof.
  unfold time_parses, set_log_time. intros H.
  destruct (extract_time (string_of_list_ascii raw)) as [t | e] eqn:E; [| discriminate].
  exists t. split; [reflexivity |]. do 2 run1. reflexivity.
Qed.

Lemma append_line_returns line st :
  server_answers -> timestamps_parse line = true -> fst (__append_line line st) = Ok tt.
Proof.
  intros Hsrv Hp. unfold timestamps_parse in Hp. apply andb_true_iff in Hp as [Hp1 Hp2].
  unfold __append_line. unfold bind at 1.
  pose proof (account_info_returns line st Hsrv) as Ha.
  destruct (__maybe_handle_account_info line st) as [[[] | e] st1]; [| discriminate Ha].
  unfold bind at 1.
  assert (Ht : exists st2,
             match TIMESTAMP_REGEX (str line) with
             | Some raw => set_log_time raw
             | None => ret tt
             end st1 = (Ok tt, st2)).
  { destruct (TIMESTAMP_REGEX (str line)) as [raw |]; [| exists st1; reflexivity].
    destruct (set_log_time_returns raw st1 Hp1) as [t [_ Hs]]. rewrite Hs. eauto. }
  destruct Ht as [st2 Ht]. rewrite Ht.
  unfold LOG_START_REGEX_TIMED in *.
  destruct (LOG_START_REGEX_UNTIMED (str line)) as [rest |]; [| reflexivity].
  unfold bind at 1.
  pose proof (proj1 (complete_log_entry_returns st2)) as Hc.
  destruct (__handle_complete_log_entry st2) as [[[] | e] st3]; [| discriminate Hc].
  match goal with
  | |- fst (match ?x with _ => _ end _) = _ => destruct x as [[raw rest'] |]
  end; [| reflexivity].
  destruct (set_log_time_returns raw st3 Hp2) as [t [_ Hs]].
  unfold bind. rewrite Hs. reflexivity.
Qed.

(** X3.  The only exceptions that can end [parse_log] come from reading a
    time and from the server: when every time text found at the start of a
    line or after an entry marker is accepted by [extract_time], and
    [requests.post] answers every call, [parse_log] returns normally on
    any file, whatever its entries hold, and leaves the buffer empty. *)
Theorem parse_log_returns lines (st : Follower) :
  server_answers ->
  forallb timestamps_parse lines = true ->
  fst (parse_log lines st) = Ok tt /\
  buffer (snd (parse_log lines st)) = [].
Proof.
  intros Hsrv Hp. unfold parse_log, follow.
  assert (Hl : exists st1, for_each (map Line lines) step st = (Ok tt, st1)).
  { assert (H : fst (for_each (map Line lines) step st) = Ok tt).
    { apply for_each_returns. intros x s Hx. apply in_map_iff in Hx as [l [<- Hl]].
      apply append_line_returns; [exact Hsrv |].
      rewrite forallb_forall in Hp. apply Hp, Hl. }
    destruct (for_each (map Line lines) step st) as [[[] | e] st1]; [eauto | discriminate]. }
  destruct Hl as [st1 Hl].
  assert (E : exists st2,
             bind (for_each (map Line lines ++ [NoMoreData]) step)
               (fun _ => logging INFO) st = (Ok tt, st2) /\ buffer st2 = []).
  { unfold bind at 1. rewrite (for_each_app _ _ _ _ _ Hl). cbn [for_each step].
    destruct (complete_log_entry_returns st1) as [Hc Hb].
    unfold bind at 1.
    destruct (__handle_complete_log_entry st1) as [[[] | e] st2]; [| discriminate Hc].
    cbn [snd] in Hb. eexists. split; [reflexivity | exact Hb]. }
  destruct E as [st2 [E Hb]]. rewrite E. split; [reflexivity | exact Hb].
Qed.

(** X4.  A time text that no format of [TIME_FORMATS] accepts ends the
    run.  When a line starts with a timestamp that [extract_time] rejects,
    [__append_line] raises [ValueError] once the raw text is stored: the
    line is not added to the buffer, nothing catches the exception, and
    [parse_log] ends with it without reading the lines that follow.  The
    same holds for the text that follows an entry marker, once the entry
    before it is closed; a single blank or digit after the marker is such
    a text. *)
Theorem rejected_time_ends_parse_log line raw (st : Follower) :
  ACCOUNT_INFO_REGEX (str line) = None ->
  extract_time (string_of_list_ascii raw) = Raise ValueError ->
  (TIMESTAMP_REGEX (str line) = Some raw ->
   __append_line line st =
     (Raise ValueError, set_last_raw_time (string_of_list_ascii raw) st) /\
   forall more,
     parse_log (line :: more) st =
       (Raise ValueError, set_last_raw_time (string_of_list_ascii raw) st)) /\
  (forall rest,
     TIMESTAMP_REGEX (str line) = None ->
     LOG_START_REGEX_TIMED (str line) = Some (raw, rest) ->
     __append_line line st =
       (Raise ValueError,
        set_last_raw_time (string_of_list_ascii raw)
          (snd (__handle_complete_log_entry st))) /\
     forall more,
       parse_log (line :: more) st =
         (Raise ValueError,
          set_last_raw_time (string_of_list_ascii raw)
            (snd (__handle_complete_log_entry st)))).
Proof.
  intros Ha He.
  assert (Hs : forall s, set_log_time raw s =
                         (Raise ValueError, set_last_raw_time (string_of_list_ascii raw) s)).
  { intros s. unfold set_log_time. run1. apply bind_lift_raise, He. }
  assert (Hp : forall more s' , __append_line line st = (Raise ValueError, s') ->
                               parse_log (line :: more) st = (Raise ValueError, s')).
  { intros more s' H. unfold parse_log, follow. cbn [map app for_each step].
    unfold bind. rewrite H. reflexivity. }
  split.
  - intros Ht.
    assert (H : __append_line line st =
                (Raise ValueError, set_last_raw_time (string_of_list_ascii raw) st)).
    { unfold __append_line, __maybe_handle_account_info. rewrite Ha, Ht.
      run1. unfold bind. rewrite Hs. reflexivity. }
    split; [exact H | intros more; apply Hp, H].
  - intros rest Ht Hm.
    assert (H : __append_line line st =
                (Raise ValueError,
                 set_last_raw_time (string_of_list_ascii raw)
                   (snd (__handle_complete_log_entry st)))).
    { unfold __append_line, __maybe_handle_account_info. rewrite Ha, Ht, Hm.
      do 2 run1.
      unfold LOG_START_REGEX_TIMED in Hm.
      destruct (LOG_START_REGEX_UNTIMED (str line)) as [r |]; [| discriminate].
      unfold bind at 1.
      pose proof (proj1 (complete_log_entry_returns st)) as Hc.
      destruct (__handle_complete_log_entry st) as [[[] | e] st1]; [| discriminate Hc].
      unfold bind. rewrite Hs. reflexivity. }
    split; [exact H | intros more; apply Hp, H].
Qed.

(** X5.  An entry is handled once.  Closing the open entry empties the
    buffer, so closing again does nothing at all: polling a file that has
    not grown neither handles the last entry a second time nor posts
    anything. *)
Theorem entry_is_closed_once (st : Follower) :
  __handle_complete_log_entry (snd (__handle_complete_log_entry st)) =
    (Ok tt, snd (__handle_complete_log_entry st)) /\
  (forall polls,
     follow (repeat NoMoreData (S polls)) st = (Ok tt, snd (__handle_complete_log_entry st))).
Proof.
  destruct (complete_log_entry_returns st) as [Hc Hb].
  assert (H : forall s, buffer s = [] -> __handle_complete_log_entry s = (Ok tt, s)).
  { intros s E. unfold __handle_complete_log_entry. rewrite bind_get, E. reflexivity. }
  split; [apply H, Hb |].
  intros polls. unfold follow. cbn [repeat for_each step]. unfold bind at 1.
  destruct (__handle_complete_log_entry st) as [[[] | e] st1]; [| discriminate Hc].
  cbn [snd] in *. clear Hc. induction polls as [| n IH]; [reflexivity |].
  cbn [repeat for_each step]. unfold bind at 1. rewrite (H st1 Hb). exact IH.
Qed.

Lemma continuation_line_appends line st :
  is_continuation line = true ->
  __append_line line st = (Ok tt, set_buffer (buffer st ++ [line]) st).
Proof.
  unfold is_continuation, __append_line, __maybe_handle_account_info, buffer_append.
  destruct (ACCOUNT_INFO_REGEX (str line)); [discriminate |].
  destruct (TIMESTAMP_REGEX (str line)); [discriminate |].
  destruct (LOG_START_REGEX_UNTIMED (str line)); [discriminate |]. intros _.
  do 2 run1. unfold modify, str. rewrite string_of_list_ascii_of_string. reflexivity.
Qed.

(** X6.  Lines that hold no account information and start with neither a
    timestamp nor an entry marker continue the open entry: each is added
    to the buffer as it is and nothing else changes.  When the entry is
    closed, the text handed to [__handle_blob] is the buffer followed by
    these lines, joined without separator. *)
Theorem continuation_lines_extend_entry lines (st : Follower) :
  forallb is_continuation lines = true ->
  follow (map Line lines) st = (Ok tt, set_buffer (buffer st ++ lines) st) /\
  follow (map Line lines ++ [NoMoreData]) st =
    __handle_complete_log_entry (set_buffer (buffer st ++ lines) st) /\
  (buffer st ++ lines <> [] -> has_log_time st ->
   follow (map Line lines ++ [NoMoreData]) st =
     match __handle_blob (String.concat "" (buffer st ++ lines))
             (set_buffer (buffer st ++ lines) st) with
     | (Ok _, st') => (Ok tt, set_buffer [] st')
     | (Raise _, st') =>
         (Ok tt, set_buffer [] (set_events (events st' ++ [Log ERROR; Log ERROR]) st'))
     end).
Proof.
  intros Hc.
  assert (H : follow (map Line lines) st = (Ok tt, set_buffer (buffer st ++ lines) st)).
  { unfold follow. revert st. induction lines as [| l lines IH]; intros st.
    - cbn. rewrite app_nil_r. destruct st; reflexivity.
    - cbn [forallb] in Hc. apply andb_true_iff in Hc as [Hl Hc].
      cbn [map for_each step]. unfold bind.
      rewrite (continuation_line_appends l st Hl), (IH Hc).
      simpl_state. rewrite <- app_assoc. reflexivity. }
  assert (H' : follow (map Line lines ++ [NoMoreData]) st =
               __handle_complete_log_entry (set_buffer (buffer st ++ lines) st)).
  { unfold follow in *. rewrite (for_each_app _ _ _ _ _ H). cbn [for_each step].
    unfold bind.
    destruct (__handle_complete_log_entry _) as [[[] | e] st']; reflexivity. }
  refine (conj H (conj H' _)).
  intros Hb Ht. rewrite H'. rewrite complete_log_entry_processes by assumption.
  reflexivity.
Qed.

(** X7.  The account information on a line is handled before the time on
    that line is read.  For a line that holds account information and
    starts with a timestamp, the user record posted carries as [raw_time]
    the raw time stored before the line, not the line's own; the line's
    time is stored afterwards, and the line joins the open entry. *)
Theorem account_line_reports_earlier_time line name id raw t (st : Follower) :
  server_answers ->
  ACCOUNT_INFO_REGEX (str line) = Some (name, id) ->
  TIMESTAMP_REGEX (str line) = Some raw ->
  extract_time (string_of_list_ascii raw) = Ok t ->
  LOG_START_REGEX_UNTIMED (str line) = None ->
  exists evs k,
    __append_line line st =
      (Ok tt,
       set_buffer (buffer st ++ [line])
         (set_cur_log_time (Some t)
            (set_last_raw_time (string_of_list_ascii raw)
               (set_events (events st ++ Log INFO :: evs)
                  (set_cur_user (JStr (string_of_list_ascii id)) st))))) /\
    filter is_post evs =
      repeat (Post (url_of st ENDPOINT_USER)
                (add_common_fields st
                   [ ("player_id", JStr (string_of_list_ascii id));
                     ("screen_name", JStr (string_of_list_ascii name));
                     ("raw_time", JStr (last_raw_time st)) ])) k /\
    (1 <= k <= 3)%nat.
Proof.
  intros Hsrv Ha Ht He Hm.
  set (st0 := set_cur_user (JStr (string_of_list_ascii id)) st).
  set (st1 := set_events (events st0 ++ [Log INFO]) st0).
  set (user_info := [ ("player_id", JStr (string_of_list_ascii id));
                      ("screen_name", JStr (string_of_list_ascii name));
                      ("raw_time", JStr (last_raw_time st)) ]).
  destruct (send_returns ENDPOINT_USER user_info st1 Hsrv) as [evs [k [Hs [Hp Hk]]]].
  exists evs, k. split; [| split; [exact Hp | exact Hk]].
  unfold __append_line, __maybe_handle_account_info. rewrite Ha, Ht, Hm.
  run1. run1. unfold send_user_info. run1. unfold logging, emit. do 3 run1.
  unfold bind at 1.
  match goal with
  | |- context [send ?e ?b ?s] => change (send e b s) with (send ENDPOINT_USER user_info st1)
  end.
  rewrite Hs.
  unfold set_log_time, buffer_append. repeat run1. unfold modify, st1, st0. simpl_state. unfold str.
  rewrite string_of_list_ascii_of_string, <- app_assoc. reflexivity.
Qed.

(** ** The classifier *)

(** X8.  A message is classified by what it holds.  An object with none
    of the keys the tests of [__handle_blob] look at is ignored: no
    handler runs and [self] is left as it is - unless the text of the entry
    holds the marker of the card collection, in which case the object is
    taken for the collection and sent as such. *)
Theorem unclassified_message_is_ignored full_log d (st : Follower) :
  forallb (fun k => negb (dict_has k d)) classifier_keys = true ->
  (is_substring " PlayerInventory.GetPlayerCardsV3 " full_log = false ->
   dispatch full_log (JObj d) st = (Ok tt, st)) /\
  (is_substring " PlayerInventory.GetPlayerCardsV3 " full_log = true ->
   dispatch full_log (JObj d) st = __handle_collection (JObj d) st).
Proof.
  intros H. cbn [forallb classifier_keys] in H.
  repeat (apply andb_true_iff in H as [?H H]).
  repeat match goal with
         | E : negb _ = true |- _ => apply negb_true_iff in E
         end.
  assert (E : dispatch full_log (JObj d) st =
              bind (if is_substring " PlayerInventory.GetPlayerCardsV3 " full_log
                    then bind (lift (py_in "method" (JObj d))) (fun has => ret (negb has))
                    else ret false)
                (fun c => if c then __handle_collection (JObj d) else ret tt) st).
  { unfold dispatch, json_value_matches. cbn [py_in rbind].
    repeat match goal with
           | E : dict_has _ d = false |- _ => rewrite E
           end.
    cbn [rbind]. repeat run1. reflexivity. }
  split; intros Hs; rewrite E, Hs.
  - reflexivity.
  - cbn [py_in].
    match goal with
    | E : dict_has "method" d = false |- _ => rewrite E
    end.
    repeat run1. reflexivity.
Qed.

(** X9.  A top-level array never reaches the classifier.  When the value
    decoded from an entry is a list, [__handle_blob] returns without
    effect - except for a list that holds both the strings [id] and
    [payload]: there envelope unwrapping indexes the list by a string and
    the entry ends in [TypeError]. *)
Theorem top_level_array_is_dropped full_log start l e (st : Follower) :
  JSON_START_REGEX (str full_log) 0 = Some start ->
  raw_decode full_log start = Ok (JArr l, e) ->
  __handle_blob full_log st =
    if existsb (py_eq (JStr "id")) l && existsb (py_eq (JStr "payload")) l
    then (Raise TypeError, st)
    else (Ok tt, st).
Proof.
  intros Hs Hd. unfold __handle_blob. rewrite Hs, Hd.
  unfold __extract_payload. cbn [py_in rbind].
  destruct (existsb (py_eq (JStr "id")) l); cbn [negb andb]; [| reflexivity].
  destruct (existsb (py_eq (JStr "payload")) l); [reflexivity |].
  destruct (existsb (py_eq (JStr "request")) l); reflexivity.
Qed.

Lemma json_start_none l : forall i,
  forallb (fun c => negb (in_chars "[{" c)) l = true -> JSON_START_REGEX l i = None.
Proof.
  induction l as [| c l IH]; intros i; cbn [forallb JSON_START_REGEX]; [reflexivity |].
  rewrite andb_true_iff, negb_true_iff. intros [-> H]. apply IH, H.
Qed.

Lemma json_start_first pre c post : forall i,
  forallb (fun c => negb (in_chars "[{" c)) pre = true ->
  in_chars "[{" c = true ->
  JSON_START_REGEX (pre ++ c :: post) i = Some (i + List.length pre)%nat.
Proof.
  induction pre as [| x pre IH]; intros i Hp Hc.
  - cbn [app JSON_START_REGEX List.length]. rewrite Hc. f_equal. lia.
  - cbn [forallb] in Hp. apply andb_true_iff in Hp as [Hx Hp].
    apply negb_true_iff in Hx.
    cbn [app JSON_START_REGEX List.length]. rewrite Hx, (IH (S i) Hp Hc). f_equal. lia.
Qed.

(** X10.  JSON is sought at the first opening bracket or brace of the
    entry, and nowhere else.  A text without either is ignored.  In any
    other text [JSON_START_REGEX] finds the first of them; when the
    decoder rejects what starts there, the entry is dropped with a debug
    line, whatever follows in the text. *)
Theorem json_is_sought_at_first_bracket :
  (forall full_log (st : Follower),
     forallb (fun c => negb (in_chars "[{" c)) (str full_log) = true ->
     __handle_blob full_log st = (Ok tt, st)) /\
  (forall pre c post,
     forallb (fun c => negb (in_chars "[{" c)) pre = true ->
     in_chars "[{" c = true ->
     JSON_START_REGEX (pre ++ c :: post) 0 = Some (List.length pre)) /\
  (forall full_log start (st : Follower),
     JSON_START_REGEX (str full_log) 0 = Some start ->
     raw_decode full_log start = Raise JSONDecodeError ->
     __handle_blob full_log st = (Ok tt, set_events (events st ++ [Log DEBUG]) st)).
Proof.
  refine (conj _ (conj _ _)).
  - intros full_log st H. unfold __handle_blob. rewrite (json_start_none _ 0 H). reflexivity.
  - intros pre c post Hp Hc. apply (json_start_first pre c post 0 Hp Hc).
  - intros full_log start st Hs Hd. unfold __handle_blob. rewrite Hs, Hd. reflexivity.
Qed.

(** ** Deck lists of [Event.DeckSubmit] *)

Lemma card_ids_by_quantity_expands cards pairs :
  Forall2 (fun card p =>
             py_getitem card "Quantity" = Ok (JInt (snd p)) /\
             (0 < snd p -> py_getitem card "Id" = Ok (fst p))) cards pairs ->
  card_ids_by_quantity cards = Ok (expansion pairs).
Proof.
  induction 1 as [| card p cards pairs [Hq Hid] _ IH]; [reflexivity |].
  cbn [card_ids_by_quantity expansion flat_map]. fold (expansion pairs).
  rewrite Hq. cbn [rbind py_range].
  destruct (Z.to_nat (snd p)) as [| n] eqn:E.
  - cbn [rbind repeat app]. rewrite IH. reflexivity.
  - rewrite Hid by lia. cbn [rbind]. rewrite IH. reflexivity.
Qed.

(** X11.  The deck lists of [Event.DeckSubmit] are expanded card by card:
    each card contributes its [Id] as many times as its [Quantity] says,
    in the order of the list, so every identifier occurs as often as the
    quantities of its cards add up to.  A card whose quantity is zero or
    negative contributes nothing and its [Id] is not read.  The handler
    resets the game data and sends the deck with both lists expanded. *)
Theorem deck_submission_expands :
  (forall cards pairs,
     Forall2 (fun card p =>
                py_getitem card "Quantity" = Ok (JInt (snd p)) /\
                (0 < snd p -> py_getitem card "Id" = Ok (fst p))) cards pairs ->
     card_ids_by_quantity cards = Ok (expansion pairs) /\
     forall c, occurrences c (expansion pairs) = copies c pairs) /\
  (forall pairs, card_ids_by_quantity (map card_entry pairs) = Ok (expansion pairs)) /\
  (forall json_obj inner_obj deck_text deck_info event_name t main side main_pairs side_pairs
          (st : Follower),
     py_getitem json_obj "params" = Ok inner_obj ->
     py_getitem inner_obj "deck" = Ok deck_text ->
     json_loads deck_text = Ok deck_info ->
     py_getitem inner_obj "eventName" = Ok event_name ->
     cur_log_time st = Some t ->
     py_getitem deck_info "mainDeck" = Ok (JArr main) ->
     py_getitem deck_info "sideboard" = Ok (JArr side) ->
     card_ids_by_quantity main = Ok (expansion main_pairs) ->
     card_ids_by_quantity side = Ok (expansion side_pairs) ->
     __handle_deck_submission json_obj st =
       send ENDPOINT_DECK_SUBMISSION
         [ ("player_id", cur_user st);
           ("event_name", event_name);
           ("time", JStr (isoformat t));
           ("maindeck_card_ids", JArr (expansion main_pairs));
           ("sideboard_card_ids", JArr (expansion side_pairs));
           ("is_during_match", JBool false) ]
         (set_events (events st ++ [Log INFO]) (snd (__clear_game_data st)))).
Proof.
  refine (conj _ (conj _ _)).
  - intros cards pairs H. split; [apply card_ids_by_quantity_expands, H |].
    intros c. apply occurrences_expansion.
  - intros pairs. apply card_ids_by_quantity_expands.
    induction pairs as [| p pairs IH]; constructor; [| exact IH].
    split; [reflexivity | intros _; reflexivity].
  - intros json_obj inner_obj deck_text deck_info event_name t main side main_pairs
      side_pairs st Hp Hd Hj He Ht Hm Hs Hme Hse.
    unfold __handle_deck_submission, getitem, __clear_game_data.
    do 6 run1. rewrite (bind_cur_log_time_isoformat _ _ t) by (simpl_state; exact Ht).
    erewrite bind_lift_ok by (rewrite Hm; cbn [rbind py_iter]; exact Hme).
    erewrite bind_lift_ok by (rewrite Hs; cbn [rbind py_iter]; exact Hse).
    unfold logging, emit. run1. unfold modify. cbn [snd]. simpl_state. reflexivity.
Qed.

(** ** The turn count of a game *)

Lemma sum_turn_numbers_total players turns : forall acc,
  Forall2 (fun p n => py_getitem p "turnNumber" = Ok (JInt n)) players turns ->
  sum_turn_numbers acc players = Ok (fold_left Z.add turns acc).
Proof.
  intros acc H. revert acc. induction H as [| p n players turns Hp _ IH]; intros acc.
  - reflexivity.
  - cbn [sum_turn_numbers fold_left]. rewrite Hp. cbn [rbind]. apply IH.
Qed.

(** X12.  The turn count of a game-over record is the turn number of the
    turn info when there is one - also when it is zero; without it, it is
    the sum of the turn numbers of the players; and [-1] when there are no
    players either. *)
Theorem turn_count_cases gsm turn_info :
  py_get gsm "turnInfo" (JObj []) = Ok (JObj turn_info) ->
  (forall n, dict_get "turnNumber" turn_info = Some n -> n <> JNull ->
     turn_count_of gsm = Ok n) /\
  (forall p players turns,
     (dict_get "turnNumber" turn_info = None \/
      dict_get "turnNumber" turn_info = Some JNull) ->
     py_get gsm "players" (JArr []) = Ok (JArr (p :: players)) ->
     Forall2 (fun p n => py_getitem p "turnNumber" = Ok (JInt n)) (p :: players) turns ->
     turn_count_of gsm = Ok (JInt (fold_left Z.add turns 0))) /\
  ((dict_get "turnNumber" turn_info = None \/
    dict_get "turnNumber" turn_info = Some JNull) ->
   py_get gsm "players" (JArr []) = Ok (JArr []) ->
   turn_count_of gsm = Ok (JInt (-1))).
Proof.
  intros Hti. unfold turn_count_of. rewrite Hti. cbn [rbind py_get].
  refine (conj _ (conj _ _)).
  - intros n Hn Hnn. rewrite Hn. destruct n; try reflexivity. contradiction Hnn. reflexivity.
  - intros p players turns Hn Hp Ht.
    assert (E : match dict_get "turnNumber" turn_info with
                | Some v => v
                | None => JNull
                end = JNull) by (destruct Hn as [-> | ->]; reflexivity).
    rewrite E, Hp. cbn [rbind py_len List.length Nat.ltb Nat.leb py_iter].
    rewrite (sum_turn_numbers_total _ _ 0 Ht). reflexivity.
  - intros Hn Hp.
    assert (E : match dict_get "turnNumber" turn_info with
                | Some v => v
                | None => JNull
                end = JNull) by (destruct Hn as [-> | ->]; reflexivity).
    rewrite E, Hp. reflexivity.
Qed.

(** ** Match and event *)

(** X13.  [__handle_match_started] stores the pair of match id and event
    id of the game room configuration when the configuration holds both,
    and does nothing otherwise (absent levels of the message count as
    empty).  With the pair stored, a game-over record reports the event
    id as [event_name] exactly for a game of that match, and [None] for a
    game of any other match. *)
Theorem match_started_correlates_event blob ev info config (st : Follower) :
  py_get blob "matchGameRoomStateChangedEvent" (JObj []) = Ok ev ->
  py_get ev "gameRoomInfo" (JObj []) = Ok info ->
  py_get info "gameRoomConfig" (JObj []) = Ok (JObj config) ->
  (forall match_id event_id,
     dict_get "matchId" config = Some match_id ->
     dict_get "eventId" config = Some event_id ->
     __handle_match_started blob st =
       (Ok tt, set_current_match_event_id (Some (match_id, event_id)) st) /\
     forall st' t seat played winner win_type reason turn_count,
       current_match_event_id st' = Some (match_id, event_id) ->
       dict_get "event_name"
         (game_over_record st' t seat played winner win_type reason turn_count) =
         Some (if py_eq match_id played then event_id else JNull)) /\
  ((dict_get "matchId" config = None \/ dict_get "eventId" config = None) ->
   __handle_match_started blob st = (Ok tt, st)).
Proof.
  intros He Hi Hc. split.
  - intros match_id event_id Hm Hev. split.
    + unfold __handle_match_started, getitem. do 3 run1. cbn [py_in py_getitem].
      unfold dict_has. rewrite Hm, Hev. repeat run1. reflexivity.
    + intros st' t seat played winner win_type reason turn_count H.
      unfold game_over_record, game_record, event_id_of. rewrite H. reflexivity.
  - intros H. unfold __handle_match_started. do 3 run1. cbn [py_in]. unfold dict_has.
    destruct H as [H | H]; rewrite H.
    + destruct (dict_get "eventId" config); repeat run1; reflexivity.
    + repeat run1. reflexivity.
Qed.

(** ** Object ownership *)

(** X14.  A game object of type card is recorded under its owner and
    instance id: afterwards the instance resolves to its card, also when
    it was recorded before with another card; other instances of the
    owner and the objects of other owners resolve as before.  A game
    object of another type is skipped without reading anything else. *)
Theorem track_object_records game_object (st : Follower) :
  (forall owner instance_id card_id,
     py_getitem game_object "type" = Ok (JStr "GameObjectType_Card") ->
     py_getitem game_object "ownerSeatId" = Ok owner ->
     py_getitem game_object "instanceId" = Ok instance_id ->
     py_getitem game_object "overlayGrpId" = Ok card_id ->
     py_hashable owner = true ->
     py_hashable instance_id = true ->
     fst (track_object game_object st) = Ok tt /\
     resolve (lookup [] owner (objects_by_owner (snd (track_object game_object st))))
       instance_id = card_id /\
     (forall i, py_hashable i = true -> py_eq instance_id i = false ->
        resolve (lookup [] owner (objects_by_owner (snd (track_object game_object st)))) i =
        resolve (lookup [] owner (objects_by_owner st)) i) /\
     (forall o, py_hashable o = true -> py_eq owner o = false ->
        lookup [] o (objects_by_owner (snd (track_object game_object st))) =
        lookup [] o (objects_by_owner st))) /\
  (forall type,
     py_getitem game_object "type" = Ok type ->
     py_eq type (JStr "GameObjectType_Card") = false ->
     track_object game_object st = (Ok tt, st)).
Proof.
  split.
  - intros owner instance_id card_id Ht Ho Hi Hc Hho Hhi.
    assert (E : track_object game_object st =
                (Ok tt,
                 set_objects_by_owner
                   (pd_set owner (pd_set instance_id card_id (lookup [] owner (objects_by_owner st)))
                      (touch [] owner (objects_by_owner st))) st)).
    { unfold track_object, getitem. run1. cbn [py_eq String.eqb Ascii.eqb Bool.eqb negb].
      do 4 run1. unfold dd_getitem, dd_setitem. rewrite Hho, Hhi. repeat run1.
      unfold modify. simpl_state. reflexivity. }
    rewrite E. cbn [fst snd]. simpl_state. unfold resolve.
    refine (conj eq_refl (conj _ (conj _ _))).
    + rewrite lookup_set_same by exact Hho. apply lookup_set_same, Hhi.
    + intros i Hi' Hne. rewrite lookup_set_same by exact Hho.
      apply lookup_set_other; assumption.
    + intros o Hho' Hne. rewrite lookup_set_other by assumption.
      apply lookup_touch_other; assumption.
  - intros type Ht Hne. unfold track_object, getitem. run1. rewrite Hne. reflexivity.
Qed.

(** ** Mulligan decisions *)

Lemma py_eq_same a k k' :
  py_hashable k = true -> py_hashable k' = true ->
  py_eq k' k = true -> py_eq a k = py_eq a k'.
Proof.
  intros Hk Hk' He.
  destruct a as [| x | x | x | x | x], k as [| y | y | y | y | y],
    k' as [| z | z | z | z | z];
    cbn [py_eq py_hashable] in *; try discriminate; try reflexivity;
    repeat match goal with b : bool |- _ => destruct b end;
    cbn [Bool.eqb Z.b2z] in *; try discriminate; try reflexivity;
    rewrite ?Z.eqb_eq, ?String.eqb_eq in *; subst; try reflexivity;
    try (symmetry; apply Z.eqb_neq; lia); try (apply Z.eqb_neq; lia).
Qed.

Lemma pd_get_same {V} k k' (d : pydict V) :
  py_hashable k = true -> py_hashable k' = true ->
  py_eq k' k = true -> pd_get k d = pd_get k' d.
Proof.
  intros Hk Hk' He. induction d as [| [a w] d IH]; cbn; [reflexivity |].
  rewrite (py_eq_same a k k' Hk Hk' He). destruct (py_eq a k'); [reflexivity | exact IH].
Qed.

(** The counter of a seat after one decision. *)
Lemma track_mulligan_count turn_info player count seat st :
  py_hashable seat = true -> py_hashable player = true -> is_dict turn_info = true ->
  lookup 0 seat (opening_hand_count_by_seat (snd (track_mulligan turn_info (player, count) st))) =
    lookup 0 seat (opening_hand_count_by_seat st) + (if py_eq player seat then 1 else 0).
Proof.
  intros Hs Hp Hd. destruct turn_info as [| | | | | ti]; try discriminate.
  assert (E : opening_hand_count_by_seat (snd (track_mulligan (JObj ti) (player, count) st)) =
              pd_set player (lookup 0 player (opening_hand_count_by_seat st) + 1)
                (touch 0 player (opening_hand_count_by_seat st))).
  { unfold track_mulligan, dd_getitem. rewrite Hp. run1.
    destruct (starting_team_id st); cbn [py_get]; repeat run1;
      (destruct (py_eq count _); repeat run1; reflexivity). }
  rewrite E. destruct (py_eq player seat) eqn:Ee.
  - unfold lookup at 1. rewrite (pd_get_same seat player _ Hs Hp Ee).
    rewrite pd_get_set_same by exact Hp.
    unfold lookup. rewrite (pd_get_same seat player _ Hs Hp Ee). reflexivity.
  - rewrite lookup_set_other, lookup_touch_other by assumption. lia.
Qed.

(** X15.  The counter behind [mulligan_count] counts decisions, not
    hands.  Every mulligan decision seen for a seat adds one to the
    counter of the seat, whatever its mulligan count and also when it
    repeats a count already seen; decisions of other seats leave it
    alone.  The game-over record reports the counter minus one. *)
Theorem mulligan_count_counts_decisions seat decisions (st : Follower) :
  py_hashable seat = true ->
  forallb (fun o => is_dict (fst o) && py_hashable (fst (snd o))) decisions = true ->
  fst (observe decisions st) = Ok tt /\
  lookup 0 seat (opening_hand_count_by_seat (snd (observe decisions st))) =
    lookup 0 seat (opening_hand_count_by_seat st) + Z.of_nat (presentations seat decisions) /\
  (forall t match_id winner win_type reason turn_count,
     dict_get "mulligan_count"
       (game_over_record (snd (observe decisions st)) t seat match_id winner win_type
          reason turn_count) =
       Some (JInt (lookup 0 seat (opening_hand_count_by_seat st) +
                   Z.of_nat (presentations seat decisions) - 1))).
Proof.
  intros Hs Hd.
  assert (H : fst (observe decisions st) = Ok tt /\
              lookup 0 seat (opening_hand_count_by_seat (snd (observe decisions st))) =
                lookup 0 seat (opening_hand_count_by_seat st) +
                Z.of_nat (presentations seat decisions)).
  { revert st. induction decisions as [| [ti [player count]] ds IH]; intros st.
    - split; [reflexivity |]. cbn. lia.
    - cbn [forallb fst snd] in Hd. apply andb_true_iff in Hd as [Ho Hd].
      apply andb_true_iff in Ho as [Hti Hp].
      rewrite observe_cons by assumption. cbn [fst snd].
      destruct (IH Hd (snd (track_mulligan ti (player, count) st))) as [Hok Hn].
      split; [exact Hok |]. rewrite Hn, track_mulligan_count by assumption.
      unfold presentations. cbn [filter fst snd].
      destruct (py_eq player seat); cbn [List.length]; lia. }
  destruct H as [Hok Hn]. refine (conj Hok (conj Hn _)).
  intros. unfold game_over_record, game_record. cbn [dict_get String.eqb Ascii.eqb Bool.eqb].
  rewrite Hn. reflexivity.
Qed.

(** X16.  The on-the-play marker is set once.  While it is unset, a
    mulligan decision sets it to the active player of the turn info (it
    stays unset when the turn info names none); once set, no mulligan
    decision changes it, whether the decisions are well formed or not. *)
Theorem starting_team_is_set_once :
  (forall turn_info player count (st : Follower),
     starting_team_id st = JNull ->
     py_hashable player = true ->
     starting_team_id (snd (track_mulligan (JObj turn_info) (player, count) st)) =
       match dict_get "activePlayer" turn_info with
       | Some active => active
       | None => JNull
       end) /\
  (forall decisions (st : Follower),
     starting_team_id st <> JNull ->
     starting_team_id (snd (observe decisions st)) = starting_team_id st).
Proof.
  split.
  - intros turn_info player count st Hn Hp.
    unfold track_mulligan, dd_getitem. rewrite Hp. run1. rewrite Hn. cbn [py_get].
    repeat run1. destruct (py_eq count _); repeat run1; reflexivity.
  - intros decisions st Hn.
    assert (H : forall v, v <> JNull -> forall ti p,
                preserves (fun s => starting_team_id s = v) (track_mulligan ti p)).
    { intros v Hv ti [player count] s Hs. unfold track_mulligan. rewrite bind_get.
      cbv beta.
      destruct (starting_team_id s) eqn:E;
        try (subst v; contradiction Hv; reflexivity);
        rewrite <- E in Hs; rewrite bind_ret;
        match goal with
        | |- starting_team_id (snd (?m s)) = v =>
            assert (Hm : preserves (fun s' => starting_team_id s' = v) m) by pres;
            exact (Hm s Hs)
        end. }
    unfold observe.
    apply (preserves_for_each (fun s => starting_team_id s = starting_team_id st)
             decisions (fun o => track_mulligan (fst o) (snd o))); [| reflexivity].
    intros o. apply H, Hn.
Qed.

(** ** Opening hands *)

Lemma pd_set_fresh {V} k (v : V) d :
  forallb (fun kv => negb (py_eq (fst kv) k)) d = true -> pd_set k v d = d ++ [(k, v)].
Proof.
  induction d as [| [a w] d IH]; cbn [forallb pd_set app fst]; [reflexivity |].
  rewrite andb_true_iff, negb_true_iff. intros [-> H]. rewrite (IH H). reflexivity.
Qed.

Lemma fold_pd_set_distinct {V} (d : pydict V) : forall acc,
  keys_distinct d = true ->
  (forall kv kv', In kv acc -> In kv' d -> py_eq (fst kv) (fst kv') = false) ->
  fold_left (fun acc oh => pd_set (fst oh) (snd oh) acc) d acc = acc ++ d.
Proof.
  induction d as [| [k v] d IH]; intros acc Hd Ha.
  - cbn. rewrite app_nil_r. reflexivity.
  - cbn [keys_distinct] in Hd. apply andb_true_iff in Hd as [Hk Hd].
    apply andb_true_iff in Hk as [_ Hk]. apply negb_true_iff in Hk.
    cbn [fold_left fst snd]. rewrite pd_set_fresh.
    + rewrite IH; [rewrite <- app_assoc; reflexivity | exact Hd |].
      intros kv kv' Hin Hin'. apply in_app_or in Hin as [Hin | [<- | []]].
      * apply Ha; [exact Hin | right; exact Hin'].
      * cbn [fst]. destruct (py_eq k (fst kv')) eqn:E; [| reflexivity].
        rewrite <- Hk. symmetry. apply existsb_exists. exists kv'. split; assumption.
    + apply forallb_forall. intros kv Hin. apply negb_true_iff.
      apply (Ha kv (k, v) Hin). left. reflexivity.
Qed.

(** X17.  The opening hands are captured once per game.  While none is
    stored, a game state at the upkeep of turn 1 stores a copy of the
    current hand of every seat, in the order of the seats; any other game
    state stores nothing.  Once opening hands are stored, no game state
    changes them: they stay until the game data is reset. *)
Theorem opening_hands_are_captured_once turn_info (st : Follower) :
  (forall ti, opening_hand st <> [] -> capture_opening_hand ti st = (Ok tt, st)) /\
  (opening_hand st = [] ->
   keys_distinct (cards_in_hand st) = true ->
   dict_get "phase" turn_info = Some (JStr "Phase_Beginning") ->
   dict_get "step" turn_info = Some (JStr "Step_Upkeep") ->
   dict_get "turnNumber" turn_info = Some (JInt 1) ->
   capture_opening_hand (JObj turn_info) st =
     (Ok tt, set_opening_hand (cards_in_hand st) st)) /\
  (forall phase step turn,
     opening_hand st = [] ->
     py_get (JObj turn_info) "phase" JNull = Ok phase ->
     py_get (JObj turn_info) "step" JNull = Ok step ->
     py_get (JObj turn_info) "turnNumber" JNull = Ok turn ->
     py_eq (JStr "Phase_Beginning") phase && py_eq (JStr "Step_Upkeep") step &&
       py_eq (JInt 1) turn = false ->
     capture_opening_hand (JObj turn_info) st = (Ok tt, st)).
Proof.
  refine (conj _ (conj _ _)).
  - intros ti Hne. unfold capture_opening_hand. rewrite bind_get.
    destruct (opening_hand st); [contradiction | reflexivity].
  - intros He Hd Hp Hs Ht. unfold capture_opening_hand. rewrite bind_get, He.
    cbn [py_get]. rewrite Hp, Hs, Ht. repeat run1.
    cbn [py_eq String.eqb Ascii.eqb Bool.eqb Z.eqb Pos.eqb andb].
    unfold modify. rewrite He, fold_pd_set_distinct; [reflexivity | exact Hd |].
    intros kv kv' [].
  - intros phase step turn He Hp Hs Ht Hne. unfold capture_opening_hand.
    rewrite bind_get, He. repeat run1. rewrite Hne. reflexivity.
Qed.

(** ** The end of a game *)

(** X18.  Sending a game result resets the game data, and the reset comes
    before the post: the game data is empty afterwards whether the post
    succeeds or not, while the current hands are kept.  The cached rank of
    the opponent is dropped for good when the game belongs to another
    match than the one the rank was read for.  With a seat id that cannot
    be a key (a list or an object) the method fails before the reset:
    nothing is posted and the game data stays. *)
Theorem game_end_resets_game_data seat_id match_id hands event_name on_play won win_type
  reason turn_count duration t (st : Follower) :
  cur_log_time st = Some t ->
  (py_hashable seat_id = true ->
   game_data_cleared
     (snd (__send_game_end seat_id match_id hands event_name on_play won win_type reason
             turn_count duration st)) /\
   cur_opponent_level
     (snd (__send_game_end seat_id match_id hands event_name on_play won win_type reason
             turn_count duration st)) =
     (if py_eq match_id (cur_opponent_match_id st) then cur_opponent_level st else JNull) /\
   cards_in_hand
     (snd (__send_game_end seat_id match_id hands event_name on_play won win_type reason
             turn_count duration st)) = cards_in_hand st) /\
  (py_hashable seat_id = false ->
   __send_game_end seat_id match_id hands event_name on_play won win_type reason
     turn_count duration st =
     (Raise TypeError,
      set_events (events st ++ [Log DEBUG])
        (set_cur_opponent_level
           (if py_eq match_id (cur_opponent_match_id st) then cur_opponent_level st
            else JNull) st))).
Proof.
  intros Ht. split.
  - intros Hh. rewrite (send_game_end_sends st t) by assumption.
    match goal with
    | |- context [send ?e ?b ?s] => destruct (send_events e b s) as [evs [k [Hs _]]]
    end.
    rewrite Hs. unfold __clear_game_data, modify. cbn [snd]. simpl_state.
    refine (conj _ (conj eq_refl eq_refl)). repeat split.
  - intros Hh. unfold __send_game_end, logging, emit. do 2 run1.
    cbn [objects_by_owner cur_opponent_match_id set_events].
    destruct (py_eq match_id (cur_opponent_match_id st)) eqn:Em; cbn [negb];
      run1; rewrite (bind_cur_log_time_isoformat _ _ t) by exact Ht; run1;
      unfold dd_getitem; simpl_state; rewrite Hh;
      erewrite bind_lift_raise by reflexivity; [destruct st |]; reflexivity.
Qed.

Lemma grp_ids_of_hands hs :
  map_result
    (fun hand =>
       let? cards := py_iter hand in
       let? ids := map_result (fun x => py_getitem x "grpId") cards in
       Ok (JArr ids)) (map hand_of_cards hs) = Ok (map JArr hs).
Proof.
  assert (H : forall h, map_result (fun x => py_getitem x "grpId")
                          (map (fun g => JObj [("grpId", g)]) h) = Ok h).
  { induction h as [| g h IH]; [reflexivity |].
    cbn [map map_result py_getitem dict_get String.eqb Ascii.eqb Bool.eqb rbind].
    rewrite IH. reflexivity. }
  induction hs as [| h hs IH]; [reflexivity |].
  cbn [map map_result hand_of_cards py_iter rbind]. rewrite H. cbn [rbind].
  fold hand_of_cards. rewrite IH. reflexivity.
Qed.

(** X19.  A [DuelScene.GameStop] message sends one game result built from
    its payload: seat, match, event, win type, reason, turn count and
    duration are taken as they are, [on_play] and [won] compare the team
    of the player with the starting and the winning team, and each
    mulliganed hand is reduced to the [grpId]s of its cards, in order.
    Opening hand, mulligan counters, opponent cards and ranks come from
    the state of the aggregator, which is then reset. *)
Theorem game_stop_sends_payload json_obj params payload seat_id match_id hs event_name
  team starting winning win_type reason turn_count duration t (st : Follower) :
  py_getitem json_obj "params" = Ok params ->
  py_getitem params "payloadObject" = Ok payload ->
  py_getitem payload "seatId" = Ok seat_id ->
  py_getitem payload "matchId" = Ok match_id ->
  py_getitem payload "mulliganedHands" = Ok (JArr (map hand_of_cards hs)) ->
  py_getitem payload "eventId" = Ok event_name ->
  py_getitem payload "teamId" = Ok team ->
  py_getitem payload "startingTeamId" = Ok starting ->
  py_getitem payload "winningTeamId" = Ok winning ->
  py_getitem payload "winningType" = Ok win_type ->
  py_getitem payload "winningReason" = Ok reason ->
  py_getitem payload "turnCount" = Ok turn_count ->
  py_getitem payload "secondsCount" = Ok duration ->
  py_hashable seat_id = true ->
  cur_log_time st = Some t ->
  __handle_game_end json_obj st =
    send ENDPOINT_GAME_RESULT
      (game_record st (JStr (isoformat t)) seat_id match_id (JArr (map JArr hs)) event_name
         (JBool (py_eq team starting)) (JBool (py_eq team winning)) win_type reason
         turn_count duration)
      (set_events (events st ++ [Log DEBUG; Log INFO])
         (snd (__clear_game_data
                 (set_cur_opponent_level
                    (if py_eq match_id (cur_opponent_match_id st)
                     then cur_opponent_level st else JNull) st)))).
Proof.
  intros Hp Hpl Hs Hm Hh He Hte Hst Hw Hwt Hr Htc Hd Hhash Ht.
  unfold __handle_game_end, getitem. do 5 run1. cbn [py_iter]. run1.
  rewrite (bind_lift_ok _ _ _ _ (grp_ids_of_hands hs)).
  do 9 run1. apply send_game_end_sends; assumption.
Qed.

(** ** Handlers that do not reset *)

(** X20.  Only the handlers that call the reset, and the end of a game,
    empty the game data.  The handlers of a started match, of a finished
    event, of the player's ranks and of the card collection leave object
    ownership, opening-hand counters, opening hands, mulligan history and
    on-the-play marker as they are, whether they return or raise; so does
    every GRE message that is not a game state (a deck submitted during a
    match is sent without a reset), and so does a draft notification whose
    status is not [Draft.PickNext], which does nothing at all. *)
Theorem handlers_without_reset_keep_game_data json_obj (st : Follower) :
  game_data (snd (__handle_match_started json_obj st)) = game_data st /\
  game_data (snd (__handle_event_completion json_obj st)) = game_data st /\
  game_data (snd (__handle_self_rank_info json_obj st)) = game_data st /\
  game_data (snd (__handle_collection json_obj st)) = game_data st /\
  (forall type,
     py_getitem json_obj "type" = Ok type ->
     py_eq type (JStr "GREMessageType_GameStateMessage") = false ->
     game_data (snd (__handle_gre_to_client_message json_obj st)) = game_data st) /\
  (forall status,
     py_getitem json_obj "DraftStatus" = Ok status ->
     py_eq status (JStr "Draft.PickNext") = false ->
     __handle_draft_log json_obj st = (Ok tt, st)).
Proof.
  assert (K : forall (m : M unit),
            (forall g, preserves (game_data_is g) m) -> game_data (snd (m st)) = game_data st).
  { intros m H. apply (H (game_data st) st). reflexivity. }
  refine (conj _ (conj _ (conj _ (conj _ (conj _ _))))).
  - apply K. intros g. unfold __handle_match_started. pres.
  - apply K. intros g. unfold __handle_event_completion. pres.
  - apply K. intros g. unfold __handle_self_rank_info. pres.
  - apply K. intros g. unfold __handle_collection. pres.
  - intros type Ht Hne. unfold __handle_gre_to_client_message, getitem. run1. rewrite Hne.
    match goal with
    | |- game_data (snd (?m st)) = _ => apply (K m)
    end.
    intros g. pres.
  - intros status Hs Hne. unfold __handle_draft_log, getitem. run1. rewrite Hne.
    reflexivity.
Qed.

(** ** The UTC time of a message *)

(** X21.  The UTC timestamp of a message is looked for in three places,
    in this order: the message itself, its [payloadObject], and the
    [payloadObject] of its [params]; the first place that has the key
    decides, also when the value there is [None], in which case the
    message counts as having no timestamp.  A value that [int] accepts is
    a number of ticks; a text that [int] rejects is read as an ISO date;
    with no timestamp anywhere the result is [None]. *)
Theorem utc_timestamp_sources d :
  (forall v n t,
     dict_get "timestamp" d = Some v -> py_int v = Ok n -> datetime_of_ticks n = Ok t ->
     __maybe_get_utc_timestamp (JObj d) = Ok (Some t)) /\
  (dict_get "timestamp" d = Some JNull -> __maybe_get_utc_timestamp (JObj d) = Ok None) /\
  (forall s,
     dict_get "timestamp" d = Some (JStr s) -> int_of_str s = None ->
     __maybe_get_utc_timestamp (JObj d) = let? t := isoparse (JStr s) in Ok (Some t)) /\
  (forall po v,
     dict_get "timestamp" d = None ->
     dict_get "payloadObject" d = Some (JObj po) ->
     dict_get "timestamp" po = Some v ->
     __maybe_get_utc_timestamp (JObj d) = __maybe_get_utc_timestamp (JObj [("timestamp", v)])) /\
  (forall params po ppo v,
     dict_get "timestamp" d = None ->
     py_get (JObj d) "payloadObject" (JObj []) = Ok (JObj po) ->
     dict_get "timestamp" po = None ->
     dict_get "params" d = Some (JObj params) ->
     dict_get "payloadObject" params = Some (JObj ppo) ->
     dict_get "timestamp" ppo = Some v ->
     __maybe_get_utc_timestamp (JObj d) = __maybe_get_utc_timestamp (JObj [("timestamp", v)])) /\
  (dict_get "timestamp" d = None ->
   dict_get "payloadObject" d = None ->
   dict_get "params" d = None ->
   __maybe_get_utc_timestamp (JObj d) = Ok None).
Proof.
  unfold __maybe_get_utc_timestamp. cbn [py_in py_get py_getitem rbind]. unfold dict_has.
  refine (conj _ (conj _ (conj _ (conj _ (conj _ _))))).
  - intros v n t Hv Hn Ht. rewrite Hv. cbn [rbind]. rewrite Hn. cbn [rbind]. rewrite Ht.
    destruct v; try reflexivity. discriminate Hn.
  - intros Hv. rewrite Hv. reflexivity.
  - intros s Hv Hs. rewrite Hv. cbn [rbind py_int]. rewrite Hs. reflexivity.
  - intros po v Hn Hp Hv. rewrite Hn, Hp. cbn [rbind py_in py_getitem]. unfold dict_has.
    rewrite Hv. reflexivity.
  - intros params po ppo v Hn Hp Hpn Hpa Hpp Hv. rewrite Hn. cbn [rbind].
    cbn [py_get] in Hp. injection Hp as Hp. rewrite Hp. cbn [py_in py_getitem rbind].
    unfold dict_has. rewrite Hpn, Hpa. cbn [rbind py_get]. rewrite Hpp.
    cbn [rbind py_in py_getitem]. unfold dict_has. rewrite Hv. reflexivity.
  - intros Hn Hp Hpa. rewrite Hn, Hp, Hpa. reflexivity.
Qed.

(** ** Draft ids *)

Lemma list_ascii_of_string_app a b :
  list_ascii_of_string (a ++ b)%string = list_ascii_of_string a ++ list_ascii_of_string b.
Proof. induction a as [| c a IH]; cbn; [reflexivity | rewrite IH; reflexivity]. Qed.

Lemma split_at_first_fresh c p r :
  forallb (fun x => negb (Ascii.eqb x c)) p = true ->
  split_at_first c (p ++ c :: r) = Some (p, r).
Proof.
  induction p as [| x p IH]; cbn [forallb app split_at_first].
  - intros _. rewrite Ascii.eqb_refl. reflexivity.
  - rewrite andb_true_iff, negb_true_iff. intros [-> H]. rewrite (IH H). reflexivity.
Qed.

Lemma split_at_first_none c l :
  forallb (fun x => negb (Ascii.eqb x c)) l = true -> split_at_first c l = None.
Proof.
  induction l as [| x l IH]; cbn [forallb split_at_first]; [reflexivity |].
  rewrite andb_true_iff, negb_true_iff. intros [-> H]. rewrite (IH H). reflexivity.
Qed.

Lemma forallb_rev_eq {A} (f : A -> bool) l : forallb f (rev l) = forallb f l.
Proof.
  induction l as [| x l IH]; [reflexivity |].
  cbn [rev forallb]. rewrite forallb_app, IH. cbn. rewrite andb_true_r. apply andb_comm.
Qed.

Lemma rev_after_colon (a b : list ascii) :
  rev (a ++ ":"%char :: b) = rev b ++ ":"%char :: rev a.
Proof. rewrite rev_app_distr. cbn [rev]. rewrite <- app_assoc. reflexivity. Qed.

Lemma rsplit3_parts user event suffix :
  no_colon event = true -> no_colon suffix = true ->
  py_rsplit3 (JStr (user ++ ":" ++ event ++ ":" ++ suffix)) = Ok (user, event, suffix).
Proof.
  unfold no_colon, str, py_rsplit3. intros He Hs.
  rewrite !list_ascii_of_string_app. cbn [list_ascii_of_string app].
  rewrite rev_after_colon, rev_after_colon, <- app_assoc. cbn [app].
  rewrite split_at_first_fresh by (rewrite forallb_rev_eq; exact Hs).
  rewrite split_at_first_fresh by (rewrite forallb_rev_eq; exact He).
  rewrite !rev_involutive, !string_of_list_ascii_of_string. reflexivity.
Qed.

(** X22.  The event of a draft is the part of the draft id between its
    last two colons: for a draft id [user:event:suffix] whose event and
    suffix hold no colon, [__handle_draft_pick] sends the pick under
    [event], whatever colons the user part holds.  A draft id with fewer
    than two colons cannot be taken apart: the handler ends in
    [ValueError] after the reset, and nothing is sent. *)
Theorem draft_id_names_event :
  (forall user event suffix,
     no_colon event = true -> no_colon suffix = true ->
     py_rsplit3 (JStr (user ++ ":" ++ event ++ ":" ++ suffix)) = Ok (user, event, suffix)) /\
  (forall a b,
     no_colon a = true -> no_colon b = true ->
     py_rsplit3 (JStr a) = Raise ValueError /\
     py_rsplit3 (JStr (a ++ ":" ++ b)) = Raise ValueError) /\
  (forall json_obj inner_obj user event suffix pack pick card pack_number pick_number card_id
          t (st : Follower),
     py_getitem json_obj "params" = Ok inner_obj ->
     py_getitem inner_obj "draftId" = Ok (JStr (user ++ ":" ++ event ++ ":" ++ suffix)) ->
     no_colon event = true -> no_colon suffix = true ->
     py_getitem inner_obj "packNumber" = Ok pack -> py_int pack = Ok pack_number ->
     py_getitem inner_obj "pickNumber" = Ok pick -> py_int pick = Ok pick_number ->
     py_getitem inner_obj "cardId" = Ok card -> py_int card = Ok card_id ->
     cur_log_time st = Some t ->
     __handle_draft_pick json_obj st =
       send ENDPOINT_DRAFT_PICK
         [ ("player_id", cur_user st);
           ("event_name", JStr event);
           ("time", JStr (isoformat t));
           ("pack_number", JInt pack_number);
           ("pick_number", JInt pick_number);
           ("card_id", JInt card_id) ]
         (set_events (events st ++ [Log INFO]) (snd (__clear_game_data st)))) /\
  (forall json_obj inner_obj draft_id (st : Follower),
     py_getitem json_obj "params" = Ok inner_obj ->
     py_getitem inner_obj "draftId" = Ok draft_id ->
     py_rsplit3 draft_id = Raise ValueError ->
     __handle_draft_pick json_obj st = (Raise ValueError, snd (__clear_game_data st))).
Proof.
  refine (conj rsplit3_parts (conj _ (conj _ _))).
  - intros a b Ha Hb. unfold no_colon, str in *. split; unfold py_rsplit3.
    + rewrite split_at_first_none by (rewrite forallb_rev_eq; exact Ha). reflexivity.
    + rewrite !list_ascii_of_string_app. cbn [list_ascii_of_string app].
      rewrite rev_after_colon.
      rewrite split_at_first_fresh by (rewrite forallb_rev_eq; exact Hb).
      rewrite split_at_first_none by (rewrite forallb_rev_eq; exact Ha). reflexivity.
  - intros json_obj inner_obj user event suffix pack pick card pack_number pick_number
      card_id t st Hp Hd He Hs Hpa Hpan Hpi Hpin Hc Hcn Ht.
    unfold __handle_draft_pick, getitem, __clear_game_data. do 3 run1.
    rewrite (bind_lift_ok _ _ _ _ (rsplit3_parts user event suffix He Hs)). cbv beta iota.
    run1. rewrite (bind_cur_log_time_isoformat _ _ t) by (simpl_state; exact Ht).
    erewrite bind_lift_ok by (rewrite Hpa; exact Hpan).
    erewrite bind_lift_ok by (rewrite Hpi; exact Hpin).
    erewrite bind_lift_ok by (rewrite Hc; exact Hcn).
    unfold logging, emit. run1. unfold modify. cbn [snd]. simpl_state. reflexivity.
  - intros json_obj inner_obj draft_id st Hp Hd Hr.
    unfold __handle_draft_pick, getitem, __clear_game_data. do 3 run1.
    erewrite bind_lift_raise by exact Hr. reflexivity.
Qed.

(** ** The version check at start-up *)

(** X23.  The version check fails open.  When the server answers the
    three requests for the minimum client version with status codes in
    500-599, [verify_valid_version] warns and sleeps after each of them,
    warns once more and returns: the version is assumed to be valid and
    nothing is compared. *)
Theorem version_check_fails_open requests_get host r0 r1 r2 :
  let url := (host ++ "/" ++ ENDPOINT_CLIENT_VERSION)%string in
  requests_get 0%nat url = Ok r0 -> IS_CODE_FOR_RETRY (status_code r0) = true ->
  requests_get 1%nat url = Ok r1 -> IS_CODE_FOR_RETRY (status_code r1) = true ->
  requests_get 2%nat url = Ok r2 -> IS_CODE_FOR_RETRY (status_code r2) = true ->
  verify_valid_version requests_get host =
    ([ Get url; Logged WARNING; Slept DEFAULT_RETRY_SLEEP_TIME;
       Get url; Logged WARNING; Slept DEFAULT_RETRY_SLEEP_TIME;
       Get url; Logged WARNING; Slept DEFAULT_RETRY_SLEEP_TIME;
       Logged WARNING ], Ok tt).
Proof.
  intros url H0 C0 H1 C1 H2 C2. unfold verify_valid_version. fold url.
  cbn [version_request]. rewrite H0, C0. cbn [negb]. rewrite H1, C1. cbn [negb].
  rewrite H2, C2. reflexivity.
Qed.

Lemma list_ge_prefix v : forall more, list_ge (v ++ more) v = true.
Proof.
  induction v as [| x v IH]; intros more; [destruct more; reflexivity |].
  cbn [app list_ge]. rewrite Z.eqb_refl. apply IH.
Qed.

Lemma list_ge_longer v : forall x more, list_ge v (v ++ x :: more) = false.
Proof.
  induction v as [| y v IH]; intros x more; [reflexivity |].
  cbn [app list_ge]. rewrite Z.eqb_refl. apply IH.
Qed.

(** X24.  Any answer with a status code outside 500-599 is taken for the
    minimum version, and versions are compared as lists of numbers.  The
    text of the answer is decoded as JSON and its [min_version] is split
    at the dots; an error in reading it ends the check with that error.
    The client, whose version is 0.1.8, goes on when its version is at
    least the minimum: the first place where the two differ decides, by
    number (0.1.10 is more than 0.1.8), and a version is more than its
    proper prefixes (0.1.8.0 is more than 0.1.8).  Otherwise the error
    box is shown and the process exits. *)
Theorem version_check_compares_numbers requests_get host r :
  let url := (host ++ "/" ++ ENDPOINT_CLIENT_VERSION)%string in
  requests_get 0%nat url = Ok r ->
  IS_CODE_FOR_RETRY (status_code r) = false ->
  (forall blob min_version e,
     json_loads (JStr (text r)) = Raise e \/
     (json_loads (JStr (text r)) = Ok blob /\ py_getitem blob "min_version" = Raise e) \/
     (json_loads (JStr (text r)) = Ok blob /\ py_getitem blob "min_version" = Ok min_version /\
      version_of min_version = Raise e) ->
     verify_valid_version requests_get host = ([Get url; Logged INFO], Raise e)) /\
  (forall blob min_version min_supported_version,
     json_loads (JStr (text r)) = Ok blob ->
     py_getitem blob "min_version" = Ok min_version ->
     version_of min_version = Ok min_supported_version ->
     verify_valid_version requests_get host =
       if list_ge [0; 1; 8] min_supported_version
       then ([Get url; Logged INFO; Logged INFO], Ok tt)
       else ([Get url; Logged INFO; Logged INFO; ErrorBox],
             Raise (OtherError "SystemExit"))) /\
  (forall a b c,
     list_ge [0; 1; 8] [a; b; c] = true <->
     a < 0 \/ (a = 0 /\ (b < 1 \/ (b = 1 /\ c <= 8)))) /\
  (forall v more, list_ge (v ++ more) v = true) /\
  (forall v x more, list_ge v (v ++ x :: more) = false).
Proof.
  intros url H0 C0.
  assert (E : verify_valid_version requests_get host =
              match (let? blob := json_loads (JStr (text r)) in
                     let? min_version := py_getitem blob "min_version" in
                     let? min_supported_version := version_of min_version in
                     Ok min_supported_version) with
              | Raise e => ([Get url; Logged INFO], Raise e)
              | Ok min_supported_version =>
                  if list_ge [0; 1; 8] min_supported_version
                  then ([Get url; Logged INFO; Logged INFO], Ok tt)
                  else ([Get url; Logged INFO; Logged INFO; ErrorBox],
                        Raise (OtherError "SystemExit"))
              end).
  { unfold verify_valid_version. fold url. cbn [version_request]. rewrite H0, C0.
    cbn [negb]. destruct (json_loads (JStr (text r))) as [blob | e]; [| reflexivity].
    cbn [rbind]. change (version_of (JStr CLIENT_VERSION)) with (Ok [0; 1; 8]).
    cbn [rbind]. destruct (py_getitem blob "min_version") as [mv | e]; [| reflexivity].
    cbn [rbind]. destruct (version_of mv) as [v | e]; reflexivity. }
  refine (conj _ (conj _ (conj _ (conj list_ge_prefix list_ge_longer)))).
  - intros blob min_version e [H | [[H1 H2] | [H1 [H2 H3]]]]; rewrite E.
    + rewrite H. reflexivity.
    + rewrite H1. cbn [rbind]. rewrite H2. reflexivity.
    + rewrite H1. cbn [rbind]. rewrite H2. cbn [rbind]. rewrite H3. reflexivity.
  - intros blob min_version msv H1 H2 H3. rewrite E, H1. cbn [rbind].
    rewrite H2. cbn [rbind]. rewrite H3. reflexivity.
  - intros a b c. cbn [list_ge].
    destruct (0 =? a) eqn:Ea; [apply Z.eqb_eq in Ea | apply Z.eqb_neq in Ea].
    + destruct (1 =? b) eqn:Eb; [apply Z.eqb_eq in Eb | apply Z.eqb_neq in Eb].
      * destruct (8 =? c) eqn:Ec; [apply Z.eqb_eq in Ec | apply Z.eqb_neq in Ec].
        -- split; [intros _; lia | reflexivity].
        -- rewrite Z.ltb_lt. lia.
      * rewrite Z.ltb_lt. lia.
    + rewrite Z.ltb_lt. lia.
Qed.

(** ** Ranks *)


(** ** GRE messages of one entry *)

(** X26.  The GRE messages of an entry are handled in order, and the
    first one that raises ends the entry: what the messages before it did
    stands, the messages after it are not handled, and closing the entry
    logs the error and returns with the buffer empty.  This holds for
    every entry whose effective message the classifier takes for a GRE
    event. *)
Theorem failing_message_ends_entry before message_blob rest e (st1 st2 : Follower) :
  __handle_gre_to_client_message message_blob st1 = (Raise e, st2) ->
  (forall st,
     for_each before __handle_gre_to_client_message st = (Ok tt, st1) ->
     for_each (before ++ message_blob :: rest) __handle_gre_to_client_message st =
       (Raise e, st2)) /\
  (forall st start obj stop w,
     buffer st <> [] -> has_log_time st ->
     JSON_START_REGEX (str (String.concat "" (buffer st))) 0 = Some start ->
     raw_decode (String.concat "" (buffer st)) start = Ok (obj, stop) ->
     __extract_payload obj = Ok w ->
     is_dict w = true ->
     gre_messages_of w = Some (before ++ message_blob :: rest) ->
     for_each before __handle_gre_to_client_message (with_utc_time_of w st) = (Ok tt, st1) ->
     __handle_complete_log_entry st =
       (Ok tt, set_buffer [] (set_events (events st2 ++ [Log ERROR; Log ERROR]) st2))).
Proof.
  intros Hm.
  assert (Hl : forall st,
             for_each before __handle_gre_to_client_message st = (Ok tt, st1) ->
             for_each (before ++ message_blob :: rest) __handle_gre_to_client_message st =
               (Raise e, st2)).
  { intros st Hb. rewrite (for_each_app _ _ _ _ _ Hb). cbn [for_each]. unfold bind.
    rewrite Hm. reflexivity. }
  split; [exact Hl |].
  intros st start obj stop w Hbuf Hlt Hstart Hdec Hw Hd Hg Hb.
  rewrite (gre_entry_runs_messages st start obj stop w _ Hbuf Hlt Hstart Hdec Hw Hd Hg).
  rewrite (Hl _ Hb). reflexivity.
Qed.

(** ** One record per message *)

Lemma logging_posts p lvl : preserves (posts_are p) (logging lvl).
Proof.
  intros st H. unfold logging, emit, modify, posts_are, posts in *. cbn [snd].
  simpl_state. rewrite filter_app. cbn. rewrite app_nil_r. exact H.
Qed.

Lemma clear_game_data_posts p : preserves (posts_are p) __clear_game_data.
Proof. unfold __clear_game_data. pres. Qed.

Lemma cur_log_time_isoformat_posts p : preserves (posts_are p) cur_log_time_isoformat.
Proof. unfold cur_log_time_isoformat. pres. Qed.

#[local] Hint Resolve logging_posts clear_game_data_posts cur_log_time_isoformat_posts : pres.

Lemma sends_none {A} (m : M A) :
  (forall p, preserves (posts_are p) m) -> sends_at_most_one_record m.
Proof.
  intros H st. exists "", [], 0%nat. split; [lia |].
  cbn [repeat]. rewrite app_nil_r. apply (H (posts st) st). reflexivity.
Qed.

Lemma sends_after {A B} (m : M A) (f : A -> M B) :
  (forall p, preserves (posts_are p) m) ->
  (forall a, sends_at_most_one_record (f a)) ->
  sends_at_most_one_record (bind m f).
Proof.
  intros Hm Hf st. unfold bind.
  pose proof (Hm (posts st) st eq_refl) as H. unfold posts_are in H.
  destruct (m st) as [[a | e] st']; cbn [snd] in *.
  - destruct (Hf a st') as [url [blob [k [Hk Hp]]]].
    exists url, blob, k. split; [exact Hk |]. rewrite Hp, H. reflexivity.
  - exists "", [], 0%nat. split; [lia |]. cbn [repeat]. rewrite app_nil_r. exact H.
Qed.

Lemma sends_before {A B} (m : M A) (f : A -> M B) :
  sends_at_most_one_record m ->
  (forall a p, preserves (posts_are p) (f a)) ->
  sends_at_most_one_record (bind m f).
Proof.
  intros Hm Hf st. unfold bind.
  destruct (Hm st) as [url [blob [k [Hk Hp]]]].
  destruct (m st) as [[a | e] st']; cbn [snd] in *.
  - exists url, blob, k. split; [exact Hk |].
    rewrite <- Hp. apply (Hf a (posts st') st'). reflexivity.
  - exists url, blob, k. split; assumption.
Qed.

Lemma sends_send endpoint blob : sends_at_most_one_record (send endpoint blob).
Proof.
  intros st. destruct (send_events endpoint blob st) as [evs [k [Hs [Hp Hk]]]].
  exists (url_of st endpoint), (add_common_fields st blob), k. split; [lia |].
  rewrite Hs, posts_set_events, Hp. reflexivity.
Qed.

(** A method that reads and updates [self], then hands one record to the
    publisher. *)
Ltac one_record_with last :=
  repeat match goal with
         | |- sends_at_most_one_record (send _ _) => apply sends_send
         | |- sends_at_most_one_record (bind _ _) =>
             apply sends_after; [intros; solve [pres] | intros]
         | |- sends_at_most_one_record (if ?c then _ else _) => destruct c
         | |- sends_at_most_one_record (match ?x with _ => _ end) => destruct x
         | |- _ => last
         | |- _ => apply sends_none; intros; solve [pres]
         end.

Ltac one_record := one_record_with fail.

Lemma send_user_info_sends screen_name : sends_at_most_one_record (send_user_info screen_name).
Proof. unfold send_user_info. one_record. Qed.

Lemma send_game_end_sends_one a b c d e f g h i j :
  sends_at_most_one_record (__send_game_end a b c d e f g h i j).
Proof. unfold __send_game_end. one_record. Qed.

Lemma game_over_result_sends_one a b c d :
  sends_at_most_one_record (game_over_result a b c d).
Proof.
  unfold game_over_result, game_over_for, getitem.
  one_record_with
    ltac:(idtac; match goal with
          | |- sends_at_most_one_record (__send_game_end _ _ _ _ _ _ _ _ _ _) =>
              apply send_game_end_sends_one
          end).
Qed.

Lemma scan_results_sends_one a b c l : sends_at_most_one_record (scan_results a b c l).
Proof.
  induction l as [| r l IH]; cbn [scan_results].
  - apply sends_none. intros. pres.
  - apply sends_after; [intros; pres | intros scope].
    destruct (negb _); [exact IH | apply game_over_result_sends_one].
Qed.

Lemma game_over_stage_sends_one a b :
  sends_at_most_one_record (__maybe_handle_game_over_stage a b).
Proof.
  unfold __maybe_handle_game_over_stage.
  one_record_with
    ltac:(idtac; match goal with
          | |- sends_at_most_one_record (scan_results _ _ _ _) =>
              apply scan_results_sends_one
          end).
Qed.

Lemma gre_message_sends_one m : sends_at_most_one_record (__handle_gre_to_client_message m).
Proof.
  unfold __handle_gre_to_client_message, getitem.
  apply sends_after; [intros; pres | intros type].
  destruct (py_eq type (JStr "GREMessageType_SubmitDeckReq")); [one_record |].
  destruct (py_eq type (JStr "GREMessageType_GameStateMessage"));
    [| apply sends_none; intros; pres].
  apply sends_after; [intros; pres | intros gsm].
  apply sends_after; [intros; pres | intros seats].
  apply sends_before; [apply game_over_stage_sends_one | intros _ p].
  unfold track_object, track_zone, track_mulligan, capture_opening_hand, getitem. pres.
Qed.

(** X27.  No message makes the client send two different records.  Each
    handler of the classifier, and the handler of each GRE message, hands
    at most one record to the publisher: whatever the message holds and
    whether the handler returns or raises, all the calls of
    [requests.post] it makes go to one url with one record, and there are
    at most three of them (the first attempt and the retries). *)
Theorem one_record_per_message json_obj :
  sends_at_most_one_record (__handle_login json_obj) /\
  sends_at_most_one_record (__handle_game_end json_obj) /\
  sends_at_most_one_record (__handle_draft_log json_obj) /\
  sends_at_most_one_record (__handle_draft_pick json_obj) /\
  sends_at_most_one_record (__handle_human_draft_pick json_obj) /\
  sends_at_most_one_record (__handle_deck_submission json_obj) /\
  sends_at_most_one_record (__handle_deck_submission_v3 json_obj) /\
  sends_at_most_one_record (__handle_event_completion json_obj) /\
  sends_at_most_one_record (__handle_match_started json_obj) /\
  sends_at_most_one_record (__handle_self_rank_info json_obj) /\
  sends_at_most_one_record (__handle_match_created json_obj) /\
  sends_at_most_one_record (__handle_collection json_obj) /\
  sends_at_most_one_record (__handle_gre_to_client_message json_obj).
Proof.
  repeat split.
  - unfold __handle_login, getitem.
    one_record_with
      ltac:(idtac; match goal with
            | |- sends_at_most_one_record (send_user_info _) => apply send_user_info_sends
            end).
  - unfold __handle_game_end, getitem.
    one_record_with
      ltac:(idtac; match goal with
            | |- sends_at_most_one_record (__send_game_end _ _ _ _ _ _ _ _ _ _) =>
                apply send_game_end_sends_one
            end).
  - unfold __handle_draft_log, getitem. one_record.
  - unfold __handle_draft_pick, getitem. one_record.
  - unfold __handle_human_draft_pick, getitem. one_record.
  - unfold __handle_deck_submission, getitem. one_record.
  - unfold __handle_deck_submission_v3, getitem. one_record.
  - unfold __handle_event_completion, getitem. one_record.
  - unfold __handle_match_started, getitem. apply sends_none. intros. pres.
  - unfold __handle_self_rank_info. apply sends_none. intros. pres.
  - unfold __handle_match_created. apply sends_none. intros. pres.
  - unfold __handle_collection. one_record.
  - apply gre_message_sends_one.
Qed.

End Properties.

(** * Examples *)

(** C1, counterexample.  A fresh follower reads a file whose only line
    is an entry marker without a timestamp followed by a login message.
    At the end of the file the entry is closed: no timestamp has been
    observed (the raw time is still empty, the log time is still the
    constructor's), and yet the entry is extracted, classified as a login
    and a user record is posted. *)
Lemma untimed_entry_is_processed :
  last_raw_time (snd (@parse_log (ref_lib []) untimed_log fresh)) = "" /\
  cur_log_time (snd (@parse_log (ref_lib []) untimed_log fresh)) =
    Some (@fromtimestamp0 (ref_lib [])) /\
  posts (snd (@parse_log (ref_lib []) untimed_log fresh)) =
    [Post "host/api/account"
       [("player_id", JStr "P1"); ("screen_name", JStr "Ann"); ("raw_time", JStr "");
        ("client_version", JStr "0.1.8"); ("token", JStr "token");
        ("utc_time", JStr "1970-01-01T00:00:00")]].
Proof. vm_compute. repeat split. Qed.

(** C1, witness: the same file, at the moment its entry is closed. *)
Lemma complete_log_entry_after_construction_witness :
  buffer (snd (@follow (ref_lib []) (map Line untimed_log) fresh)) <> [] /\
  @__handle_complete_log_entry (ref_lib [])
    (snd (@follow (ref_lib []) (map Line untimed_log) fresh)) =
  @process_entry (ref_lib []) (snd (@follow (ref_lib []) (map Line untimed_log) fresh)).
Proof.
  split.
  - vm_compute. discriminate.
  - apply (proj2 (proj2 (@complete_log_entry_after_construction (ref_lib [])))
             "token" "host" (map Line untimed_log)).
    vm_compute. discriminate.
Defined.

(** C2, counterexample.  Seat 2 holds two cards when the login message
    arrives; after the login handler the hand of seat 2 is still there. *)
Lemma login_leaves_hands :
  cards_in_hand
    (snd (@__handle_login (ref_lib []) login_message
            (after_messages [objects_message; hand_message [103; 101]] fresh))) =
    [(JInt 2, [JInt 70003; JInt 70001])] /\
  cards_in_hand
    (snd (@__handle_login (ref_lib []) login_message
            (after_messages [objects_message; hand_message [103; 101]] fresh))) <> [].
Proof. vm_compute. split; [reflexivity | discriminate]. Qed.

(** C2, witness: a draft-pack notification arriving in the same state. *)
Lemma reset_handlers_clear_game_data_witness :
  py_getitem draft_pack_message "DraftStatus" = Ok (JStr "Draft.PickNext") /\
  game_data_cleared
    (snd (@__handle_draft_log (ref_lib []) draft_pack_message
            (after_messages [objects_message; hand_message [103; 101]] fresh))).
Proof.
  split; [reflexivity |].
  apply (@reset_handlers_clear_game_data (ref_lib []) draft_pack_message). reflexivity.
Defined.

(** The order of the cases: an envelope that has [id], [payload] and a
    [request] that decodes to the list [[7]] yields its payload. *)
Example payload_wins_over_request :
  dict_has "id" [("id", JInt 5); ("payload", JObj [("a", JInt 1)]); ("request", JStr "[7]")]
    = true /\
  @raw_decode_value (ref_lib []) (JStr "[7]") = Ok (JArr [JInt 7], 3%nat) /\
  @__extract_payload (ref_lib []) both_message = Ok (JObj [("a", JInt 1)]) /\
  @__extract_payload (ref_lib []) both_message <> Ok (JArr [JInt 7]).
Proof. vm_compute. repeat split. discriminate. Qed.

(** C8, witness: the envelope with [id] and [request] only. *)
Lemma extract_payload_cases_witness :
  @__extract_payload (ref_lib []) request_message = Ok (JArr [JInt 7]).
Proof.
  apply (proj1 (proj2 (proj2 (@extract_payload_cases (ref_lib []) _)))
           (JStr "[7]") (JArr [JInt 7]) 3%nat); reflexivity.
Defined.

(** C6, witness.  Answers 503, 503, 200: three posts, the 200 is
    returned.  Answers 500, 500, 500: three posts, the last 500 is
    returned. *)
Lemma retry_post_policy_witness :
  (fst (@__retry_post (ref_lib [503; 503; 200]) "host/game" [] RETRIES
          DEFAULT_RETRY_SLEEP_TIME (@__init__ (ref_lib [503; 503; 200]) "token" "host")) =
     Ok {| status_code := 200; text := "" |} /\
   List.length
     (posts (snd (@__retry_post (ref_lib [503; 503; 200]) "host/game" [] RETRIES
                    DEFAULT_RETRY_SLEEP_TIME
                    (@__init__ (ref_lib [503; 503; 200]) "token" "host")))) = 3%nat) /\
  (fst (@__retry_post (ref_lib [500; 500; 500]) "host/game" [] RETRIES
          DEFAULT_RETRY_SLEEP_TIME (@__init__ (ref_lib [500; 500; 500]) "token" "host")) =
     Ok {| status_code := 500; text := "" |} /\
   List.length
     (posts (snd (@__retry_post (ref_lib [500; 500; 500]) "host/game" [] RETRIES
                    DEFAULT_RETRY_SLEEP_TIME
                    (@__init__ (ref_lib [500; 500; 500]) "token" "host")))) = 3%nat).
Proof.
  split.
  - destruct (@retry_post_policy (ref_lib [503; 503; 200])
                (@__init__ (ref_lib [503; 503; 200]) "token" "host") "host/game" []
                _ _ _ eq_refl eq_refl eq_refl) as [H _].
    rewrite H. split; reflexivity.
  - destruct (@retry_post_policy (ref_lib [500; 500; 500])
                (@__init__ (ref_lib [500; 500; 500]) "token" "host") "host/game" []
                _ _ _ eq_refl eq_refl eq_refl) as [H _].
    rewrite H. split; reflexivity.
Defined.


(** The entry with the odd deck list is logged as an error and dropped;
    the login entry that follows it in the file is processed as usual. *)
Example odd_deck_entry_is_dropped :
  fst (@parse_log (ref_lib []) odd_deck_log fresh) = Ok tt /\
  events (snd (@parse_log (ref_lib []) odd_deck_log fresh)) =
    [Log ERROR; Log ERROR; Log INFO;
     Post "host/api/account"
       [("player_id", JStr "P1"); ("screen_name", JStr "Ann");
        ("raw_time", JStr "2/25/2020 10:03:16 PM");
        ("client_version", JStr "0.1.8"); ("token", JStr "token");
        ("utc_time", JStr "1970-01-01T00:00:00")];
     Log INFO; Log INFO].
Proof. vm_compute. split; reflexivity. Qed.

(** C3, counterexample.  Seat 2 owns the instances 101, 102 and 103.  A
    hand zone lists 103 and the unknown instance 999: the hand has two
    entries, the second one [None]; the unknown id is not skipped. *)
Lemma unknown_instance_is_kept :
  cards_in_hand (after_messages [objects_message; hand_message [103; 999]] fresh) =
    [(JInt 2, [JInt 70003; JNull])] /\
  lookup [] (JInt 2)
    (cards_in_hand (after_messages [objects_message; hand_message [103; 999]] fresh)) <>
    [JInt 70003].
Proof. vm_compute. split; [reflexivity | discriminate]. Qed.

(** C3, witness.  With the same three instances owned, the zone that
    lists 103 and 101 gives seat 2 the hand 70003, 70001. *)
Lemma hand_zone_rebuilds_hand_witness :
  pd_get (JInt 2)
    (cards_in_hand
       (snd (@track_zone (ref_lib []) (hand_zone [103; 101])
               (after_messages [objects_message] fresh)))) =
    Some [JInt 70003; JInt 70001].
Proof.
  apply (proj2 (proj2 (@hand_zone_rebuilds_hand (ref_lib []) (hand_zone [103; 101])
                         (JInt 2) [JInt 103; JInt 101]
                         (after_messages [objects_message] fresh)
                         eq_refl eq_refl eq_refl eq_refl eq_refl))).
  reflexivity.
Defined.

(** The example of the specification, through the message handler: three
    instances of seat 2 are created, then a hand zone lists two of them. *)
Example hand_of_two_listed_instances :
  cards_in_hand (after_messages [objects_message; hand_message [103; 101]] fresh) =
    [(JInt 2, [JInt 70003; JInt 70001])].
Proof. vm_compute. reflexivity. Qed.

(** C5, witness.  The results hold two games and the match; seat 1 is
    the first system seat.  The scan from the end passes the match result
    and stops at the second game. *)
Lemma game_over_emits_one_record_witness :
  exists k, (1 <= k <= 3)%nat /\
    posts (snd (@__maybe_handle_game_over_stage (ref_lib []) (JArr [JInt 1])
                  (game_over_state two_games) fresh)) =
      posts fresh ++
      repeat (Post (url_of fresh ENDPOINT_GAME_RESULT)
                (add_common_fields fresh
                   (game_over_record fresh (@fromtimestamp0 (ref_lib [])) (JInt 1)
                      (JStr "M1") (JInt 1) (JStr "ResultType_WinLoss")
                      (JStr "ResultReason_Game") (JInt 9)))) k.
Proof.
  apply (proj2 (proj2 (@game_over_emits_one_record (ref_lib []) (JArr [JInt 1])
                         (game_over_state two_games) (game_over_info two_games)
                         two_games fresh eq_refl eq_refl eq_refl eq_refl))
           (game_result "MatchScope_Game" 1) (JInt 1) []);
    reflexivity.
Defined.

(** The record of that game: seat 1 won, in turn 9; it is posted once. *)
Example game_over_record_of_seat_1 :
  posts (snd (@__maybe_handle_game_over_stage (ref_lib []) (JArr [JInt 1])
                (game_over_state two_games) fresh)) =
    [Post "host/game"
       [("player_id", JNull); ("event_name", JNull); ("match_id", JStr "M1");
        ("time", JStr "1970-01-01T00:00:00"); ("on_play", JBool false);
        ("won", JBool true); ("win_type", JStr "ResultType_WinLoss");
        ("game_end_reason", JStr "ResultReason_Game"); ("opening_hand", JArr []);
        ("mulligans", JArr []); ("mulligan_count", JInt (-1));
        ("opponent_mulligan_count", JInt (-1)); ("turns", JInt 9);
        ("duration", JInt (-1)); ("opponent_card_ids", JArr []);
        ("limited_rank", JNull); ("constructed_rank", JNull); ("opponent_rank", JNull);
        ("client_version", JStr "0.1.8"); ("token", JStr "token");
        ("utc_time", JStr "1970-01-01T00:00:00")]].
Proof. vm_compute. reflexivity. Qed.

(** C10, counterexample.  One entry carries two GRE messages: a game-over
    message of seat 1, then a game-over message with a per-game result
    and no seat ids.  The read of the second message fails and is logged
    at the boundary of the entry, and yet a game-result record is emitted
    for that entry: the one of the first message. *)
Lemma record_before_seatless_message :
  fst (@parse_log (ref_lib []) seat_then_seatless_log fresh) = Ok tt /\
  map (fun e => match e with
                | Post url _ => Post url []
                | other => other
                end)
    (events (snd (@parse_log (ref_lib []) seat_then_seatless_log fresh))) =
    [Log DEBUG; Log INFO; Post "host/game" []; Log INFO; Log ERROR; Log ERROR; Log INFO].
Proof. vm_compute. split; reflexivity. Qed.

(** C10, witness.  The same game state with an empty list of seat ids. *)
Lemma game_over_reads_first_seat_witness :
  @__maybe_handle_game_over_stage (ref_lib []) (JArr []) (game_over_state two_games)
    fresh = (Raise IndexError, fresh).
Proof.
  apply (proj1 (@game_over_reads_first_seat (ref_lib []) (game_over_state two_games)
                  (game_over_info two_games) two_games
                  (game_result "MatchScope_Game" 1)
                  eq_refl eq_refl eq_refl eq_refl eq_refl)).
Defined.

(** A log whose only entry is that message: the error is logged, nothing
    is posted, and the pass over the file ends normally. *)
Example seatless_game_over_is_logged :
  fst (@parse_log (ref_lib []) seatless_log fresh) = Ok tt /\
  events (snd (@parse_log (ref_lib []) seatless_log fresh)) =
    [Log ERROR; Log ERROR; Log INFO].
Proof. vm_compute. split; reflexivity. Qed.

(** C4, witness.  Seat 1 is seen at the counts 0, 1, 1 and 2, seat 2 at
    the count 0: three hands are captured for seat 1. *)
Lemma mulligan_history_and_report_witness :
  fst (@observe (ref_lib []) three_hands fresh) = Ok tt /\
  List.length (history (JInt 1) (snd (@observe (ref_lib []) three_hands fresh))) = 3%nat.
Proof.
  assert (H : climbs (JInt 1) 0 three_hands 3).
  { apply climbs_next, climbs_other; [reflexivity | reflexivity |].
    apply climbs_next, climbs_again; [cbn; lia |].
    apply climbs_next, climbs_done. }
  destruct (@mulligan_history_and_report (ref_lib []) (JInt 1) three_hands 2 fresh
              eq_refl eq_refl eq_refl H) as [Hok [Hlen _]].
  split; [exact Hok | exact Hlen].
Defined.

(** The example of the specification, through the message handler: seat 1
    is pending at the counts 0, 1 and 2, then the game ends.  Three hands
    were captured, and the record reports two mulligans. *)
Example three_hands_two_mulligans :
  List.length
    (history (JInt 1)
       (after_messages
          [mulligan_message 1 0; mulligan_message 1 1; mulligan_message 1 2] fresh)) =
    3%nat /\
  map (fun e => match e with
                | Post _ blob => dict_get "mulligans" blob
                | _ => None
                end)
    (posts (after_messages
              [mulligan_message 1 0; mulligan_message 1 1; mulligan_message 1 2;
               game_over_message [1] two_games] fresh)) =
    [Some (JArr [JArr []; JArr []])].
Proof. vm_compute. split; reflexivity. Qed.

(** * Examples for the further properties *)

Lemma ref_server_answers codes : @server_answers (ref_lib codes).
Proof. intros n url blob. eexists. reflexivity. Qed.

(** X1, witness.  A record that brings its own [token]: the client's
    token replaces it, the other key is kept. *)
Lemma retry_post_contract_witness :
  0 <= 2 /\
  dict_get "token"
    (@add_common_fields (ref_lib []) fresh [("token", JStr "mine"); ("a", JInt 1)]) =
    Some (JStr "token") /\
  dict_get "a"
    (@add_common_fields (ref_lib []) fresh [("token", JStr "mine"); ("a", JInt 1)]) =
    Some (JInt 1).
Proof.
  assert (H : 0 <= 2) by lia.
  pose proof (@retry_post_contract (ref_lib []) "url" [("token", JStr "mine"); ("a", JInt 1)]
                2 1 fresh H) as [_ [_ [Ht [_ Hk]]]].
  refine (conj H (conj Ht _)). apply (Hk "a"); discriminate.
Defined.

(** The server answers 503 twice and then 404: three posts, and the
    answer 404 is final. *)
Example three_posts_end_in_404 :
  option_map status_code
    (match fst (@__retry_post (ref_lib [503; 503; 404]) "url" [] 2 1
                  (@__init__ (ref_lib [503; 503; 404]) "token" "host")) with
     | Ok r => Some r
     | Raise _ => None
     end) = Some 404 /\
  List.length
    (posts (snd (@__retry_post (ref_lib [503; 503; 404]) "url" [] 2 1
                   (@__init__ (ref_lib [503; 503; 404]) "token" "host")))) = 3%nat.
Proof. vm_compute. split; reflexivity. Qed.

(** X2, witness.  The server cannot be reached: one call, then the
    exception; and a budget of [-1] makes no call at all. *)
Lemma retry_post_lets_errors_out_witness :
  @__retry_post offline_lib "url" [] 2 1 (@__init__ offline_lib "token" "host") =
    (Raise (OtherError "ConnectionError"),
     set_events
       [Post "url" (@add_common_fields offline_lib (@__init__ offline_lib "token" "host") [])]
       (@__init__ offline_lib "token" "host")) /\
  @__retry_post (ref_lib []) "url" [] (-1) 1 fresh = (Raise UnboundLocalError, fresh).
Proof.
  split.
  - apply (proj1 (@retry_post_lets_errors_out offline_lib "url" [] 2 1
                    (@__init__ offline_lib "token" "host"))); [lia | reflexivity].
  - apply (proj2 (@retry_post_lets_errors_out (ref_lib []) "url" [] (-1) 1 fresh)). lia.
Defined.

(** X3, witness.  The log whose first entry fails in its handler: the
    pass over the file returns. *)
Lemma parse_log_returns_witness :
  forallb (@timestamps_parse (ref_lib [])) odd_deck_log = true /\
  fst (@parse_log (ref_lib []) odd_deck_log fresh) = Ok tt /\
  buffer (snd (@parse_log (ref_lib []) odd_deck_log fresh)) = [].
Proof.
  assert (H : forallb (@timestamps_parse (ref_lib [])) odd_deck_log = true)
    by (vm_compute; reflexivity).
  exact (conj H (@parse_log_returns (ref_lib []) odd_deck_log fresh
                   (ref_server_answers []) H)).
Defined.

(** X4, witness.  An entry marker followed by a blank: the blank is read
    as the time of the entry, no format accepts it, and the pass over the
    file ends in [ValueError] before the login entry that follows is
    read. *)
Lemma rejected_time_ends_parse_log_witness :
  LOG_START_REGEX_TIMED (str blank_after_marker) =
    Some ([" "%char], str (line "Connecting to the server")) /\
  @parse_log (ref_lib []) (blank_after_marker :: untimed_log) fresh =
    (Raise ValueError, @set_last_raw_time (ref_lib []) " " fresh).
Proof.
  split; [vm_compute; reflexivity |].
  apply (proj2 (@rejected_time_ends_parse_log (ref_lib []) blank_after_marker [" "%char]
                  fresh eq_refl eq_refl)
           (str (line "Connecting to the server")) eq_refl eq_refl).
Defined.

(** A date written with dots is found by [TIMESTAMP_REGEX] and rejected
    by [extract_time]. *)
Example dotted_date_ends_parse_log :
  fst (@parse_log (ref_lib []) (dotted_date_line :: untimed_log) fresh) = Raise ValueError /\
  posts (snd (@parse_log (ref_lib []) (dotted_date_line :: untimed_log) fresh)) = [].
Proof. vm_compute. split; reflexivity. Qed.

(** X6, witness.  An array printed over three lines after an entry
    marker: the three lines join the text of the entry. *)
Lemma continuation_lines_extend_entry_witness :
  forallb is_continuation array_lines = true /\
  @follow (ref_lib []) (map Line array_lines) fresh =
    (Ok tt, @set_buffer (ref_lib []) array_lines fresh).
Proof.
  split; [vm_compute; reflexivity |].
  apply (proj1 (@continuation_lines_extend_entry (ref_lib []) array_lines fresh eq_refl)).
Defined.

(** X7, witness.  The account line carries the time 10:03:15; the user
    record is posted with the empty raw time the follower started with. *)
Lemma account_line_reports_earlier_time_witness :
  ACCOUNT_INFO_REGEX (str account_line) = Some (str "Ann", str "P1") /\
  TIMESTAMP_REGEX (str account_line) = Some (str "2020-02-25 10:03:15") /\
  exists evs k,
    last_raw_time (snd (@__append_line (ref_lib []) account_line fresh)) =
      "2020-02-25 10:03:15" /\
    filter is_post evs =
      repeat (Post "host/api/account"
                (@add_common_fields (ref_lib []) fresh
                   [("player_id", JStr "P1"); ("screen_name", JStr "Ann");
                    ("raw_time", JStr "")])) k /\
    (1 <= k <= 3)%nat.
Proof.
  assert (Ha : ACCOUNT_INFO_REGEX (str account_line) = Some (str "Ann", str "P1"))
    by (vm_compute; reflexivity).
  assert (Ht : TIMESTAMP_REGEX (str account_line) = Some (str "2020-02-25 10:03:15"))
    by (vm_compute; reflexivity).
  refine (conj Ha (conj Ht _)).
  destruct (@account_line_reports_earlier_time (ref_lib []) account_line (str "Ann")
              (str "P1") (str "2020-02-25 10:03:15")
              {| dt_year := 2020; dt_month := 2; dt_day := 25; dt_hour := 10;
                 dt_minute := 3; dt_second := 15; dt_micro := 0 |}
              fresh (ref_server_answers []) Ha Ht eq_refl eq_refl) as [evs [k [E [Hp Hk]]]].
  exists evs, k. rewrite E. exact (conj eq_refl (conj Hp Hk)).
Defined.

(** The same line, run: one post, with the raw time of before the line. *)
Example account_line_is_posted_with_old_time :
  posts (snd (@__append_line (ref_lib []) account_line fresh)) =
    [Post "host/api/account"
       [("player_id", JStr "P1"); ("screen_name", JStr "Ann"); ("raw_time", JStr "");
        ("client_version", JStr "0.1.8"); ("token", JStr "token");
        ("utc_time", JStr "1970-01-01T00:00:00")]] /\
  last_raw_time (snd (@__append_line (ref_lib []) account_line fresh)) =
    "2020-02-25 10:03:15".
Proof. vm_compute. split; reflexivity. Qed.

(** X8, witness.  An object with an unknown key is ignored. *)
Lemma unclassified_message_is_ignored_witness :
  @dispatch (ref_lib []) "text" (JObj [("unknown", JInt 1)]) fresh = (Ok tt, fresh).
Proof.
  apply (proj1 (@unclassified_message_is_ignored (ref_lib []) "text" [("unknown", JInt 1)]
                  fresh eq_refl)).
  reflexivity.
Defined.

(** X9, witness.  The array of the two strings [id] and [payload]. *)
Lemma top_level_array_is_dropped_witness :
  @__handle_blob (ref_lib []) (dumps (JArr [JStr "id"; JStr "payload"])) fresh =
    (Raise TypeError, fresh).
Proof.
  apply (@top_level_array_is_dropped (ref_lib []) (dumps (JArr [JStr "id"; JStr "payload"]))
           0%nat [JStr "id"; JStr "payload"] 17%nat fresh); reflexivity.
Defined.

(** X10, witness.  A bracket that opens no JSON, followed by an object:
    the object is not looked at. *)
Lemma json_is_sought_at_first_bracket_witness :
  @__handle_blob (ref_lib []) ("[abc] " ++ dumps (JObj [("DraftStatus", JStr "x")])) fresh =
    (Ok tt, @set_events (ref_lib []) [Log DEBUG] fresh).
Proof.
  apply (proj2 (proj2 (@json_is_sought_at_first_bracket (ref_lib [])))
           ("[abc] " ++ dumps (JObj [("DraftStatus", JStr "x")]))%string 0%nat fresh);
    reflexivity.
Defined.

(** X11, witness.  A card with quantity zero and no [Id], then two copies
    of card 7. *)
Lemma deck_submission_expands_witness :
  card_ids_by_quantity [JObj [("Quantity", JInt 0)]; card_entry (JInt 7, 2)] =
    Ok [JInt 7; JInt 7].
Proof.
  apply (proj1 (@deck_submission_expands (ref_lib []))
           [JObj [("Quantity", JInt 0)]; card_entry (JInt 7, 2)]
           [(JNull, 0); (JInt 7, 2)]).
  repeat constructor. cbn. intros H. discriminate H.
Defined.

(** X12, witness.  No turn info; two players in their turns 4 and 5. *)
Lemma turn_count_cases_witness :
  turn_count_of
    (JObj [("players", JArr [JObj [("turnNumber", JInt 4)];
                             JObj [("turnNumber", JInt 5)]])]) = Ok (JInt 9).
Proof.
  apply (proj1 (proj2 (@turn_count_cases
                         (JObj [("players", JArr [JObj [("turnNumber", JInt 4)];
                                                  JObj [("turnNumber", JInt 5)]])])
                         [] eq_refl))
           (JObj [("turnNumber", JInt 4)]) [JObj [("turnNumber", JInt 5)]] [4; 5]);
    [left; reflexivity | reflexivity | repeat constructor].
Defined.

(** X13, witness.  Match M1 of a quick draft is started. *)
Lemma match_started_correlates_event_witness :
  @__handle_match_started (ref_lib []) match_started_message fresh =
    (Ok tt,
     @set_current_match_event_id (ref_lib [])
       (Some (JStr "M1", JStr "QuickDraft_M20")) fresh).
Proof.
  apply (proj1 (proj1 (@match_started_correlates_event (ref_lib []) match_started_message
                         (JObj [("gameRoomInfo",
                                 JObj [("gameRoomConfig",
                                        JObj [("matchId", JStr "M1");
                                              ("eventId", JStr "QuickDraft_M20")])])])
                         (JObj [("gameRoomConfig",
                                 JObj [("matchId", JStr "M1");
                                       ("eventId", JStr "QuickDraft_M20")])])
                         [("matchId", JStr "M1"); ("eventId", JStr "QuickDraft_M20")]
                         fresh eq_refl eq_refl eq_refl)
                  (JStr "M1") (JStr "QuickDraft_M20") eq_refl eq_refl)).
Defined.

(** X14, witness.  Instance 101 of seat 2 is seen again, now as card
    70009. *)
Lemma track_object_records_witness :
  resolve
    (lookup [] (JInt 2)
       (objects_by_owner
          (snd (@track_object (ref_lib []) (card_object 101 70009)
                  (after_messages [objects_message] fresh)))))
    (JInt 101) = JInt 70009.
Proof.
  apply (proj1 (proj2 (proj1 (@track_object_records (ref_lib []) (card_object 101 70009)
                                (after_messages [objects_message] fresh))
                         (JInt 2) (JInt 101) (JInt 70009)
                         eq_refl eq_refl eq_refl eq_refl eq_refl eq_refl))).
Defined.

(** X15, witness.  Seat 1 is seen four times, once with a count seen
    before: its counter is 4, while three hands were captured. *)
Lemma mulligan_count_counts_decisions_witness :
  presentations (JInt 1) three_hands = 4%nat /\
  lookup 0 (JInt 1)
    (opening_hand_count_by_seat (snd (@observe (ref_lib []) three_hands fresh))) = 4.
Proof.
  split; [reflexivity |].
  apply (proj1 (proj2 (@mulligan_count_counts_decisions (ref_lib []) (JInt 1) three_hands
                         fresh eq_refl eq_refl))).
Defined.

(** X16, witness.  The first decision names seat 2 as the active player;
    a later decision that names seat 1 does not change the marker. *)
Lemma starting_team_is_set_once_witness :
  starting_team_id
    (snd (@observe (ref_lib []) [(JObj [("activePlayer", JInt 1)], (JInt 2, JInt 0))]
            (snd (@track_mulligan (ref_lib []) (JObj [("activePlayer", JInt 2)])
                    (JInt 1, JInt 0) fresh)))) = JInt 2.
Proof.
  rewrite (proj2 (@starting_team_is_set_once (ref_lib []))
             [(JObj [("activePlayer", JInt 1)], (JInt 2, JInt 0))]
             (snd (@track_mulligan (ref_lib []) (JObj [("activePlayer", JInt 2)])
                     (JInt 1, JInt 0) fresh))).
  - apply (proj1 (@starting_team_is_set_once (ref_lib [])) [("activePlayer", JInt 2)]
             (JInt 1) (JInt 0) fresh); reflexivity.
  - vm_compute. discriminate.
Defined.

(** X17, witness.  Seat 2 holds two cards at the upkeep of turn 1. *)
Lemma opening_hands_are_captured_once_witness :
  @capture_opening_hand (ref_lib []) (JObj first_upkeep)
    (after_messages [objects_message; hand_message [103; 101]] fresh) =
    (Ok tt,
     @set_opening_hand (ref_lib []) [(JInt 2, [JInt 70003; JInt 70001])]
       (after_messages [objects_message; hand_message [103; 101]] fresh)).
Proof.
  apply (proj1 (proj2 (@opening_hands_are_captured_once (ref_lib []) first_upkeep
                         (after_messages [objects_message; hand_message [103; 101]] fresh))));
    reflexivity.
Defined.

(** X18, witness.  A game ends while the server cannot be reached: the
    post raises, and the game data is empty all the same. *)
Lemma game_end_resets_game_data_witness :
  fst (@__send_game_end offline_lib (JInt 1) (JStr "M1") (JArr []) JNull (JBool true)
         (JBool true) JNull JNull (JInt 9) (JInt (-1))
         (snd (@track_object offline_lib (card_object 101 70001)
                 (@__init__ offline_lib "token" "host")))) =
    Raise (OtherError "ConnectionError") /\
  @game_data_cleared offline_lib
    (snd (@__send_game_end offline_lib (JInt 1) (JStr "M1") (JArr []) JNull (JBool true)
            (JBool true) JNull JNull (JInt 9) (JInt (-1))
            (snd (@track_object offline_lib (card_object 101 70001)
                    (@__init__ offline_lib "token" "host"))))).
Proof.
  split; [vm_compute; reflexivity |].
  apply (proj1 (@game_end_resets_game_data offline_lib (JInt 1) (JStr "M1") (JArr []) JNull
                  (JBool true) (JBool true) JNull JNull (JInt 9) (JInt (-1))
                  (@fromtimestamp0 offline_lib)
                  (snd (@track_object offline_lib (card_object 101 70001)
                          (@__init__ offline_lib "token" "host")))
                  eq_refl) eq_refl).
Defined.

(** X19, witness.  The game-stop message of seat 1, on a fresh follower. *)
Lemma game_stop_sends_payload_witness :
  @__handle_game_end (ref_lib []) game_stop_message fresh =
    @send (ref_lib []) ENDPOINT_GAME_RESULT
      (@game_record (ref_lib []) fresh (JStr "1970-01-01T00:00:00") (JInt 1) (JStr "M1")
         (JArr [JArr [JInt 70001; JInt 70002]]) (JStr "QuickDraft_M20") (JBool false)
         (JBool true) (JStr "WinLoss") (JStr "Game") (JInt 9) (JInt 300))
      (@set_events (ref_lib []) [Log DEBUG; Log INFO] fresh).
Proof.
  apply (@game_stop_sends_payload (ref_lib []) game_stop_message
           (JObj [("messageName", JStr "DuelScene.GameStop");
                  ("payloadObject", game_stop_payload)])
           game_stop_payload (JInt 1) (JStr "M1") [[JInt 70001; JInt 70002]]
           (JStr "QuickDraft_M20") (JInt 1) (JInt 2) (JInt 1) (JStr "WinLoss") (JStr "Game")
           (JInt 9) (JInt 300) (@fromtimestamp0 (ref_lib [])) fresh);
    reflexivity.
Defined.

(** The record that message makes the client post. *)
Example game_stop_record :
  posts (snd (@__handle_game_end (ref_lib []) game_stop_message fresh)) =
    [Post "host/game"
       [("player_id", JNull); ("event_name", JStr "QuickDraft_M20");
        ("match_id", JStr "M1"); ("time", JStr "1970-01-01T00:00:00");
        ("on_play", JBool false); ("won", JBool true); ("win_type", JStr "WinLoss");
        ("game_end_reason", JStr "Game"); ("opening_hand", JArr []);
        ("mulligans", JArr [JArr [JInt 70001; JInt 70002]]);
        ("mulligan_count", JInt (-1)); ("opponent_mulligan_count", JInt (-1));
        ("turns", JInt 9); ("duration", JInt 300); ("opponent_card_ids", JArr []);
        ("limited_rank", JNull); ("constructed_rank", JNull); ("opponent_rank", JNull);
        ("client_version", JStr "0.1.8"); ("token", JStr "token");
        ("utc_time", JStr "1970-01-01T00:00:00")]].
Proof. vm_compute. reflexivity. Qed.

(** X20, witness.  A deck is submitted during a match in which seat 2
    holds three cards: the cards are still recorded afterwards. *)
Lemma handlers_without_reset_keep_game_data_witness :
  game_data
    (snd (@__handle_gre_to_client_message (ref_lib []) submit_deck_message
            (after_messages [objects_message] fresh))) =
  game_data (after_messages [objects_message] fresh).
Proof.
  apply (proj1 (proj2 (proj2 (proj2 (proj2
           (@handlers_without_reset_keep_game_data (ref_lib []) submit_deck_message
              (after_messages [objects_message] fresh))))))
           (JStr "GREMessageType_SubmitDeckReq")); reflexivity.
Defined.

(** X21, witness.  The message has no timestamp of its own; the one of
    its payload object counts, in ticks of 100 nanoseconds since year 1. *)
Lemma utc_timestamp_sources_witness :
  @__maybe_get_utc_timestamp (ref_lib [])
    (JObj [("payloadObject", JObj [("timestamp", JStr "637182793950000000")])]) =
  @__maybe_get_utc_timestamp (ref_lib [])
    (JObj [("timestamp", JStr "637182793950000000")]).
Proof.
  apply (proj1 (proj2 (proj2 (proj2
           (@utc_timestamp_sources (ref_lib [])
              [("payloadObject", JObj [("timestamp", JStr "637182793950000000")])]))))
           [("timestamp", JStr "637182793950000000")] (JStr "637182793950000000"));
    reflexivity.
Defined.

(** The date those ticks stand for. *)
Example ticks_of_a_february_night :
  match @__maybe_get_utc_timestamp (ref_lib [])
          (JObj [("timestamp", JStr "637182793950000000")]) with
  | Ok (Some t) => ref_isoformat t
  | _ => ""
  end = "2020-02-26T02:03:15".
Proof. vm_compute. reflexivity. Qed.

(** X22, witness.  The user part of the draft id holds a colon. *)
Lemma draft_id_names_event_witness :
  @__handle_draft_pick (ref_lib []) draft_pick_message fresh =
    @send (ref_lib []) ENDPOINT_DRAFT_PICK
      [ ("player_id", JNull);
        ("event_name", JStr "QuickDraft_M20");
        ("time", JStr "1970-01-01T00:00:00");
        ("pack_number", JInt 0);
        ("pick_number", JInt 3);
        ("card_id", JInt 70001) ]
      (@set_events (ref_lib []) [Log INFO] fresh).
Proof.
  apply (proj1 (proj2 (proj2 (@draft_id_names_event (ref_lib []))))
           draft_pick_message
           (JObj [("draftId", JStr "P:1:QuickDraft_M20:Draft");
                  ("packNumber", JStr "0");
                  ("pickNumber", JInt 3);
                  ("cardId", JStr "70001")])
           "P:1" "QuickDraft_M20" "Draft" (JStr "0") (JInt 3) (JStr "70001") 0 3 70001
           (@fromtimestamp0 (ref_lib [])) fresh);
    reflexivity.
Defined.

(** X23, witness.  The server answers 503 to every request. *)
Lemma version_check_fails_open_witness :
  snd (@verify_valid_version (ref_lib []) (version_server 503 "") "host") = Ok tt /\
  List.length (fst (@verify_valid_version (ref_lib []) (version_server 503 "") "host")) =
    10%nat.
Proof.
  rewrite (@version_check_fails_open (ref_lib []) (version_server 503 "") "host"
             {| status_code := 503; text := "" |} {| status_code := 503; text := "" |}
             {| status_code := 503; text := "" |}
             eq_refl eq_refl eq_refl eq_refl eq_refl eq_refl).
  split; reflexivity.
Defined.

(** X24, witness.  The server asks for version 0.1.10 at least: the
    client, at 0.1.8, shows the error box and exits. *)
Lemma version_check_compares_numbers_witness :
  version_of (JStr "0.1.10") = Ok [0; 1; 10] /\
  @verify_valid_version (ref_lib [])
    (version_server 200 (dumps (JObj [("min_version", JStr "0.1.10")]))) "host" =
    ([Get "host/min_client_version"; Logged INFO; Logged INFO; ErrorBox],
     Raise (OtherError "SystemExit")).
Proof.
  split; [reflexivity |].
  apply (proj1 (proj2 (@version_check_compares_numbers (ref_lib [])
                         (version_server 200 (dumps (JObj [("min_version", JStr "0.1.10")])))
                         "host"
                         {| status_code := 200;
                            text := dumps (JObj [("min_version", JStr "0.1.10")]) |}
                         eq_refl eq_refl))
           (JObj [("min_version", JStr "0.1.10")]) (JStr "0.1.10") [0; 1; 10]);
    reflexivity.
Defined.

(** A page that is not JSON, sent with status 404, ends the check with
    the decoder's error. *)
Example version_check_on_a_404_page :
  snd (@verify_valid_version (ref_lib []) (version_server 404 "<html>404</html>") "host") =
    Raise JSONDecodeError.
Proof. vm_compute. reflexivity. Qed.

(** X26, witness.  Three cards are recorded, then a message without a
    type follows: the cards stand, the hand zone after it is not read. *)
Lemma failing_message_ends_entry_witness :
  @for_each (ref_lib []) json ([objects_message] ++ JObj [] :: [hand_message [103; 101]])
    (@__handle_gre_to_client_message (ref_lib [])) fresh =
    (Raise KeyError, after_messages [objects_message] fresh).
Proof.
  assert (F : fst (@for_each (ref_lib []) json [objects_message]
                     (@__handle_gre_to_client_message (ref_lib [])) fresh) = Ok tt)
    by (vm_compute; reflexivity).
  assert (H1 : @for_each (ref_lib []) json [objects_message]
                 (@__handle_gre_to_client_message (ref_lib [])) fresh =
               (Ok tt, after_messages [objects_message] fresh)).
  { unfold after_messages.
    destruct (@for_each (ref_lib []) json [objects_message]
                (@__handle_gre_to_client_message (ref_lib [])) fresh) as [r s].
    cbn [fst snd] in *. rewrite F. reflexivity. }
  assert (H2 : @__handle_gre_to_client_message (ref_lib []) (JObj [])
                 (after_messages [objects_message] fresh) =
               (Raise KeyError, after_messages [objects_message] fresh)).
  { generalize (after_messages [objects_message] fresh). intros s. reflexivity. }
  exact (proj1 (@failing_message_ends_entry (ref_lib []) [objects_message] (JObj [])
                  [hand_message [103; 101]] KeyError
                  (after_messages [objects_message] fresh)
                  (after_messages [objects_message] fresh) H2) fresh H1).
Defined.
